(** * A day-indexed weight journal: entry store, day navigation, chart window

    Shallow embedding of the three script variants of the repository:
    - [src/app.js]: Save button, swipe navigation, native date picker;
    - [src/unnamed/part_001] ("Mass"): auto-save, drag-follow swipe, 7-day chart;
    - [src/unnamed/part_000]: the oldest variant, Save button and date picker only.

    Functions that are textually the same in several variants are embedded once;
    those that differ live in the modules [App] (app.js), [Mass] (part_001) and
    [Legacy] (part_000).  The DOM, the chart library and [localStorage] are
    represented by the pieces of state the scripts read and write.

    The file has three parts: the embedding of the scripts, the vocabulary of
    the properties, and the properties with their proofs. *)

From Stdlib Require Import ZArith List String Ascii Bool Lia SpecFloat.
From Stdlib Require Import DecimalString DecimalN DecimalPos Sorted Permutation.
From Stdlib Require Import RelationClasses.
From Stdlib Require OrdersEx.
Import ListNotations.
Open Scope Z_scope.
Set Warnings "-register-all".

(** ** JavaScript numbers

    A JS number is an IEEE 754 binary64 value.  It is represented by the
    standard library's [spec_float] with precision 53 and maximal exponent
    1024; every operation rounds to nearest, ties to even, as the scripts'
    arithmetic does. *)
Module Num.

Definition number := spec_float.

Definition prec : Z := 53.
Definition emax : Z := 1024.

Definition NaN : number := S754_nan.
Definition Infinity : number := S754_infinity false.
Definition of_Z (z : Z) : number := binary_normalize prec emax z 0 false.

Definition add : number -> number -> number := SFadd prec emax.
Definition sub : number -> number -> number := SFsub prec emax.
Definition mul : number -> number -> number := SFmul prec emax.
Definition div : number -> number -> number := SFdiv prec emax.
Definition abs : number -> number := SFabs.

(** [a < b], [a <= b], [a > b], [a >= b]: all false when an operand is NaN. *)
Definition ltb : number -> number -> bool := SFltb.
Definition leb : number -> number -> bool := SFleb.
Definition gtb (a b : number) : bool := SFltb b a.
Definition geb (a b : number) : bool := SFleb b a.

(** [Number.isFinite(n)] for a value that is already a number. *)
Definition isFinite (n : number) : bool :=
  match n with
  | S754_zero _ | S754_finite _ _ _ => true
  | S754_infinity _ | S754_nan => false
  end.

Definition isNaN (n : number) : bool :=
  match n with S754_nan => true | _ => false end.

(** The value [m * 10^e] of a decimal literal, rounded once to binary64. *)
Definition of_decimal (m : Z) (e : Z) : number :=
  match m with
  | Z0 => S754_zero false
  | Zpos p =>
      match e with
      | Zneg k =>
          let '(q, e', l) :=
            SFdiv_core_binary prec emax (Zpos p) 0 (Z.pow_pos 10 k) 0 in
          binary_round_aux prec emax false q e' l
      | _ => binary_normalize prec emax (Zpos p * 10 ^ e) 0 false
      end
  | Zneg p =>
      match e with
      | Zneg k =>
          let '(q, e', l) :=
            SFdiv_core_binary prec emax (Zpos p) 0 (Z.pow_pos 10 k) 0 in
          binary_round_aux prec emax true q e' l
      | _ => binary_normalize prec emax (Zneg p * 10 ^ e) 0 false
      end
  end.

(** [Math.round(x)]: the integer closest to [x], a tie going towards
    [+Infinity]; NaN, the infinities and the zeros are returned unchanged and a
    negative [x] that rounds to zero gives [-0]. *)
Definition round_half_up (s : bool) (m : positive) (e : Z) : Z :=
  let v := if s then Zneg m else Zpos m in
  match e with
  | Zneg k => (2 * v + 2 ^ Zpos k) / (2 * 2 ^ Zpos k)
  | _ => v * 2 ^ e
  end.

Definition Math_round (x : number) : number :=
  match x with
  | S754_finite s m e =>
      if 0 <=? e then x
      else binary_normalize prec emax (round_half_up s m e) 0 s
  | _ => x
  end.

(** [Math.max(a, b)] and [Math.min(a, b)]: NaN if an operand is NaN, and
    [+0] counts as larger than [-0]. *)
Definition Math_max (a b : number) : number :=
  match SFcompare a b with
  | None => NaN
  | Some Lt => b
  | Some Gt => a
  | Some Eq =>
      match a with
      | S754_zero true => b
      | _ => a
      end
  end.

Definition Math_min (a b : number) : number :=
  match SFcompare a b with
  | None => NaN
  | Some Lt => a
  | Some Gt => b
  | Some Eq =>
      match a with
      | S754_zero false => b
      | _ => a
      end
  end.

(** [Math.max(...l)] and [Math.min(...l)] of a spread list: the fold starts
    from [-Infinity], respectively [+Infinity]. *)
Definition Math_max_list (l : list number) : number :=
  fold_left Math_max l (S754_infinity true).

Definition Math_min_list (l : list number) : number :=
  fold_left Math_min l (S754_infinity false).

End Num.

(** ** JavaScript strings

    A string is a sequence of code units; the model keeps the code units below
    256, which covers every character the scripts test for. *)
Module JsString.

Definition code (c : ascii) : N := N_of_ascii c.

(** White space and line terminators below 256, the characters [trim] and
    [Number] strip: TAB, LF, VT, FF, CR, SPACE and NBSP. *)
Definition isWhiteSpace (c : ascii) : bool :=
  let n := code c in
  (((9 <=? n) && (n <=? 13)) || (n =? 32) || (n =? 160))%N.

Fixpoint trimStart (s : string) : string :=
  match s with
  | String c s' => if isWhiteSpace c then trimStart s' else s
  | EmptyString => EmptyString
  end.

Fixpoint trimEnd (s : string) : string :=
  match s with
  | String c s' =>
      match trimEnd s' with
      | EmptyString => if isWhiteSpace c then EmptyString else String c EmptyString
      | r => String c r
      end
  | EmptyString => EmptyString
  end.

(** [s.trim()] *)
Definition trim (s : string) : string := trimEnd (trimStart s).

(** [s.replace(a, b)] with a one-character string pattern: only the first
    occurrence is replaced. *)
Fixpoint replace (a b : ascii) (s : string) : string :=
  match s with
  | String c s' => if Ascii.eqb c a then String b s' else String c (replace a b s')
  | EmptyString => EmptyString
  end.

(** [s.split(sep)] with a one-character separator. *)
Fixpoint split (sep : ascii) (s : string) : list string :=
  match s with
  | EmptyString => [EmptyString]
  | String c s' =>
      if Ascii.eqb c sep then EmptyString :: split sep s'
      else
        match split sep s' with
        | f :: fs => String c f :: fs
        | [] => [String c EmptyString]
        end
  end.

(** [s.padStart(2, "0")] *)
Definition padStart2 (s : string) : string :=
  match s with
  | EmptyString => "00"
  | String c EmptyString => String "0" s
  | _ => s
  end.

(** [String(n)] for an integer that prints without an exponent. *)
Definition of_int (z : Z) : string :=
  match z with
  | Zneg p => String "-" (NilZero.string_of_uint (N.to_uint (Npos p)))
  | _ => NilZero.string_of_uint (N.to_uint (Z.to_N z))
  end.

End JsString.

(** ** [Number(string)]

    The StringNumericLiteral grammar of ECMAScript: optional white space around
    a decimal literal (sign, digits, fraction, exponent, [Infinity]) or an
    unsigned binary, octal or hexadecimal integer; the empty text is [+0] and
    anything else is [NaN]. *)
Module StringToNumber.

Import JsString.

Definition digitValue (radix : N) (c : ascii) : option N :=
  let n := code c in
  let v :=
    (if (48 <=? n) && (n <=? 57) then Some (n - 48)
     else if (97 <=? n) && (n <=? 102) then Some (n - 87)
     else if (65 <=? n) && (n <=? 70) then Some (n - 55)
     else None)%N in
  match v with
  | Some d => if (d <? radix)%N then Some d else None
  | None => None
  end.

(** Reads the longest prefix of digits: the accumulated value, the number of
    digits read and the rest of the text. *)
Fixpoint readDigits (radix : N) (acc : N) (cnt : nat) (s : string)
  : N * nat * string :=
  match s with
  | String c s' =>
      match digitValue radix c with
      | Some d => readDigits radix (acc * radix + d)%N (S cnt) s'
      | None => (acc, cnt, s)
      end
  | EmptyString => (acc, cnt, s)
  end.

(** ExponentPart, which must reach the end of the text: [e] or [E], an optional
    sign and at least one digit.  No exponent part gives 0. *)
Definition exponentPart (s : string) : option Z :=
  match s with
  | EmptyString => Some 0
  | String c s' =>
      if Ascii.eqb c "e" || Ascii.eqb c "E" then
        let '(neg, s'') :=
          match s' with
          | String "-" t => (true, t)
          | String "+" t => (false, t)
          | _ => (false, s')
          end in
        match readDigits 10 0 0 s'' with
        | (_, O, _) => None
        | (v, _, EmptyString) => Some (if neg then - Z.of_N v else Z.of_N v)
        | _ => None
        end
      else None
  end.

Definition signed (neg : bool) (m : N) : Z :=
  if neg then - Z.of_N m else Z.of_N m.

Definition zeroOr (neg : bool) (m : N) (e : Z) : Num.number :=
  match m with
  | N0 => S754_zero neg
  | _ => Num.of_decimal (signed neg m) e
  end.

(** StrUnsignedDecimalLiteral with the sign already read. *)
Definition unsignedDecimal (neg : bool) (s : string) : Num.number :=
  if String.eqb s "Infinity" then S754_infinity neg
  else
    let '(ip, ni, r1) := readDigits 10 0 0 s in
    match r1 with
    | String "." r2 =>
        let '(m, nf, r3) := readDigits 10 ip 0 r2 in
        match ni, nf with
        | O, O => Num.NaN
        | _, _ =>
            match exponentPart r3 with
            | Some e => zeroOr neg m (e - Z.of_nat nf)
            | None => Num.NaN
            end
        end
    | _ =>
        match ni with
        | O => Num.NaN
        | _ =>
            match exponentPart r1 with
            | Some e => zeroOr neg ip e
            | None => Num.NaN
            end
        end
    end.

(** NonDecimalIntegerLiteral: the digits after [0x], [0o] or [0b]. *)
Definition nonDecimal (radix : N) (s : string) : Num.number :=
  match readDigits radix 0 0 s with
  | (_, O, _) => Num.NaN
  | (v, _, EmptyString) => Num.of_Z (Z.of_N v)
  | _ => Num.NaN
  end.

Definition Number (s : string) : Num.number :=
  match trim s with
  | EmptyString => S754_zero false
  | String "0" (String "x" t) | String "0" (String "X" t) => nonDecimal 16 t
  | String "0" (String "o" t) | String "0" (String "O" t) => nonDecimal 8 t
  | String "0" (String "b" t) | String "0" (String "B" t) => nonDecimal 2 t
  | String "-" t => unsignedDecimal true t
  | String "+" t => unsignedDecimal false t
  | t => unsignedDecimal false t
  end.

End StringToNumber.

(** ** Weight input ([parseWeightInput] of app.js and part_000, [parseWeight]
    of part_001)

    [None] is the scripts' [null]. *)
Definition normalizeWeightText (raw : string) : string :=
  JsString.replace "," "." (JsString.trim raw).

Definition parseWeightInput (raw : string) : option Num.number :=
  let normalized := normalizeWeightText raw in
  match normalized with
  | EmptyString => None
  | _ =>
      let n := StringToNumber.Number normalized in
      if negb (Num.isFinite n) then None
      else if Num.leb n (Num.of_Z 0) || Num.gtb n (Num.of_Z 1400) then None
      else Some (Num.div (Num.Math_round (Num.mul n (Num.of_Z 10))) (Num.of_Z 10))
  end.

Definition parseWeight (raw : string) : option Num.number :=
  let normalized := normalizeWeightText raw in
  match normalized with
  | EmptyString => None
  | _ =>
      let n := StringToNumber.Number normalized in
      if negb (Num.isFinite n) || Num.leb n (Num.of_Z 0) || Num.gtb n (Num.of_Z 1400)
      then None
      else Some (Num.div (Num.Math_round (Num.mul n (Num.of_Z 10))) (Num.of_Z 10))
  end.

(** ** Dates

    Every [Date] object of the scripts sits at a local midnight, or is only read
    through its local year, month and day; it is represented by its local day
    number, day 0 being 1970-01-01, and [None] is an Invalid Date.  The
    functions are those of ECMAScript's Date chapter, at day granularity. *)
Module JsDate.

Import JsString.

Definition DaysInYear (y : Z) : Z :=
  if negb (y mod 4 =? 0) then 365
  else if negb (y mod 100 =? 0) then 366
  else if negb (y mod 400 =? 0) then 365
  else 366.

Definition DayFromYear (y : Z) : Z :=
  365 * (y - 1970) + (y - 1969) / 4 - (y - 1901) / 100 + (y - 1601) / 400.

(** The largest [y] with [DayFromYear y <= n] (see [YearFromDay_spec]). *)
Definition YearFromDay (n : Z) : Z :=
  let y0 := 1970 + (400 * n) / 146097 in
  if DayFromYear (y0 + 1) <=? n then y0 + 1
  else if DayFromYear y0 <=? n then y0
  else y0 - 1.

Definition InLeapYear (y : Z) : Z := if DaysInYear y =? 366 then 1 else 0.

Definition DayWithinYear (n : Z) : Z := n - DayFromYear (YearFromDay n).

(** First day, within a year, of the month with index [m] in 0..11. *)
Definition monthStart (m : Z) (leap : Z) : Z :=
  match m with
  | 0 => 0
  | 1 => 31
  | 2 => 59 + leap
  | 3 => 90 + leap
  | 4 => 120 + leap
  | 5 => 151 + leap
  | 6 => 181 + leap
  | 7 => 212 + leap
  | 8 => 243 + leap
  | 9 => 273 + leap
  | 10 => 304 + leap
  | _ => 334 + leap
  end.

(** [getMonth()]: 0..11. *)
Definition MonthFromDay (n : Z) : Z :=
  let d := DayWithinYear n in
  let leap := InLeapYear (YearFromDay n) in
  if d <? 31 then 0
  else if d <? 59 + leap then 1
  else if d <? 90 + leap then 2
  else if d <? 120 + leap then 3
  else if d <? 151 + leap then 4
  else if d <? 181 + leap then 5
  else if d <? 212 + leap then 6
  else if d <? 243 + leap then 7
  else if d <? 273 + leap then 8
  else if d <? 304 + leap then 9
  else if d <? 334 + leap then 10
  else 11.

(** [getDate()]: 1..31. *)
Definition DateFromDay (n : Z) : Z :=
  DayWithinYear n - monthStart (MonthFromDay n) (InLeapYear (YearFromDay n)) + 1.

(** [MakeDay(year, month, date)]: months and dates outside their range carry
    over. *)
Definition MakeDay (year month date : Z) : Z :=
  let ym := year + month / 12 in
  let mn := month mod 12 in
  DayFromYear ym + monthStart mn (InLeapYear ym) + date - 1.

(** [TimeClip]: a Date holds at most 100,000,000 days on either side of the
    epoch. *)
Definition maxDay : Z := 100000000.

Definition TimeClip (d : Z) : option Z :=
  if Z.abs d <=? maxDay then Some d else None.

(** [new Date(y, m, d)]: a year from 0 to 99 means 1900 + y. *)
Definition newDate (y m d : Z) : option Z :=
  let yr := if (0 <=? y) && (y <=? 99) then 1900 + y else y in
  TimeClip (MakeDay yr m d).

(** [dt.setDate(v)] *)
Definition setDate (n : Z) (v : Z) : option Z :=
  TimeClip (MakeDay (YearFromDay n) (MonthFromDay n) v).

(** [Number] on one field of a date string.  The date strings of the scripts
    are built by [todayISODate] and [shiftISO] or read from a date input, so a
    field is a run of decimal digits (an empty run reads as 0); any other field
    is taken as NaN, here [None]. *)
Definition fieldNumber (s : string) : option Z :=
  option_map (fun u => Z.of_N (N.of_uint u)) (NilEmpty.uint_of_string s).

(** [const [y, m, d] = iso.split("-").map(Number)] *)
Definition fields (iso : string) : option (Z * Z * Z) :=
  match map fieldNumber (split "-" iso) with
  | Some y :: Some m :: Some d :: _ => Some (y, m, d)
  | _ => None
  end.

(** [new Date(y, m - 1, d)] for the fields of [iso]. *)
Definition dateOfISO (iso : string) : option Z :=
  match fields iso with
  | Some (y, m, d) => newDate y (m - 1) d
  | None => None
  end.

(** The template [`${yyyy}-${mm}-${dd}`] of a valid date. *)
Definition formatISO (n : Z) : string :=
  of_int (YearFromDay n) ++ "-" ++
  padStart2 (of_int (MonthFromDay n + 1)) ++ "-" ++
  padStart2 (of_int (DateFromDay n)).

Definition isoOfDate (d : option Z) : string :=
  match d with
  | Some n => formatISO n
  | None => "NaN-NaN-NaN"
  end.

End JsDate.

(** *** Date helpers of the scripts

    [today] is the local day number the clock shows when the function runs. *)
Definition todayISODate (today : Z) : string := JsDate.formatISO today.

Definition shiftISO (iso : string) (deltaDays : Z) : string :=
  match JsDate.dateOfISO iso with
  | Some n => JsDate.isoOfDate (JsDate.setDate n (JsDate.DateFromDay n + deltaDays))
  | None => JsDate.isoOfDate None
  end.

Definition isFutureISODate (today : Z) (iso : string) : bool :=
  let selected := JsDate.dateOfISO iso in
  let today' :=
    JsDate.newDate (JsDate.YearFromDay today) (JsDate.MonthFromDay today)
      (JsDate.DateFromDay today) in
  match selected, today' with
  | Some s, Some t => t <? s
  | _, _ => false
  end.

(** [isoToMMDDYY]: the [MM.DD.YY] display string. *)
Definition isoToMMDDYY (iso : string) : string :=
  match JsString.split "-" iso with
  | y :: rest =>
      (nth 0 rest "undefined" ++ "." ++ nth 1 rest "undefined" ++ "." ++
       substring 2 (length y - 2) y)%string
  | [] => "undefined.undefined.undefined"
  end.

(** ** The platform's collation

    [a.localeCompare(b)] is supplied by the host.  ECMAScript requires it to be
    a consistent comparator: the signs of [localeCompare a b] and
    [localeCompare b a] are opposite and "not after" is transitive.  Nothing
    else is assumed of it. *)
Class Collation := {
  localeCompare : string -> string -> Z;
  localeCompare_antisym :
    forall a b, Z.sgn (localeCompare b a) = - Z.sgn (localeCompare a b);
  localeCompare_trans :
    forall a b c,
      localeCompare a b <= 0 -> localeCompare b c <= 0 -> localeCompare a c <= 0
}.

(** ** Entries and the persisted snapshot *)
Record Entry := mkEntry {
  entryDate : string;
  weight : Num.number;
  createdAt : Num.number
}.

(** A value produced by [JSON.parse]. *)
Inductive json :=
| JNull
| JBool (b : bool)
| JNumber (n : Num.number)
| JString (s : string)
| JArray (l : list json)
| JObject (props : list (string * json)).

(** The [localStorage] item under [STORAGE_KEY], seen through
    [getItem] and [JSON.parse]. *)
Inductive stored :=
| NoItem        (* no item, or the empty text: [!raw] *)
| Unparseable   (* [JSON.parse] throws *)
| Parsed (j : json).

(** [e.k] on a parsed object: the last binding of a repeated key wins, and a
    missing key gives [undefined], here [None]. *)
Fixpoint getProp (k : string) (props : list (string * json)) : option json :=
  match props with
  | [] => None
  | (k', v) :: rest =>
      match getProp k rest with
      | Some v' => Some v'
      | None => if String.eqb k' k then Some v else None
      end
  end.

(** The filter and the map of [loadEntries] on one element of the parsed
    array: only an object can be truthy and have an [entryDate] property. *)
Definition loadRecord (now : Num.number) (e : json) : option Entry :=
  match e with
  | JObject props =>
      match getProp "entryDate" props, getProp "weight" props with
      | Some (JString d), Some (JNumber w) =>
          Some (mkEntry d w
                  match getProp "createdAt" props with
                  | Some (JNumber c) => c
                  | _ => now
                  end)
      | _, _ => None
      end
  | _ => None
  end.

Fixpoint filterMap {A B : Type} (f : A -> option B) (l : list A) : list B :=
  match l with
  | [] => []
  | x :: r =>
      match f x with
      | Some y => y :: filterMap f r
      | None => filterMap f r
      end
  end.

(** [loadEntries()]; [now] is the value of [Date.now()] while it runs. *)
Definition loadEntries (st : stored) (now : Num.number) : list Entry :=
  match st with
  | NoItem => []
  | Unparseable => []
  | Parsed (JArray l) => filterMap (loadRecord now) l
  | Parsed _ => []
  end.

(** [JSON.stringify] of a number, read back: a non-finite number is written as
    [null] and [-0] as [0]. *)
Definition jsonNumber (n : Num.number) : json :=
  match n with
  | S754_zero _ => JNumber (S754_zero false)
  | S754_finite _ _ _ => JNumber n
  | _ => JNull
  end.

Definition jsonEntry (e : Entry) : json :=
  JObject [("entryDate"%string, JString (entryDate e));
           ("weight"%string, jsonNumber (weight e));
           ("createdAt"%string, jsonNumber (createdAt e))].

(** [saveEntries]: the item becomes the text of the whole list. *)
Definition saveEntries (l : list Entry) : stored :=
  Parsed (JArray (map jsonEntry l)).

(** ** Domain logic of the entry store *)
Section Store.

Context {collation : Collation}.

(** The comparator [(a, b) => a.entryDate.localeCompare(b.entryDate)]. *)
Definition byEntryDate (a b : Entry) : Z :=
  localeCompare (entryDate a) (entryDate b).

(** [Array.prototype.sort] is stable; with a consistent comparator its result
    is the one of a stable insertion sort. *)
Fixpoint insertSorted (x : Entry) (l : list Entry) : list Entry :=
  match l with
  | [] => [x]
  | y :: r => if byEntryDate x y <=? 0 then x :: l else y :: insertSorted x r
  end.

Definition sortByEntryDateAsc (l : list Entry) : list Entry :=
  fold_right insertSorted [] l.

(** The session's store: the [entries] variable and the persisted item. *)
Record Store := mkStore {
  entries : list Entry;
  storage : stored
}.

(** [upsertEntry(entryDate, weight)]; [now] is [Date.now()]. *)
Definition upsertEntry (s : Store) (d : string) (w : Num.number)
  (now : Num.number) : Store :=
  let next := filter (fun e => negb (String.eqb (entryDate e) d)) (entries s) in
  let next := next ++ [mkEntry d w now] in
  let sorted := sortByEntryDateAsc next in
  mkStore sorted (saveEntries sorted).

(** [findEntry(iso)] of part_001. *)
Definition findEntry (s : Store) (iso : string) : option Entry :=
  find (fun e => String.eqb (entryDate e) iso) (entries s).

(** The store part of [init], the same in the three variants up to the seed:
    load and sort, and when nothing was loaded install the seed and persist
    it. *)
Definition initStore (seed : Z -> Num.number -> list Entry)
  (st : stored) (today : Z) (now : Num.number) : Store :=
  let loaded := sortByEntryDateAsc (loadEntries st now) in
  match loaded with
  | [] =>
      let seeded := sortByEntryDateAsc (seed today now) in
      mkStore seeded (saveEntries seeded)
  | _ => mkStore loaded st
  end.

End Store.

(** ** Chart window of part_001 *)
Module Chart.

(** [new Map(entries.map(e => [e.entryDate, e.weight]))] followed by
    [map.has(iso) ? map.get(iso) : null]: the last entry of a day wins. *)
Fixpoint mapGet (l : list Entry) (iso : string) : option Num.number :=
  match l with
  | [] => None
  | e :: r =>
      match mapGet r iso with
      | Some w => Some w
      | None => if String.eqb (entryDate e) iso then Some (weight e) else None
      end
  end.

(** The loop [for (let i = 6; i >= 0; i--) days.push(shiftISO(endISO, -i))]. *)
Definition weekDays (endISO : string) : list string :=
  map (fun i => shiftISO endISO (- i)) [6; 5; 4; 3; 2; 1; 0].

(** The loop over [days] that carries [last] forward; [None] is [null]. *)
Fixpoint fillForward (l : list Entry) (last : option Num.number)
  (days : list string) : list (option Num.number) :=
  match days with
  | [] => []
  | iso :: rest =>
      match mapGet l iso with
      | Some v => Some v :: fillForward l (Some v) rest
      | None => last :: fillForward l last rest
      end
  end.

(** [values.filter(v => typeof v === "number")] *)
Definition numbersOf (values : list (option Num.number)) : list Num.number :=
  filterMap (fun v => v) values.

(** The label of a day: [d.split("-")[2].replace(/^0/, "")]; [None] when the
    third field is missing and the call throws. *)
Definition dayLabel (d : string) : option string :=
  match nth_error (JsString.split "-" d) 2 with
  | Some (String "0" f) => Some f
  | Some f => Some f
  | None => None
  end.

Record WeekSeries := mkWeekSeries {
  labels : list (option string);
  values : list (option Num.number);
  dataMin : Num.number;
  dataMax : Num.number
}.

Definition getWeekSeries (l : list Entry) (endISO : string) : WeekSeries :=
  let days := weekDays endISO in
  let values := fillForward l None days in
  let nums := numbersOf values in
  let dataMin := match nums with [] => Num.of_Z 0 | _ => Num.Math_min_list nums end in
  let dataMax := match nums with [] => Num.of_Z 1 | _ => Num.Math_max_list nums end in
  mkWeekSeries (map dayLabel days) values dataMin dataMax.

Record Axis := mkAxis {
  yMin : Num.number;
  yMax : Num.number;
  step : Num.number
}.

Definition computeAxisUpperThird (dataMin dataMax : Num.number) : Axis :=
  let range := Num.sub dataMax dataMin in
  let range := if Num.ltb range (Num.of_Z 1) then Num.of_Z 1 else range in
  let yMax := Num.add dataMax (Num.mul range (Num.of_decimal 2 (-1))) in
  let yMin := Num.sub yMax (Num.mul range (Num.of_Z 3)) in
  let step := Num.Math_max (Num.of_Z 1) (Num.Math_round (Num.div range (Num.of_Z 2))) in
  mkAxis yMin yMax step.

End Chart.

(** Direction of a committed swipe: ["left"] reveals the next day, ["right"]
    the previous one. *)
Inductive Dir := left | right.

(** What the [touchend] handler decides. *)
Inductive Release :=
| Commit (dir : Dir)
| SnapBack.

(** [String(n)] and the [`${n}`] of a template, supplied by the host. *)
Class NumberFormat := {
  numberToString : Num.number -> string
}.

(** ** The variant of part_001: auto-save and drag-follow swipe *)
Module Mass.

Section Session.

Context {collation : Collation} {format : NumberFormat}.

(** The module state and the two DOM values the logic reads back: the text of
    the weight field and the status line.  The date label, the "today" colour
    and the chart are functions of this state. *)
Record Session := mkSession {
  store : Store;
  selectedISO : string;
  weightInput : string;
  statusText : string
}.

Definition setStore (s : Session) (st : Store) : Session :=
  mkSession st (selectedISO s) (weightInput s) (statusText s).

Definition setStatus (s : Session) (text : string) : Session :=
  mkSession (store s) (selectedISO s) (weightInput s) text.

Definition fillWeightForSelectedDate (s : Session) : Session :=
  mkSession (store s) (selectedISO s)
    match findEntry (store s) (selectedISO s) with
    | Some entry => numberToString (weight entry)
    | None => ""
    end
    (statusText s).

Definition renderAll (s : Session) : Session := fillWeightForSelectedDate s.

(** What [renderChart] hands to the chart. *)
Definition renderChart (s : Session) : Chart.WeekSeries * Chart.Axis :=
  let w := Chart.getWeekSeries (entries (store s)) (selectedISO s) in
  (w, Chart.computeAxisUpperThird (Chart.dataMin w) (Chart.dataMax w)).

(** [autoSaveIfValid({ quiet })] *)
Definition autoSaveIfValid (quiet : bool) (now : Num.number) (s : Session)
  : Session * bool :=
  match parseWeight (weightInput s) with
  | None =>
      (if negb quiet && negb (String.eqb (JsString.trim (weightInput s)) "")
       then setStatus s "Invalid weight."
       else s,
       false)
  | Some w =>
      let s1 := setStore s (upsertEntry (store s) (selectedISO s) w now) in
      (if negb quiet
       then setStatus s1 ("Saved " ++ numberToString w ++ " for " ++
                          isoToMMDDYY (selectedISO s1) ++ ".")
       else s1,
       true)
  end.

(** [shiftDay(delta)] *)
Definition shiftDay (today : Z) (s : Session) (delta : Z) : Session :=
  let next := shiftISO (selectedISO s) delta in
  if isFutureISODate today next then s
  else renderAll (mkSession (store s) next (weightInput s) (statusText s)).

(** The timer callback of [commitSwipe(dir)]: save the day being left, then
    shift.  The slide of the track before and after it is not state the logic
    reads. *)
Definition commitSwipe (today : Z) (now : Num.number) (dir : Dir) (s : Session)
  : Session :=
  let s1 := fst (autoSaveIfValid true now s) in
  match dir with
  | right => shiftDay today s1 (-1)
  | left => shiftDay today s1 1
  end.

(** The seed of [init]. *)
Definition seed (today : Z) (now : Num.number) : list Entry :=
  let t := todayISODate today in
  [mkEntry (shiftISO t (-6)) (Num.of_decimal 1862 (-1)) now;
   mkEntry (shiftISO t (-4)) (Num.of_decimal 1853 (-1)) now;
   mkEntry (shiftISO t (-2)) (Num.of_decimal 1848 (-1)) now;
   mkEntry (shiftISO t 0) (Num.of_decimal 1843 (-1)) now].

(** [init()], on a page whose weight field and status line start empty. *)
Definition init (st : stored) (today : Z) (now : Num.number) : Session :=
  renderAll (mkSession (initStore seed st today now) (todayISODate today) "" "").

(** The events of a session after [init]. *)
Inductive Event :=
| Edit (text : string)      (* the user changes the text of the weight field *)
| Blur                      (* the field loses focus, also through Enter *)
| SwipeCommit (dir : Dir).  (* the timer of [commitSwipe] fires *)

Definition handle (today : Z) (now : Num.number) (ev : Event) (s : Session)
  : Session :=
  match ev with
  | Edit text => mkSession (store s) (selectedISO s) text (statusText s)
  | Blur => fst (autoSaveIfValid false now s)
  | SwipeCommit dir => commitSwipe today now dir s
  end.

End Session.

(** *** The recogniser of [addSwipe] *)
Inductive LockDir := h | v.

Record Swipe := mkSwipe {
  startX : Num.number;
  startY : Num.number;
  distX : Num.number;
  distY : Num.number;
  startTime : Num.number;
  locked : bool;
  lockDir : option LockDir
}.

Definition threshold : Num.number := Num.of_Z 70.
Definition restraint : Num.number := Num.of_Z 90.
Definition allowedTime : Num.number := Num.of_Z 450.

Definition swipe0 : Swipe :=
  mkSwipe (Num.of_Z 0) (Num.of_Z 0) (Num.of_Z 0) (Num.of_Z 0) (Num.of_Z 0) false None.

(** [touchstart]; a touch is its [(pageX, pageY)]. *)
Definition touchstart (changedTouches : list (Num.number * Num.number))
  (now : Num.number) (g : Swipe) : Swipe :=
  match changedTouches with
  | [(x, y)] => mkSwipe x y (Num.of_Z 0) (Num.of_Z 0) now false None
  | _ => g
  end.

(** [touchmove]: the new state and, when the lock is horizontal, the offset
    given to [setTranslate]. *)
Definition touchmove (changedTouches : list (Num.number * Num.number))
  (g : Swipe) : Swipe * option Num.number :=
  match changedTouches with
  | [(x, y)] =>
      let dx := Num.sub x (startX g) in
      let dy := Num.sub y (startY g) in
      let g1 := mkSwipe (startX g) (startY g) dx dy (startTime g) (locked g) (lockDir g) in
      if negb (locked g1) &&
         (Num.ltb (Num.abs dx) (Num.of_Z 10) && Num.ltb (Num.abs dy) (Num.of_Z 10))
      then (g1, None)
      else
        let g2 :=
          if negb (locked g1)
          then mkSwipe (startX g) (startY g) dx dy (startTime g) true
                 (Some (if Num.gtb (Num.abs dx) (Num.abs dy) then h else v))
          else g1 in
        match lockDir g2 with
        | Some h => (g2, Some dx)
        | _ => (g2, None)
        end
  | _ => (g, None)
  end.

(** [touchend] *)
Definition touchend (now : Num.number) (g : Swipe) : Release :=
  let elapsedTime := Num.sub now (startTime g) in
  let absX := Num.abs (distX g) in
  let absY := Num.abs (distY g) in
  if Num.leb elapsedTime allowedTime && Num.geb absX threshold && Num.leb absY restraint
  then Commit (if Num.ltb (distX g) (Num.of_Z 0) then left else right)
  else SnapBack.

(** [touchcancel] *)
Definition touchcancel (g : Swipe) : Release := SnapBack.

End Mass.

(** ** The variant of app.js: Save button, swipe and date picker *)
Module App.

(** The class the Save button carries. *)
Inductive ButtonState := idle | saved | error.

Section Session.

Context {collation : Collation} {format : NumberFormat}.

(** The module state and the DOM values the logic reads back or sets: the
    value of the date input, the text of the weight field, the status line and
    the class of the Save button. *)
Record Session := mkSession {
  store : Store;
  selectedISO : string;
  dateInput : string;
  weightInput : string;
  statusText : string;
  saveButton : ButtonState
}.

Definition setStatus (s : Session) (text : string) : Session :=
  mkSession (store s) (selectedISO s) (dateInput s) (weightInput s) text
    (saveButton s).

Definition setSaveButtonState (s : Session) (b : ButtonState) : Session :=
  mkSession (store s) (selectedISO s) (dateInput s) (weightInput s)
    (statusText s) b.

(** [renderDateLabel] keeps the picker on the selected day. *)
Definition renderDateLabel (s : Session) : Session :=
  mkSession (store s) (selectedISO s) (selectedISO s) (weightInput s)
    (statusText s) (saveButton s).

(** [renderAll]: the label, the colour, the chart and the recent list are
    functions of the state; the weight field is not touched. *)
Definition renderAll (s : Session) : Session := renderDateLabel s.

(** [renderRecentList]: the last seven entries, most recent first. *)
Definition renderRecentList (s : Session) : list Entry :=
  rev (skipn (List.length (entries (store s)) - 7) (entries (store s))).

(** [shiftSelectedDay(deltaDays)] *)
Definition shiftSelectedDay (today : Z) (s : Session) (deltaDays : Z) : Session :=
  let next := shiftISO (selectedISO s) deltaDays in
  if isFutureISODate today next then s
  else
    let s1 :=
      mkSession (store s) next (dateInput s) (weightInput s) (statusText s)
        (saveButton s) in
    setStatus (setSaveButtonState (renderAll s1) idle) "".

(** The [change] handler of the date input, after the picker has put [next]
    in the input. *)
Definition dateInputChange (today : Z) (next : string) (s : Session) : Session :=
  if String.eqb next "" || isFutureISODate today next then
    setStatus (setSaveButtonState (renderDateLabel s) error) "Future dates blocked."
  else
    let s1 :=
      mkSession (store s) next next (weightInput s) (statusText s)
        (saveButton s) in
    setStatus (setSaveButtonState (renderAll s1) idle) "".

(** [onSave()] *)
Definition onSave (today : Z) (now : Num.number) (s : Session) : Session :=
  let s0 := setStatus (setSaveButtonState s idle) "" in
  let iso := selectedISO s0 in
  if String.eqb iso "" then
    setStatus (setSaveButtonState s0 error) "Missing date."
  else if isFutureISODate today iso then
    setStatus (setSaveButtonState s0 error) "Future dates blocked."
  else
    match parseWeightInput (weightInput s0) with
    | None => setStatus (setSaveButtonState s0 error) "Invalid weight."
    | Some w =>
        let s1 :=
          mkSession (upsertEntry (store s0) iso w now) (selectedISO s0)
            (dateInput s0) (weightInput s0) (statusText s0) (saveButton s0) in
        setStatus (setSaveButtonState (renderAll s1) saved)
          ("Saved " ++ numberToString w ++ " for " ++ isoToMMDDYY iso ++ ".")
    end.

(** The seed of [init], also the one of part_000. *)
Definition seed (today : Z) (now : Num.number) : list Entry :=
  let t := todayISODate today in
  [mkEntry (shiftISO t (-14)) (Num.of_decimal 1846 (-1)) now;
   mkEntry (shiftISO t (-10)) (Num.of_decimal 1839 (-1)) now;
   mkEntry (shiftISO t (-7)) (Num.of_decimal 1832 (-1)) now;
   mkEntry (shiftISO t (-3)) (Num.of_decimal 1828 (-1)) now].

(** [init()], on a page whose weight field and status line start empty. *)
Definition init (st : stored) (today : Z) (now : Num.number) : Session :=
  let t := todayISODate today in
  setSaveButtonState
    (renderAll (mkSession (initStore seed st today now) t t "" "" idle)) idle.

(** The events of a session after [init]. *)
Inductive Event :=
| Edit (text : string)       (* the user changes the text of the weight field *)
| Save                       (* click on Save, or Enter in the field *)
| PickDate (next : string)   (* the picker changes the date input *)
| SwipeCommit (dir : Dir)    (* the timer of [animateSwipe] fires *)
| ButtonTimer.               (* a 900 ms timer resets the Save button *)

Definition handle (today : Z) (now : Num.number) (ev : Event) (s : Session)
  : Session :=
  match ev with
  | Edit text =>
      setStatus
        (setSaveButtonState
           (mkSession (store s) (selectedISO s) (dateInput s) text
              (statusText s) (saveButton s)) idle) ""
  | Save => onSave today now s
  | PickDate next => dateInputChange today next s
  | SwipeCommit right => shiftSelectedDay today s (-1)
  | SwipeCommit left => shiftSelectedDay today s 1
  | ButtonTimer => setSaveButtonState s idle
  end.

End Session.

(** *** The recogniser of [addSwipeNavigation]

    [touchmove] and [animateSwipe] only put a slide class on the track and
    take it off again, whatever the outcome; the class is not state the logic
    reads. *)
Record Swipe := mkSwipe {
  startX : Num.number;
  startY : Num.number;
  active : bool
}.

Definition threshold : Num.number := Num.of_Z 40.
Definition restraint : Num.number := Num.of_Z 60.

Definition swipe0 : Swipe := mkSwipe (Num.of_Z 0) (Num.of_Z 0) false.

(** [touchstart]; a touch is its [(clientX, clientY)]. *)
Definition touchstart (touches : list (Num.number * Num.number)) (g : Swipe)
  : Swipe :=
  match touches with
  | [(x, y)] => mkSwipe x y true
  | _ => g
  end.

(** [touchend]: the recogniser is left inactive; without a changed touch the
    end point is the start point. *)
Definition touchend (changedTouches : list (Num.number * Num.number))
  (g : Swipe) : Swipe * Release :=
  if negb (active g) then (g, SnapBack)
  else
    let g1 := mkSwipe (startX g) (startY g) false in
    let '(endX, endY) :=
      match changedTouches with
      | t :: _ => t
      | [] => (startX g, startY g)
      end in
    let dx := Num.sub endX (startX g) in
    let dy := Num.sub endY (startY g) in
    if Num.gtb (Num.abs dy) restraint then (g1, SnapBack)
    else if Num.ltb (Num.abs dx) threshold then (g1, SnapBack)
    else if Num.gtb dx (Num.of_Z 0) then (g1, Commit right)
    else (g1, Commit left).

End App.

(** ** The variant of part_000: the selected day is the value of the date
    input and nothing is navigated *)
Module Legacy.

Section Session.

Context {collation : Collation}.

Record Session := mkSession {
  store : Store;
  dateInput : string
}.

(** [init()]: the store part and the date input set to today. *)
Definition init (st : stored) (today : Z) (now : Num.number) : Session :=
  mkSession (initStore App.seed st today now) (todayISODate today).

End Session.

End Legacy.

(** ** The form of part_000: date input, weight field and Save button

    This variant keeps no selected day: the day of a save is whatever the date
    input holds.  [renderAll] redraws the label, the chart and the recent list
    from the state and changes none of it. *)
Module LegacyForm.

Section Session.

Context {collation : Collation} {format : NumberFormat}.

Record Session := mkSession {
  store : Store;
  dateInput : string;
  weightInput : string;
  statusText : string;
  saveButton : App.ButtonState
}.

Definition setStatus (s : Session) (text : string) : Session :=
  mkSession (store s) (dateInput s) (weightInput s) text (saveButton s).

Definition setSaveButtonState (s : Session) (b : App.ButtonState) : Session :=
  mkSession (store s) (dateInput s) (weightInput s) (statusText s) b.

(** [onSave()] *)
Definition onSave (today : Z) (now : Num.number) (s : Session) : Session :=
  let s0 := setStatus (setSaveButtonState s App.idle) "" in
  let iso := dateInput s0 in
  if String.eqb iso "" then
    setStatus (setSaveButtonState s0 App.error) "Missing date."
  else if isFutureISODate today iso then
    setStatus (setSaveButtonState s0 App.error) "Future dates blocked."
  else
    match parseWeightInput (weightInput s0) with
    | None => setStatus (setSaveButtonState s0 App.error) "Invalid weight."
    | Some w =>
        let s1 :=
          mkSession (upsertEntry (store s0) iso w now) (dateInput s0)
            (weightInput s0) (statusText s0) (saveButton s0) in
        setStatus (setSaveButtonState s1 App.saved)
          ("Saved " ++ numberToString w ++ " for " ++ isoToMMDDYY iso ++ ".")
    end.

(** The [change] handler of the date input, after the picker has put [next]
    in the input: the label is redrawn and the indicators are reset. *)
Definition dateInputChange (next : string) (s : Session) : Session :=
  setStatus
    (setSaveButtonState
       (mkSession (store s) next (weightInput s) (statusText s) (saveButton s))
       App.idle) "".

(** [init()], on a page whose weight field and status line start empty. *)
Definition init (st : stored) (today : Z) (now : Num.number) : Session :=
  mkSession (initStore App.seed st today now) (todayISODate today) "" "" App.idle.

End Session.

End LegacyForm.

(** ** Vocabulary of the properties *)
Module DateSpec.

Import JsDate.

(** A field without the separator. *)
Fixpoint noHyphen (s : string) : bool :=
  match s with
  | EmptyString => true
  | String c s' => negb (Ascii.eqb c "-") && noHyphen s'
  end.

(** The first day whose year is at least 100: earlier years print with fewer
    than three digits and [new Date] reads them as 19xx. *)
Definition minDay : Z := DayFromYear 100.

(** A clock shows a day from the epoch on and below the last day a [Date] can
    hold, so that tomorrow is a [Date] too. *)
Definition validClock (today : Z) : Prop := 0 <= today < maxDay.

(** The dates whose seven-day window stays among the days that are printed
    and read back unchanged. *)
Definition inWindowRange (n : Z) : Prop := minDay + 6 <= n <= maxDay.

End DateSpec.

Section StoreSpec.

Context {collation : Collation}.

(** [a] does not come after [b] in the order of the comparator. *)
Definition notAfter (a b : Entry) : Prop := byEntryDate a b <= 0.

(** Sorted ascending by day: every entry is not after any later one. *)
Definition sortedByDay (l : list Entry) : Prop := StronglySorted notAfter l.

(** At most one entry per day. *)
Definition uniqueDays (l : list Entry) : Prop := NoDup (map entryDate l).

(** The list an upsert sorts: the other days, then the new entry. *)
Definition upserted (l : list Entry) (d : string) (w now : Num.number)
  : list Entry :=
  filter (fun e => negb (String.eqb (entryDate e) d)) l ++ [mkEntry d w now].

(** The number of entries of a day. *)
Definition countDay (d : string) (l : list Entry) : nat :=
  List.length (filter (fun e => String.eqb (entryDate e) d) l).

(** The store states of a session that found [st] in the storage: the result
    of an [init] (any of the two seeds) under a valid clock, followed by any
    number of upserts. *)
Inductive reachableStore (st : stored) : Store -> Prop :=
| reach_init_app today now :
    DateSpec.validClock today ->
    reachableStore st (initStore App.seed st today now)
| reach_init_mass today now :
    DateSpec.validClock today ->
    reachableStore st (initStore Mass.seed st today now)
| reach_upsert s d w now :
    reachableStore st s ->
    reachableStore st (upsertEntry s d w now).

End StoreSpec.

(** A comparator ordering strings by code units, one of the collations a host
    may have; on dates printed with the same number of digits every collation
    agrees with it. *)
Module CodeUnit.

Definition codeUnitCompare (a b : string) : Z :=
  match String.compare a b with
  | Lt => -1
  | Eq => 0
  | Gt => 1
  end.

Lemma codeUnitCompare_antisym a b :
  Z.sgn (codeUnitCompare b a) = - Z.sgn (codeUnitCompare a b).
Proof.
  unfold codeUnitCompare. rewrite (String.compare_antisym a b).
  destruct (String.compare b a); reflexivity.
Qed.

Lemma codeUnitCompare_le a b :
  codeUnitCompare a b <= 0 <-> a = b \/ OrdersEx.String_as_OT.lt a b.
Proof.
  unfold codeUnitCompare.
  pose proof (OrdersEx.String_as_OT.compare_spec a b) as Hs.
  change (OrdersEx.String_as_OT.compare a b) with (String.compare a b) in Hs.
  destruct Hs as [E|L|G]; split; intros H; try lia; auto.
  destruct H as [E|L].
  - subst. exfalso. exact (StrictOrder_Irreflexive _ G).
  - exfalso. exact (StrictOrder_Irreflexive _ (StrictOrder_Transitive _ _ _ L G)).
Qed.

Lemma codeUnitCompare_trans a b c :
  codeUnitCompare a b <= 0 -> codeUnitCompare b c <= 0 -> codeUnitCompare a c <= 0.
Proof.
  rewrite !codeUnitCompare_le. intros [E1|L1] [E2|L2]; subst; auto.
  right. exact (StrictOrder_Transitive _ _ _ L1 L2).
Qed.

(** The code-unit order is a consistent comparator. *)
Definition codeUnitOrder : Collation :=
  Build_Collation codeUnitCompare codeUnitCompare_antisym codeUnitCompare_trans.

End CodeUnit.

(** Sample inputs of the examples. *)
Module Sample.

(** 2026-11-01 *)
Definition today : Z := 20758.

(** [Date.now()] at the start of that day, in UTC. *)
Definition now : Num.number := Num.of_Z 1793491200000.

Definition record (day : string) (w : Z) : json :=
  JObject [("entryDate"%string, JString day);
           ("weight"%string, JNumber (Num.of_Z w))].

(** A snapshot with two valid records of one day. *)
Definition twoRecordsOneDay : stored :=
  Parsed (JArray [record "2026-10-30" 180; record "2026-10-30" 181]).

(** A host printing of numbers for the examples, none of which reads it. *)
Definition blankFormat : NumberFormat :=
  Build_NumberFormat (fun _ => EmptyString).

(** A session of app.js that found no item: on 2026-11-01 the user types 180
    and swipes to the previous day. *)
Definition appStart : App.Session :=
  App.init (collation := CodeUnit.codeUnitOrder) NoItem today now.

Definition appTyped : App.Session :=
  App.handle (collation := CodeUnit.codeUnitOrder) (format := blankFormat)
    today now (App.Edit "180") appStart.


(** A session of part_001 that found no item. *)
Definition massStart : Mass.Session :=
  Mass.init (collation := CodeUnit.codeUnitOrder) (format := blankFormat)
    NoItem today now.

End Sample.


(** The value [parseWeight] returns for a number it accepts:
    [Math.round(n * 10) / 10]. *)
Definition roundToTenth (n : Num.number) : Num.number :=
  Num.div (Num.Math_round (Num.mul n (Num.of_Z 10))) (Num.of_Z 10).

(** The conditions under which a weight text is refused, on the normalized
    text and the number read from it. *)
Definition refusedWeight (normalized : string) (n : Num.number) : Prop :=
  normalized = EmptyString
  \/ Num.isNaN n = true
  \/ Num.isFinite n = false
  \/ Num.leb n (Num.of_Z 0) = true
  \/ Num.gtb n (Num.of_Z 1400) = true.

(** *** Sessions

    A session is an [init] followed by events.  Each handler runs under the
    day the clock shows at that moment; the clock is valid and does not go
    back.  [reachable t s]: the session is in state [s] and the clock showed
    day [t] at the last event. *)
Module AppSpec.

Section Session.

Context {collation : Collation} {format : NumberFormat}.

Inductive reachable : Z -> App.Session -> Prop :=
| reach_init st today now :
    DateSpec.validClock today ->
    reachable today (App.init st today now)
| reach_step t s today now ev :
    reachable t s ->
    DateSpec.validClock today -> t <= today ->
    reachable today (App.handle today now ev s).

End Session.

End AppSpec.

Module MassSpec.

Section Session.

Context {collation : Collation} {format : NumberFormat}.

Inductive reachable : Z -> Mass.Session -> Prop :=
| reach_init st today now :
    DateSpec.validClock today ->
    reachable today (Mass.init st today now)
| reach_step t s today now ev :
    reachable t s ->
    DateSpec.validClock today -> t <= today ->
    reachable today (Mass.handle today now ev s).

(** The store after the save of [commitSwipe]: an upsert for the day being
    left when the staged text is a valid weight, and the store as it was
    otherwise. *)
Definition savedOnLeave (now : Num.number) (s : Mass.Session) : Store :=
  match parseWeight (Mass.weightInput s) with
  | Some w => upsertEntry (Mass.store s) (Mass.selectedISO s) w now
  | None => Mass.store s
  end.

End Session.

End MassSpec.

(** The day a navigation ends on: the shifted day unless it is in the
    future. *)
Definition navigated (today : Z) (selected : string) (delta : Z) : string :=
  let next := shiftISO selected delta in
  if isFutureISODate today next then selected else next.

(** The selected day is not after the clock's day: the string does not read as
    a later date. *)
Definition notFuture (today : Z) (selected : string) : Prop :=
  isFutureISODate today selected = false
  /\ forall n, JsDate.dateOfISO selected = Some n -> n <= today.

(** *** Completed gestures

    One finger goes down at [gStart] at the instant [gDown], moves to [gEnd]
    and is lifted there at the instant [gUp]. *)
Record Gesture := mkGesture {
  gStart : Num.number * Num.number;
  gEnd : Num.number * Num.number;
  gDown : Num.number;
  gUp : Num.number
}.

Definition gestureDx (g : Gesture) : Num.number := Num.sub (fst (gEnd g)) (fst (gStart g)).
Definition gestureDy (g : Gesture) : Num.number := Num.sub (snd (gEnd g)) (snd (gStart g)).
Definition gestureTime (g : Gesture) : Num.number := Num.sub (gUp g) (gDown g).

(** The handlers of part_001 run on a gesture: [touchstart], one [touchmove]
    to the end point, [touchend]. *)
Definition massRelease (g : Gesture) : Release :=
  Mass.touchend (gUp g)
    (fst (Mass.touchmove [gEnd g] (Mass.touchstart [gStart g] (gDown g) Mass.swipe0))).

(** The handlers of app.js run on a gesture: [touchstart], then [touchend]
    with the lifted finger as its changed touch.  They read no clock. *)
Definition appRelease (g : Gesture) : Release :=
  snd (App.touchend [gEnd g] (App.touchstart [gStart g] App.swipe0)).

(** The commit criteria of part_001. *)
Definition massCriteria (t dx dy : Num.number) : bool :=
  Num.leb t (Num.of_Z 450)
  && Num.geb (Num.abs dx) (Num.of_Z 70)
  && Num.leb (Num.abs dy) (Num.of_Z 90).

(** The commit criteria of app.js. *)
Definition appCriteria (dx dy : Num.number) : bool :=
  negb (Num.gtb (Num.abs dy) (Num.of_Z 60))
  && negb (Num.ltb (Num.abs dx) (Num.of_Z 40)).

Module SampleGesture.

(** [dx = -80], [dy = 5], lifted after 200 ms and after 600 ms. *)
Definition quick : Gesture :=
  mkGesture (Num.of_Z 200, Num.of_Z 300) (Num.of_Z 120, Num.of_Z 305)
    Sample.now (Num.of_Z 1793491200200).

Definition slow : Gesture :=
  mkGesture (Num.of_Z 200, Num.of_Z 300) (Num.of_Z 120, Num.of_Z 305)
    Sample.now (Num.of_Z 1793491200600).

End SampleGesture.

(** *** Further vocabulary *)

(** A number that [JSON.stringify] writes and [JSON.parse] reads back as it
    is: finite and not [-0]. *)
Definition jsonSafe (n : Num.number) : bool :=
  match n with
  | S754_finite _ _ _ | S754_zero false => true
  | _ => false
  end.

Definition jsonSafeEntry (e : Entry) : Prop :=
  jsonSafe (weight e) = true /\ jsonSafe (createdAt e) = true.

(** The entries of a day, in list order. *)
Definition entriesOfDay (d : string) (l : list Entry) : list Entry :=
  filter (fun e => String.eqb (entryDate e) d) l.

(** The number of days of the month with index [m] (0..11) in a year with
    [leap] in 0..1. *)
Definition daysInMonth (m : Z) (leap : Z) : Z :=
  match m with
  | 1 => 28 + leap
  | 3 | 5 | 8 | 10 => 30
  | _ => 31
  end.

(** The calendar day after year [y], month index [m], date [d]. *)
Definition nextCalendarDay (y m d : Z) : Z * Z * Z :=
  if d <? daysInMonth m (JsDate.InLeapYear y) then (y, m, d + 1)
  else if m <? 11 then (y, m + 1, 1)
  else (y + 1, 0, 1).

(** The fields a day prints with. *)
Definition calendarFields (n : Z) : Z * Z * Z :=
  (JsDate.YearFromDay n, JsDate.MonthFromDay n, JsDate.DateFromDay n).

(** A run of [touchmove] events of one finger on the recogniser of
    part_001. *)
Definition massMoves (touches : list (Num.number * Num.number)) (g : Mass.Swipe)
  : Mass.Swipe :=
  fold_left (fun g t => fst (Mass.touchmove [t] g)) touches g.

(** A text made of white space only. *)
Fixpoint allWhite (s : string) : bool :=
  match s with
  | EmptyString => true
  | String c s' => JsString.isWhiteSpace c && allWhite s'
  end.

(** The recogniser of part_001 has a lock direction only when it is locked,
    as after every [touchstart]. *)
Definition lockConsistent (g : Mass.Swipe) : Prop :=
  Mass.locked g = false -> Mass.lockDir g = None.

(** The place of a number in the order of [<]: the sign class first
    ([-Infinity], negative, zero, positive, [+Infinity]), then the exponent and
    the significand, both counted downwards for a negative number.  The two
    zeros share a place; NaN has none and is given the place of zero. *)
Definition rank (x : Num.number) : Z * Z * Z :=
  match x with
  | S754_infinity true => (-2, 0, 0)
  | S754_finite true m e => (-1, - e, Zneg m)
  | S754_zero _ | S754_nan => (0, 0, 0)
  | S754_finite false m e => (1, e, Zpos m)
  | S754_infinity false => (2, 0, 0)
  end.

Definition lexCompare (p q : Z * Z * Z) : comparison :=
  let '(a, b, c) := p in
  let '(a', b', c') := q in
  match a ?= a' with
  | Eq => match b ?= b' with Eq => c ?= c' | r => r end
  | r => r
  end.

(** No number of the list is NaN. *)
Definition noNaN (l : list Num.number) : Prop :=
  Forall (fun x => Num.isNaN x = false) l.

(** Some number of the list is NaN. *)
Definition someNaN (l : list Num.number) : Prop :=
  Exists (fun x => Num.isNaN x = true) l.

(** Further sample inputs. *)
Module SampleMore.

(** The seeded session of part_001 with "183,4" typed in the field. *)
Definition massTyped : Mass.Session :=
  Mass.handle (collation := CodeUnit.codeUnitOrder) (format := Sample.blankFormat)
    Sample.today Sample.now (Mass.Edit "183,4") Sample.massStart.

(** The store of the seeded session of app.js. *)
Definition appStore : Store := App.store Sample.appStart.

(** A finger down at (200, 300) that has moved to (150, 302): locked
    horizontally. *)
Definition lockedSwipe : Mass.Swipe :=
  fst (Mass.touchmove [(Num.of_Z 150, Num.of_Z 302)]
         (Mass.touchstart [(Num.of_Z 200, Num.of_Z 300)] Sample.now Mass.swipe0)).

End SampleMore.

(** * Properties *)

(** ** Calendar arithmetic *)
Module JsDateFacts.

Import JsString JsDate DateSpec.

Lemma DayFromYear_succ y : DayFromYear (y + 1) = DayFromYear y + DaysInYear y.
Proof.
  unfold DayFromYear, DaysInYear.
  destruct (Z.eqb_spec (y mod 4) 0), (Z.eqb_spec (y mod 100) 0),
    (Z.eqb_spec (y mod 400) 0); cbn [negb]; Z.div_mod_to_equations; lia.
Qed.

Lemma DayFromYear_mono y y' : y <= y' -> DayFromYear y <= DayFromYear y'.
Proof. unfold DayFromYear. intros H. Z.div_mod_to_equations. lia. Qed.

(** [YearFromDay n] is the year whose days contain [n]. *)
Lemma YearFromDay_spec n :
  DayFromYear (YearFromDay n) <= n < DayFromYear (YearFromDay n + 1).
Proof.
  unfold YearFromDay.
  set (y0 := 1970 + 400 * n / 146097).
  destruct (Z.leb_spec (DayFromYear (y0 + 1)) n) as [H1|H1].
  - split; [exact H1|].
    subst y0. revert H1. unfold DayFromYear. Z.div_mod_to_equations. lia.
  - destruct (Z.leb_spec (DayFromYear y0) n) as [H0|H0].
    + split; assumption.
    + replace (y0 - 1 + 1) with y0 by lia. split; [|exact H0].
      subst y0. revert H0. unfold DayFromYear. Z.div_mod_to_equations. lia.
Qed.

Lemma YearFromDay_unique n y :
  DayFromYear y <= n < DayFromYear (y + 1) -> YearFromDay n = y.
Proof.
  intros Hy. pose proof (YearFromDay_spec n) as Hs.
  destruct (Z.lt_trichotomy (YearFromDay n) y) as [Hlt|[Heq|Hgt]]; [|exact Heq|].
  - pose proof (DayFromYear_mono (YearFromDay n + 1) y ltac:(lia)). lia.
  - pose proof (DayFromYear_mono (y + 1) (YearFromDay n) ltac:(lia)). lia.
Qed.

Lemma YearFromDay_lower n y : DayFromYear y <= n -> y <= YearFromDay n.
Proof.
  intros Hy. pose proof (YearFromDay_spec n) as Hs.
  destruct (Z.le_gt_cases y (YearFromDay n)) as [Hle|Hgt]; [exact Hle|].
  pose proof (DayFromYear_mono (YearFromDay n + 1) y ltac:(lia)). lia.
Qed.

Lemma InLeapYear_DaysInYear y : DaysInYear y = 365 + InLeapYear y.
Proof.
  unfold InLeapYear, DaysInYear.
  destruct (y mod 4 =? 0), (y mod 100 =? 0), (y mod 400 =? 0); reflexivity.
Qed.

Lemma InLeapYear_range y : 0 <= InLeapYear y <= 1.
Proof. unfold InLeapYear. destruct (DaysInYear y =? 366); lia. Qed.

Lemma DayWithinYear_range n :
  0 <= DayWithinYear n < 365 + InLeapYear (YearFromDay n).
Proof.
  unfold DayWithinYear. pose proof (YearFromDay_spec n) as Hs.
  rewrite DayFromYear_succ, InLeapYear_DaysInYear in Hs. lia.
Qed.

Ltac month_cases :=
  repeat match goal with
    | |- context [if ?a <? ?b then _ else _] => destruct (Z.ltb_spec a b)
    end.

Lemma MonthFromDay_range n : 0 <= MonthFromDay n <= 11.
Proof. unfold MonthFromDay. month_cases; lia. Qed.

Lemma DateFromDay_range n : 1 <= DateFromDay n <= 31.
Proof.
  unfold DateFromDay, MonthFromDay.
  pose proof (DayWithinYear_range n). pose proof (InLeapYear_range (YearFromDay n)).
  month_cases; cbn [monthStart]; lia.
Qed.

(** A day is recovered from its year, month and date; another date of the same
    month moves it by the difference. *)
Lemma MakeDay_fields n v :
  MakeDay (YearFromDay n) (MonthFromDay n) v = n - DateFromDay n + v.
Proof.
  pose proof (MonthFromDay_range n) as Hm.
  unfold MakeDay.
  rewrite (Z.div_small (MonthFromDay n) 12), (Z.mod_small (MonthFromDay n) 12) by lia.
  rewrite Z.add_0_r. unfold DateFromDay, DayWithinYear. lia.
Qed.

Lemma setDate_getDate n delta :
  setDate n (DateFromDay n + delta) = TimeClip (n + delta).
Proof. unfold setDate. rewrite MakeDay_fields. f_equal. lia. Qed.

(** *** Printing and reading back the fields *)

Lemma split_noHyphen s : noHyphen s = true -> split "-" s = [s].
Proof.
  induction s as [|c s IH]; cbn [noHyphen split]; [reflexivity|].
  intros H. apply andb_true_iff in H as [Hc Hs].
  apply negb_true_iff in Hc. rewrite Hc, (IH Hs). reflexivity.
Qed.

Lemma split_append s rest :
  noHyphen s = true -> split "-" (s ++ String "-" rest) = s :: split "-" rest.
Proof.
  induction s as [|c s IH]; cbn [noHyphen split append].
  - intros _. rewrite Ascii.eqb_refl. reflexivity.
  - intros H. apply andb_true_iff in H as [Hc Hs].
    apply negb_true_iff in Hc. rewrite Hc, (IH Hs). reflexivity.
Qed.

Lemma noHyphen_digits d : noHyphen (NilEmpty.string_of_uint d) = true.
Proof. induction d; cbn; auto. Qed.

Lemma of_int_nonneg z :
  0 <= z -> of_int z = NilEmpty.string_of_uint (N.to_uint (Z.to_N z)).
Proof.
  intros Hz. unfold of_int.
  assert (Hnil : forall k, NilZero.string_of_uint (N.to_uint k)
                           = NilEmpty.string_of_uint (N.to_uint k)).
  { intros [|p]; [reflexivity|]. cbn [N.to_uint].
    pose proof (DecimalPos.Unsigned.to_uint_nonnil p).
    destruct (Pos.to_uint p); [congruence|reflexivity..]. }
  destruct z; [apply Hnil|apply Hnil|lia].
Qed.

Lemma noHyphen_of_int z : 0 <= z -> noHyphen (of_int z) = true.
Proof. intros Hz. rewrite of_int_nonneg by exact Hz. apply noHyphen_digits. Qed.

Lemma fieldNumber_of_int z : 0 <= z -> fieldNumber (of_int z) = Some z.
Proof.
  intros Hz. rewrite of_int_nonneg by exact Hz. unfold fieldNumber.
  rewrite NilEmpty.usu. cbn [option_map].
  rewrite DecimalN.Unsigned.of_to, Z2N.id by exact Hz. reflexivity.
Qed.

Lemma noHyphen_padStart2 s : noHyphen s = true -> noHyphen (padStart2 s) = true.
Proof.
  destruct s as [|c [|c' s]]; cbn [padStart2 noHyphen]; intros H; auto.
Qed.

Lemma fieldNumber_padStart2 s : fieldNumber (padStart2 s) = fieldNumber s.
Proof.
  destruct s as [|c [|c' s]]; cbn [padStart2]; try reflexivity.
  unfold fieldNumber. cbn [NilEmpty.uint_of_string].
  destruct (uint_of_char c (Some Decimal.Nil)); reflexivity.
Qed.

Lemma fields_formatISO n :
  0 <= YearFromDay n ->
  fields (formatISO n) = Some (YearFromDay n, MonthFromDay n + 1, DateFromDay n).
Proof.
  intros Hy. pose proof (MonthFromDay_range n). pose proof (DateFromDay_range n).
  unfold fields, formatISO. cbn [append].
  rewrite split_append by (apply noHyphen_of_int; exact Hy).
  rewrite split_append by (apply noHyphen_padStart2, noHyphen_of_int; lia).
  rewrite split_noHyphen by (apply noHyphen_padStart2, noHyphen_of_int; lia).
  cbn [map]. rewrite !fieldNumber_padStart2, !fieldNumber_of_int by lia.
  reflexivity.
Qed.

Lemma TimeClip_in_range n : - maxDay <= n <= maxDay -> TimeClip n = Some n.
Proof.
  intros H. unfold TimeClip.
  destruct (Z.leb_spec (Z.abs n) maxDay); [reflexivity|lia].
Qed.

(** Reading back a printed day gives the day. *)
Theorem dateOfISO_formatISO n :
  minDay <= n <= maxDay -> dateOfISO (formatISO n) = Some n.
Proof.
  intros [Hlo Hhi].
  pose proof (YearFromDay_lower n 100 Hlo) as Hy.
  unfold dateOfISO. rewrite fields_formatISO by lia.
  unfold newDate.
  replace ((0 <=? YearFromDay n) && (YearFromDay n <=? 99)) with false
    by (symmetry; apply andb_false_iff; right; apply Z.leb_gt; lia).
  replace (MonthFromDay n + 1 - 1) with (MonthFromDay n) by lia.
  rewrite MakeDay_fields.
  replace (n - DateFromDay n + DateFromDay n) with n by lia.
  apply TimeClip_in_range. unfold minDay, maxDay in *.
  change (DayFromYear 100) with (-683003) in Hlo. lia.
Qed.

(** [shiftISO] on a printed day is the printed day [delta] days later. *)
Theorem shiftISO_formatISO n delta :
  minDay <= n <= maxDay -> - maxDay <= n + delta <= maxDay ->
  shiftISO (formatISO n) delta = formatISO (n + delta).
Proof.
  intros Hn Hd. unfold shiftISO.
  rewrite dateOfISO_formatISO by exact Hn.
  rewrite setDate_getDate, TimeClip_in_range by exact Hd. reflexivity.
Qed.

Lemma formatISO_inj n m :
  minDay <= n <= maxDay -> minDay <= m <= maxDay ->
  formatISO n = formatISO m -> n = m.
Proof.
  intros Hn Hm E. apply (f_equal dateOfISO) in E.
  rewrite !dateOfISO_formatISO in E by assumption. congruence.
Qed.

Lemma validClock_range today : validClock today -> minDay <= today <= maxDay.
Proof.
  unfold validClock, minDay, maxDay. change (DayFromYear 100) with (-683003).
  lia.
Qed.

(** The [today] that [isFutureISODate] rebuilds from the clock's fields. *)
Lemma today_rebuilt today :
  validClock today ->
  newDate (YearFromDay today) (MonthFromDay today) (DateFromDay today) = Some today.
Proof.
  intros Hc. pose proof (validClock_range today Hc) as Hr.
  pose proof (YearFromDay_lower today 100 (proj1 Hr)) as Hy.
  unfold newDate.
  replace ((0 <=? YearFromDay today) && (YearFromDay today <=? 99)) with false
    by (symmetry; apply andb_false_iff; right; apply Z.leb_gt; lia).
  rewrite MakeDay_fields.
  replace (today - DateFromDay today + DateFromDay today) with today by lia.
  apply TimeClip_in_range. unfold validClock, maxDay in *. lia.
Qed.

Lemma isFutureISODate_spec today iso :
  validClock today ->
  isFutureISODate today iso =
    match dateOfISO iso with
    | Some n => today <? n
    | None => false
    end.
Proof.
  intros Hc. unfold isFutureISODate. rewrite today_rebuilt by exact Hc.
  reflexivity.
Qed.

End JsDateFacts.

(** ** The entry store *)
Module StoreFacts.

Section WithCollation.

Context {collation : Collation}.

Lemma notAfter_total a b : ~ notAfter a b -> notAfter b a.
Proof.
  unfold notAfter, byEntryDate. intros H.
  pose proof (localeCompare_antisym (entryDate a) (entryDate b)) as Ha.
  destruct (localeCompare (entryDate a) (entryDate b)) eqn:E1;
    destruct (localeCompare (entryDate b) (entryDate a)) eqn:E2;
    cbn in Ha; try lia; discriminate.
Qed.

Lemma notAfter_trans a b c : notAfter a b -> notAfter b c -> notAfter a c.
Proof. unfold notAfter, byEntryDate. apply localeCompare_trans. Qed.

Lemma insertSorted_perm x l : Permutation (insertSorted x l) (x :: l).
Proof.
  induction l as [|y r IH]; cbn [insertSorted]; [reflexivity|].
  destruct (byEntryDate x y <=? 0); [reflexivity|].
  rewrite IH. apply perm_swap.
Qed.

Lemma sort_perm l : Permutation (sortByEntryDateAsc l) l.
Proof.
  induction l as [|x l IH]; cbn [sortByEntryDateAsc fold_right]; [reflexivity|].
  rewrite insertSorted_perm. apply perm_skip, IH.
Qed.

Lemma insertSorted_sorted x l : sortedByDay l -> sortedByDay (insertSorted x l).
Proof.
  unfold sortedByDay. induction 1 as [|y r Hr IH Hy]; cbn [insertSorted].
  - repeat constructor.
  - destruct (Z.leb_spec (byEntryDate x y) 0) as [Hle|Hgt].
    + constructor; [constructor; assumption|].
      constructor; [exact Hle|].
      rewrite Forall_forall in Hy |- *. intros z Hz.
      eapply notAfter_trans; [exact Hle|auto].
    + constructor; [exact IH|].
      rewrite Forall_forall in Hy |- *. intros z Hz.
      apply (Permutation_in _ (insertSorted_perm x r)) in Hz.
      destruct Hz as [<-|Hz]; [|auto].
      apply notAfter_total. unfold notAfter. lia.
Qed.

(** Sorting sorts, whatever the list. *)
Lemma sort_sorted l : sortedByDay (sortByEntryDateAsc l).
Proof.
  induction l as [|x l IH]; cbn [sortByEntryDateAsc fold_right].
  - constructor.
  - apply insertSorted_sorted, IH.
Qed.

Lemma sort_length l : List.length (sortByEntryDateAsc l) = List.length l.
Proof. apply Permutation_length, sort_perm. Qed.

Lemma filter_perm {A} (p : A -> bool) l l' :
  Permutation l l' -> Permutation (filter p l) (filter p l').
Proof.
  induction 1 as [|x l l' _ IH|x y l|l l' l'' _ IH1 _ IH2]; cbn [filter].
  - reflexivity.
  - destruct (p x); [apply perm_skip|]; exact IH.
  - destruct (p x), (p y); try reflexivity. apply perm_swap.
  - etransitivity; eassumption.
Qed.

Lemma uniqueDays_perm l l' : Permutation l l' -> uniqueDays l -> uniqueDays l'.
Proof.
  unfold uniqueDays. intros Hp. apply Permutation_NoDup, Permutation_map, Hp.
Qed.

Lemma uniqueDays_sort l : uniqueDays l -> uniqueDays (sortByEntryDateAsc l).
Proof. apply uniqueDays_perm. symmetry. apply sort_perm. Qed.

Lemma uniqueDays_filter p l : uniqueDays l -> uniqueDays (filter p l).
Proof.
  unfold uniqueDays. induction l as [|e l IH]; cbn [filter map]; [auto|].
  intros H. inversion H as [|? ? Hn Hl]; subst.
  destruct (p e); cbn [map]; [|auto].
  constructor; [|auto]. intros Hin. apply Hn.
  apply in_map_iff in Hin as (e' & E & Hin). apply in_map_iff.
  exists e'. split; [exact E|]. apply filter_In in Hin. tauto.
Qed.

Lemma entries_upsertEntry s d w now :
  entries (upsertEntry s d w now) = sortByEntryDateAsc (upserted (entries s) d w now).
Proof. reflexivity. Qed.

Lemma uniqueDays_upserted l d w now : uniqueDays l -> uniqueDays (upserted l d w now).
Proof.
  intros H. unfold upserted.
  apply (uniqueDays_perm (mkEntry d w now ::
           filter (fun e => negb (String.eqb (entryDate e) d)) l)).
  { apply Permutation_cons_append. }
  unfold uniqueDays. cbn [map entryDate]. constructor.
  - intros Hin. apply in_map_iff in Hin as (e & E & Hin).
    apply filter_In in Hin as [_ Hne]. apply negb_true_iff in Hne.
    apply String.eqb_neq in Hne. congruence.
  - apply uniqueDays_filter, H.
Qed.

(** The entries of day [d] in the list an upsert sorts: the new one only. *)
Lemma filter_day_upserted l d w now :
  filter (fun e => String.eqb (entryDate e) d) (upserted l d w now)
  = [mkEntry d w now].
Proof.
  unfold upserted. rewrite filter_app. cbn [filter entryDate].
  rewrite String.eqb_refl.
  induction l as [|e l IH]; cbn [filter app]; [reflexivity|].
  destruct (String.eqb (entryDate e) d) eqn:E; cbn [negb filter]; [exact IH|].
  rewrite E. exact IH.
Qed.

Lemma filter_day_upsertEntry s d w now :
  filter (fun e => String.eqb (entryDate e) d) (entries (upsertEntry s d w now))
  = [mkEntry d w now].
Proof.
  rewrite entries_upsertEntry.
  apply Permutation_length_1_inv.
  rewrite <- (filter_day_upserted (entries s) d w now).
  apply filter_perm. symmetry. apply sort_perm.
Qed.

Lemma find_filter {A} (p : A -> bool) l : find p l = hd_error (filter p l).
Proof.
  induction l as [|x l IH]; cbn [find filter]; [reflexivity|].
  destruct (p x); [reflexivity|exact IH].
Qed.

Lemma filter_length_split {A} (p : A -> bool) l :
  List.length l
  = (List.length (filter p l) + List.length (filter (fun x => negb (p x)) l))%nat.
Proof.
  induction l as [|x l IH]; cbn [filter]; [reflexivity|].
  destruct (p x); cbn [negb List.length]; lia.
Qed.

End WithCollation.

(** A record written by [JSON.stringify] with a finite weight and a finite
    instant, neither of them [-0], is read back by [loadEntries] as it was. *)
Lemma loadRecord_jsonEntry now e :
  jsonSafeEntry e -> loadRecord now (jsonEntry e) = Some e.
Proof.
  intros [Hw Hc]. destruct e as [d w c]. cbn [weight createdAt] in *.
  unfold loadRecord, jsonEntry. cbn [entryDate weight createdAt getProp].
  cbn. destruct w as [[|]| | |]; try discriminate Hw;
    destruct c as [[|]| | |]; try discriminate Hc; reflexivity.
Qed.

Lemma loadEntries_saveEntries l now :
  Forall jsonSafeEntry l -> loadEntries (saveEntries l) now = l.
Proof.
  unfold saveEntries, loadEntries.
  induction 1 as [|e l He _ IH]; cbn [map filterMap]; [reflexivity|].
  rewrite (loadRecord_jsonEntry now e He), IH. reflexivity.
Qed.

(** The weights of the seeds are finite decimal literals. *)
Lemma seed_jsonSafe seed today now :
  seed = App.seed \/ seed = Mass.seed ->
  jsonSafe now = true -> Forall jsonSafeEntry (seed today now).
Proof.
  intros [-> | ->] Hnow; unfold App.seed, Mass.seed;
    repeat (apply Forall_cons; [split; [vm_compute; reflexivity|exact Hnow]|]);
    apply Forall_nil.
Qed.

End StoreFacts.

Module StoreClaims.

Import StoreFacts.

Section WithCollation.

Context {collation : Collation}.

Lemma seed_days today k :
  DateSpec.validClock today -> -14 <= k <= 0 ->
  shiftISO (todayISODate today) k = JsDate.formatISO (today + k).
Proof.
  intros Hc Hk. unfold todayISODate.
  apply JsDateFacts.shiftISO_formatISO.
  - apply JsDateFacts.validClock_range, Hc.
  - unfold DateSpec.validClock, JsDate.maxDay in *. lia.
Qed.

Lemma seed_day_inj today j k :
  DateSpec.validClock today -> -14 <= j <= 0 -> -14 <= k <= 0 ->
  JsDate.formatISO (today + j) = JsDate.formatISO (today + k) -> j = k.
Proof.
  intros Hc Hj Hk E.
  apply JsDateFacts.formatISO_inj in E; [lia| |];
    unfold DateSpec.validClock, DateSpec.minDay, JsDate.maxDay in *;
    change (JsDate.DayFromYear 100) with (-683003); lia.
Qed.

Ltac distinct_days Hc :=
  repeat
    (constructor;
     [cbn [In]; intros Hin;
      repeat (destruct Hin as [Hin|Hin];
              [apply (seed_day_inj _ _ _ Hc) in Hin; lia|]);
      exact Hin|]);
  constructor.

Lemma uniqueDays_App_seed today now :
  DateSpec.validClock today -> uniqueDays (App.seed today now).
Proof.
  intros Hc. unfold uniqueDays, App.seed. cbn [map entryDate].
  rewrite !(seed_days today) by (assumption || lia).
  distinct_days Hc.
Qed.

Lemma uniqueDays_Mass_seed today now :
  DateSpec.validClock today -> uniqueDays (Mass.seed today now).
Proof.
  intros Hc. unfold uniqueDays, Mass.seed. cbn [map entryDate].
  rewrite !(seed_days today) by (assumption || lia).
  distinct_days Hc.
Qed.

Lemma initStore_sorted seed st today now :
  sortedByDay (entries (initStore seed st today now)).
Proof.
  unfold initStore.
  pose proof (sort_sorted (loadEntries st now)) as Hl.
  destruct (sortByEntryDateAsc (loadEntries st now)); cbn [entries].
  - apply sort_sorted.
  - exact Hl.
Qed.

Lemma initStore_unique seed st today now :
  uniqueDays (seed today now) -> uniqueDays (loadEntries st now) ->
  uniqueDays (entries (initStore seed st today now)).
Proof.
  intros Hs Hl. unfold initStore.
  apply uniqueDays_sort in Hl.
  destruct (sortByEntryDateAsc (loadEntries st now)); cbn [entries].
  - apply uniqueDays_sort, Hs.
  - exact Hl.
Qed.

Lemma upsertEntry_sorted s d w now : sortedByDay (entries (upsertEntry s d w now)).
Proof. rewrite entries_upsertEntry. apply sort_sorted. Qed.

Lemma upsertEntry_unique s d w now :
  uniqueDays (entries s) -> uniqueDays (entries (upsertEntry s d w now)).
Proof.
  intros H. rewrite entries_upsertEntry.
  apply uniqueDays_sort, uniqueDays_upserted, H.
Qed.

Lemma upsertEntry_countDay s d w now :
  countDay d (entries (upsertEntry s d w now)) = 1%nat.
Proof. unfold countDay. rewrite filter_day_upsertEntry. reflexivity. Qed.

(** Claim C1, as the code has it.  In every store state a session reaches,
    after the load of [init] and after every upsert, the entry list is sorted
    ascending by day; it holds at most one entry per day when the valid records
    of the loaded snapshot have pairwise distinct days; and an upsert leaves
    exactly one entry for its day whatever the store held. *)
Theorem store_sorted_and_unique (st : stored) (s : Store) :
  reachableStore st s ->
  sortedByDay (entries s)
  /\ ((forall now, uniqueDays (loadEntries st now)) -> uniqueDays (entries s))
  /\ (forall d w now, countDay d (entries (upsertEntry s d w now)) = 1%nat).
Proof.
  intros Hr. split; [|split].
  - destruct Hr; [apply initStore_sorted..|apply upsertEntry_sorted].
  - intros Hu. induction Hr as [today now Hc|today now Hc|s d w now _ IH].
    + apply initStore_unique; [apply uniqueDays_App_seed, Hc|apply Hu].
    + apply initStore_unique; [apply uniqueDays_Mass_seed, Hc|apply Hu].
    + apply upsertEntry_unique, IH.
  - intros d w now. apply upsertEntry_countDay.
Qed.

(** Claim C2.  Two upserts of one day leave exactly one entry for that day,
    the one [findEntry] returns; it carries the second weight and the second
    [Date.now()]; the list is as long as after the first upsert, and it is the
    list that was persisted. *)
Theorem upsert_twice_overwrites (s : Store) (d : string)
  (w1 w2 t1 t2 : Num.number) :
  let s1 := upsertEntry s d w1 t1 in
  let s2 := upsertEntry s1 d w2 t2 in
  filter (fun e => String.eqb (entryDate e) d) (entries s2) = [mkEntry d w2 t2]
  /\ countDay d (entries s2) = 1%nat
  /\ findEntry s2 d = Some (mkEntry d w2 t2)
  /\ List.length (entries s2) = List.length (entries s1)
  /\ storage s2 = saveEntries (entries s2).
Proof.
  intros s1 s2.
  assert (H2 : filter (fun e => String.eqb (entryDate e) d) (entries s2)
               = [mkEntry d w2 t2]) by apply filter_day_upsertEntry.
  repeat split.
  - exact H2.
  - unfold countDay. rewrite H2. reflexivity.
  - unfold findEntry. rewrite find_filter, H2. reflexivity.
  - subst s2. rewrite entries_upsertEntry, sort_length.
    unfold upserted. rewrite length_app. cbn [List.length].
    rewrite (filter_length_split (fun e => String.eqb (entryDate e) d) (entries s1)).
    subst s1. rewrite filter_day_upsertEntry. cbn [List.length]. lia.
Qed.

End WithCollation.

(** A session that finds nothing in the storage reaches a sorted store with
    one entry per day. *)
Lemma store_sorted_and_unique_witness :
  let s := initStore (collation := CodeUnit.codeUnitOrder) Mass.seed NoItem
             Sample.today Sample.now in
  sortedByDay (collation := CodeUnit.codeUnitOrder) (entries s)
  /\ ((forall now, uniqueDays (loadEntries NoItem now)) -> uniqueDays (entries s))
  /\ (forall d w now,
        countDay d (entries (upsertEntry (collation := CodeUnit.codeUnitOrder) s d w now))
        = 1%nat).
Proof.
  apply (store_sorted_and_unique (collation := CodeUnit.codeUnitOrder) NoItem).
  apply reach_init_mass. unfold DateSpec.validClock, Sample.today, JsDate.maxDay. lia.
Defined.

(** Claim C1 as stated fails at the load: a snapshot with two valid records of
    one day gives a reachable store with two entries for that day. *)
Lemma load_keeps_both_records_of_a_day :
  let s := initStore (collation := CodeUnit.codeUnitOrder) App.seed
             Sample.twoRecordsOneDay Sample.today Sample.now in
  reachableStore (collation := CodeUnit.codeUnitOrder) Sample.twoRecordsOneDay s
  /\ countDay "2026-10-30" (entries s) = 2%nat
  /\ ~ uniqueDays (entries s).
Proof.
  split; [|split].
  - apply reach_init_app. unfold DateSpec.validClock, Sample.today, JsDate.maxDay. lia.
  - vm_compute. reflexivity.
  - intros H. vm_compute in H. inversion H as [|x l Hn Hl]. apply Hn. left. reflexivity.
Qed.

End StoreClaims.

(** ** The weight parser *)
Module ParseClaims.

Open Scope string_scope.

(** [Math.round] on a double that is not an integer, [x = v * 2^e] with
    [e < 0]: the result is the integer [k] with [k - 1/2 <= x < k + 1/2], so a
    tie goes up. *)
Lemma round_half_up_spec (s : bool) (m : positive) (e : Z) :
  e < 0 ->
  let v := if s then Zneg m else Zpos m in
  let k := Num.round_half_up s m e in
  (2 * k - 1) * 2 ^ (- e) <= 2 * v < (2 * k + 1) * 2 ^ (- e).
Proof.
  intros He v k. subst k. unfold Num.round_half_up. fold v.
  destruct e as [|p|p]; try lia.
  change (- Z.neg p) with (Z.pos p).
  assert (Hp : 0 < 2 ^ Z.pos p) by (apply Z.pow_pos_nonneg; lia).
  set (P := 2 ^ Z.pos p) in *.
  pose proof (Z.div_mod (2 * v + P) (2 * P) ltac:(lia)) as Hd.
  pose proof (Z.mod_pos_bound (2 * v + P) (2 * P) ltac:(lia)) as Hm.
  nia.
Qed.

Lemma parseWeightInput_parseWeight raw : parseWeightInput raw = parseWeight raw.
Proof.
  unfold parseWeightInput, parseWeight.
  destruct (normalizeWeightText raw); [reflexivity|].
  destruct (Num.isFinite _); reflexivity.
Qed.

Lemma isNaN_not_finite n : Num.isNaN n = true -> Num.isFinite n = false.
Proof. destruct n; cbn; congruence. Qed.

(** Claim C5.  The parser trims the text and turns the first comma into a
    period; it returns [null] exactly when the normalized text is empty or the
    number read from it is NaN, not finite, [<= 0] or [> 1400], and otherwise
    [Math.round(n * 10) / 10], whose ties go up: ["180"] gives 180,
    ["180,2"] gives 180.2, ["0"] and ["1401"] are refused, ["  179.95  "]
    gives 180 and ["0.25"] gives 0.3.  The function is total, and the two
    spellings of the parser agree.  The last part is the tie-break of
    [Math.round] on a double [v * 2^e] that is not an integer: the result is
    the integer [k] with [k - 1/2 <= v * 2^e < k + 1/2]. *)
Theorem parseWeight_spec (raw : string) :
  let normalized := JsString.replace "," "." (JsString.trim raw) in
  let n := StringToNumber.Number normalized in
  (parseWeight raw = None <-> refusedWeight normalized n)
  /\ (parseWeight raw <> None -> parseWeight raw = Some (roundToTenth n))
  /\ parseWeightInput raw = parseWeight raw
  /\ parseWeight "180" = Some (Num.of_Z 180)
  /\ parseWeight "180,2" = Some (Num.of_decimal 1802 (-1))
  /\ parseWeight "0" = None
  /\ parseWeight "1401" = None
  /\ parseWeight "  179.95  " = Some (Num.of_Z 180)
  /\ parseWeight "0.25" = Some (Num.of_decimal 3 (-1))
  /\ (forall (s : bool) (m : positive) (e : Z), e < 0 ->
      let v := if s then Zneg m else Zpos m in
      exists k,
        Num.Math_round (S754_finite s m e) = binary_normalize 53 1024 k 0 s
        /\ (2 * k - 1) * 2 ^ (- e) <= 2 * v < (2 * k + 1) * 2 ^ (- e)).
Proof.
  intros normalized n.
  assert (Hdef : parseWeight raw =
                 match normalized with
                 | EmptyString => None
                 | _ =>
                     if negb (Num.isFinite n) || Num.leb n (Num.of_Z 0)
                        || Num.gtb n (Num.of_Z 1400)
                     then None else Some (roundToTenth n)
                 end) by reflexivity.
  split; [|split; [|split; [apply parseWeightInput_parseWeight|]]].
  - rewrite Hdef. unfold refusedWeight.
    destruct normalized as [|c r] eqn:En; [split; auto|].
    fold n.
    destruct (Num.isFinite n) eqn:Ef, (Num.leb n (Num.of_Z 0)) eqn:El,
      (Num.gtb n (Num.of_Z 1400)) eqn:Eg; cbn [negb orb];
      split; intros H; auto 6; try discriminate.
    destruct H as [H|[H|[H|[H|H]]]]; try discriminate.
    apply isNaN_not_finite in H. congruence.
  - rewrite Hdef. destruct normalized; [congruence|].
    destruct (negb (Num.isFinite n) || Num.leb n (Num.of_Z 0)
              || Num.gtb n (Num.of_Z 1400)); congruence.
  - repeat (split; [vm_compute; reflexivity|]).
    intros s m e He v. exists (Num.round_half_up s m e). split.
    + unfold Num.Math_round. destruct (Z.leb_spec 0 e); [lia|reflexivity].
    + apply round_half_up_spec. exact He.
Qed.

End ParseClaims.

(** ** The chart window *)
Module ChartClaims.

Import Chart DateSpec.

(** The value at a day of the window: its own when the day has an entry, else
    the one of the day before, and [carried] before the first day. *)
Lemma fillForward_nth l days : forall carried i,
  (i < List.length days)%nat ->
  nth i (fillForward l carried days) None =
    match mapGet l (nth i days EmptyString) with
    | Some x => Some x
    | None =>
        match i with
        | O => carried
        | S j => nth j (fillForward l carried days) None
        end
    end.
Proof.
  induction days as [|d days IH]; intros carried i Hi; cbn [List.length] in Hi; [lia|].
  destruct i as [|[|i]].
  - cbn [nth fillForward]. destruct (mapGet l d); reflexivity.
  - cbn [nth fillForward].
    destruct (mapGet l d) as [x|]; cbn [nth];
      rewrite IH by lia; reflexivity.
  - cbn [fillForward].
    destruct (mapGet l d) as [x|]; cbn [nth];
      rewrite (IH _ (S i)) by lia; reflexivity.
Qed.

Lemma fillForward_length l days : forall carried,
  List.length (fillForward l carried days) = List.length days.
Proof.
  induction days as [|d days IH]; intros carried; cbn [fillForward List.length];
    [reflexivity|].
  destruct (mapGet l d); cbn [List.length]; rewrite IH; reflexivity.
Qed.

(** Before the first day with an entry nothing is carried. *)
Lemma fillForward_leading_gap l days carried i :
  (i < List.length days)%nat ->
  (forall j, (j <= i)%nat -> mapGet l (nth j days EmptyString) = None) ->
  nth i (fillForward l carried days) None = carried.
Proof.
  induction i as [|i IH]; intros Hi Hgap; rewrite fillForward_nth by exact Hi;
    rewrite (Hgap _ (le_n _)); [reflexivity|].
  apply IH; [lia|]. intros j Hj. apply Hgap. lia.
Qed.

(** From a day with an entry on, its value is carried over the days without
    one. *)
Lemma fillForward_carried l days carried j i x :
  (j <= i < List.length days)%nat ->
  mapGet l (nth j days EmptyString) = Some x ->
  (forall k, (j < k <= i)%nat -> mapGet l (nth k days EmptyString) = None) ->
  nth i (fillForward l carried days) None = Some x.
Proof.
  induction i as [|i IH]; intros Hi Hj Hgap; rewrite fillForward_nth by lia.
  - replace j with O in Hj by lia. rewrite Hj. reflexivity.
  - destruct (Nat.eq_dec j (S i)) as [->|Hne]; [rewrite Hj; reflexivity|].
    rewrite (Hgap (S i)) by lia.
    apply IH; [lia|exact Hj|]. intros k Hk. apply Hgap. lia.
Qed.

(** With one entry per day, the map gives every entry its own weight. *)
Lemma mapGet_unique l e :
  uniqueDays l -> In e l -> mapGet l (entryDate e) = Some (weight e).
Proof.
  unfold uniqueDays. induction l as [|a l IH]; cbn [In map mapGet]; [tauto|].
  intros Hu Hin. inversion Hu as [|? ? Hn Hl]; subst.
  destruct Hin as [->|Hin].
  - destruct (mapGet l (entryDate e)) eqn:E.
    + exfalso. apply Hn. clear - E.
      induction l as [|b l IH]; cbn [mapGet] in E; [discriminate|].
      destruct (mapGet l (entryDate e)); [right; auto|].
      destruct (String.eqb_spec (entryDate b) (entryDate e)); [left; auto|discriminate].
    + rewrite String.eqb_refl. reflexivity.
  - rewrite (IH Hl Hin). reflexivity.
Qed.

Lemma mapGet_absent l d :
  (forall e, In e l -> entryDate e <> d) -> mapGet l d = None.
Proof.
  induction l as [|a l IH]; cbn [mapGet]; [reflexivity|].
  intros H. rewrite IH by (intros e He; apply H; right; exact He).
  destruct (String.eqb_spec (entryDate a) d) as [E|_]; [|reflexivity].
  exfalso. apply (H a); [left; reflexivity|exact E].
Qed.

(** The days of the window of a date. *)
Lemma shiftISO_date iso n delta :
  JsDate.dateOfISO iso = Some n -> - JsDate.maxDay <= n + delta <= JsDate.maxDay ->
  shiftISO iso delta = JsDate.formatISO (n + delta).
Proof.
  intros Hn Hd. unfold shiftISO. rewrite Hn.
  rewrite JsDateFacts.setDate_getDate, JsDateFacts.TimeClip_in_range by exact Hd.
  reflexivity.
Qed.

Lemma weekDays_date iso n :
  JsDate.dateOfISO iso = Some n -> inWindowRange n ->
  weekDays iso = map (fun i => JsDate.formatISO (n - 6 + i)) [0; 1; 2; 3; 4; 5; 6].
Proof.
  unfold inWindowRange, DateSpec.minDay, JsDate.maxDay.
  change (JsDate.DayFromYear 100) with (-683003).
  intros Hn Hr. unfold weekDays. cbn [map].
  rewrite !(shiftISO_date iso n) by (assumption || (unfold JsDate.maxDay; lia)).
  repeat (f_equal; try lia).
Qed.

Lemma window_day_inj n i j :
  inWindowRange n -> 0 <= i <= 6 -> 0 <= j <= 6 ->
  JsDate.formatISO (n - 6 + i) = JsDate.formatISO (n - 6 + j) -> i = j.
Proof.
  unfold inWindowRange. intros Hr Hi Hj E.
  apply JsDateFacts.formatISO_inj in E; [lia| |];
    unfold DateSpec.minDay, JsDate.maxDay in *; lia.
Qed.


Lemma values_length l endISO : List.length (values (getWeekSeries l endISO)) = 7%nat.
Proof.
  unfold getWeekSeries. cbn [values]. rewrite fillForward_length. reflexivity.
Qed.

Ltac window_eqb Hr :=
  repeat match goal with
    | |- context [String.eqb ?a ?a] => rewrite (String.eqb_refl a)
    | |- context [String.eqb ?a ?b] =>
        rewrite (proj2 (String.eqb_neq a b))
          by (intros E; apply (window_day_inj _ _ _ Hr) in E; lia)
    end.

(** Claim C6.  The window has the seven days [shiftISO endISO (-6)] to
    [shiftISO endISO 0] in that order, which for a date are the seven
    consecutive days ending with it, and one value per day: the weight of the
    day's entry when it has one; else the value of the most recent earlier day
    of the window that has one; and [null] when no day of the window up to it
    has an entry.  A window whose only entry is on its third day has [null] on
    days 1 and 2 and that weight on days 3 to 7. *)
Theorem week_series_forward_fill (l : list Entry) (endISO : string) :
  let w := getWeekSeries l endISO in
  let days := weekDays endISO in
  let day i := nth i days EmptyString in
  let value i := nth i (values w) None in
  days = [shiftISO endISO (-6); shiftISO endISO (-5); shiftISO endISO (-4);
          shiftISO endISO (-3); shiftISO endISO (-2); shiftISO endISO (-1);
          shiftISO endISO 0]
  /\ List.length (values w) = 7%nat
  /\ (forall n, JsDate.dateOfISO endISO = Some n -> inWindowRange n ->
       days = map JsDate.formatISO [n - 6; n - 5; n - 4; n - 3; n - 2; n - 1; n]
       /\ map JsDate.dateOfISO days
          = map Some [n - 6; n - 5; n - 4; n - 3; n - 2; n - 1; n])
  /\ (forall i x, (i < 7)%nat -> mapGet l (day i) = Some x -> value i = Some x)
  /\ (forall i e, (i < 7)%nat -> uniqueDays l -> In e l -> entryDate e = day i ->
       value i = Some (weight e))
  /\ (forall j i x, (j <= i < 7)%nat -> mapGet l (day j) = Some x ->
       (forall k, (j < k <= i)%nat -> mapGet l (day k) = None) ->
       value i = Some x)
  /\ (forall i, (i < 7)%nat ->
       (forall j, (j <= i)%nat -> mapGet l (day j) = None) -> value i = None)
  /\ (forall n x c, JsDate.dateOfISO endISO = Some n -> inWindowRange n ->
       l = [mkEntry (day 2%nat) x c] ->
       values w = [None; None; Some x; Some x; Some x; Some x; Some x]).
Proof.
  intros w days day value.
  assert (Hlen : List.length days = 7%nat) by reflexivity.
  assert (Hval : values w = fillForward l None days) by reflexivity.
  split; [reflexivity|].
  split; [apply values_length|].
  split.
  { intros n Hn Hr. subst days. rewrite (weekDays_date _ _ Hn Hr). cbn [map].
    replace (n - 6 + 0) with (n - 6) by lia. replace (n - 6 + 1) with (n - 5) by lia.
    replace (n - 6 + 2) with (n - 4) by lia. replace (n - 6 + 3) with (n - 3) by lia.
    replace (n - 6 + 4) with (n - 2) by lia. replace (n - 6 + 5) with (n - 1) by lia.
    replace (n - 6 + 6) with n by lia.
    split; [reflexivity|].
    unfold inWindowRange in Hr.
    rewrite !JsDateFacts.dateOfISO_formatISO by lia. reflexivity. }
  split.
  { intros i x Hi Hx. unfold value. rewrite Hval.
    apply (fillForward_carried l days None i i x); [lia|exact Hx|intros k Hk; lia]. }
  split.
  { intros i e Hi Hu He Hd. unfold value. rewrite Hval.
    apply (fillForward_carried l days None i i); [lia| |intros k Hk; lia].
    fold (day i). rewrite <- Hd. apply mapGet_unique; assumption. }
  split.
  { intros j i x Hji Hx Hgap. unfold value. rewrite Hval.
    apply (fillForward_carried l days None j i x); [lia|exact Hx|exact Hgap]. }
  split.
  { intros i Hi Hgap. unfold value. rewrite Hval.
    apply fillForward_leading_gap; [lia|exact Hgap]. }
  intros n x c Hn Hr Hl. rewrite Hval. subst l. unfold day. subst days.
  rewrite (weekDays_date _ _ Hn Hr).
  cbn [map nth fillForward mapGet entryDate weight].
  window_eqb Hr. reflexivity.
Qed.

End ChartClaims.

(** ** The order of numbers, [Math.min] and [Math.max] *)
Module NumOrder.

Lemma compare_rank x y :
  Num.isNaN x = false -> Num.isNaN y = false ->
  SFcompare x y = Some (lexCompare (rank x) (rank y)).
Proof.
  destruct x as [[|]|[|]| |[|] m1 e1], y as [[|]|[|]| |[|] m2 e2];
    try discriminate; intros _ _; try reflexivity.
  unfold SFcompare, rank, lexCompare.
  change (-1 ?= -1) with Eq. cbv iota.
  rewrite Z.compare_opp, (Z.compare_antisym e1 e2).
  destruct (e1 ?= e2); reflexivity.
Qed.

Lemma lexCompare_le a b c a' b' c' :
  lexCompare (a, b, c) (a', b', c') <> Gt
  <-> a < a' \/ (a = a' /\ (b < b' \/ (b = b' /\ c <= c'))).
Proof.
  unfold lexCompare.
  destruct (Z.compare_spec a a'), (Z.compare_spec b b'), (Z.compare_spec c c');
    (split; [intros K; try lia; exfalso; apply K; reflexivity
            |intros K; try discriminate; lia]).
Qed.

Lemma lexCompare_eq a b c a' b' c' :
  lexCompare (a, b, c) (a', b', c') = Eq <-> a = a' /\ b = b' /\ c = c'.
Proof.
  unfold lexCompare.
  destruct (Z.compare_spec a a'), (Z.compare_spec b b'), (Z.compare_spec c c');
    (split; [intros K; try discriminate; lia|intros K; try reflexivity; lia]).
Qed.

Lemma lexCompare_lt a b c a' b' c' :
  lexCompare (a, b, c) (a', b', c') = Lt
  <-> a < a' \/ (a = a' /\ (b < b' \/ (b = b' /\ c < c'))).
Proof.
  unfold lexCompare.
  destruct (Z.compare_spec a a'), (Z.compare_spec b b'), (Z.compare_spec c c');
    (split; [intros K; try discriminate; lia|intros K; try reflexivity; lia]).
Qed.

Lemma lexCompare_gt a b c a' b' c' :
  lexCompare (a, b, c) (a', b', c') = Gt
  <-> a' < a \/ (a = a' /\ (b' < b \/ (b = b' /\ c' < c))).
Proof.
  unfold lexCompare.
  destruct (Z.compare_spec a a'), (Z.compare_spec b b'), (Z.compare_spec c c');
    (split; [intros K; try discriminate; lia|intros K; try reflexivity; lia]).
Qed.

(** [a <= b] on numbers that are not NaN. *)
Lemma leb_rank x y :
  Num.isNaN x = false -> Num.isNaN y = false ->
  Num.leb x y = true <-> lexCompare (rank x) (rank y) <> Gt.
Proof.
  intros Hx Hy. unfold Num.leb, SFleb. rewrite (compare_rank x y Hx Hy).
  destruct (lexCompare (rank x) (rank y)); split; congruence.
Qed.

Lemma leb_refl x : Num.isNaN x = false -> Num.leb x x = true.
Proof.
  intros Hx. apply leb_rank; [assumption..|].
  destruct (rank x) as [[a b] c]. apply lexCompare_le. lia.
Qed.

Lemma leb_trans x y z :
  Num.isNaN x = false -> Num.isNaN y = false -> Num.isNaN z = false ->
  Num.leb x y = true -> Num.leb y z = true -> Num.leb x z = true.
Proof.
  intros Hx Hy Hz. rewrite !leb_rank by assumption.
  destruct (rank x) as [[a b] c], (rank y) as [[a' b'] c'],
    (rank z) as [[a'' b''] c''].
  rewrite !lexCompare_le. lia.
Qed.

Lemma leb_total x y :
  Num.isNaN x = false -> Num.isNaN y = false ->
  Num.leb x y = true \/ Num.leb y x = true.
Proof.
  intros Hx Hy. rewrite !leb_rank by assumption.
  destruct (rank x) as [[a b] c], (rank y) as [[a' b'] c'].
  rewrite !lexCompare_le. lia.
Qed.

(** [Math.min(a, b)] of two numbers is one of them and is below both;
    [Math.max(a, b)] is one of them and is above both. *)
Lemma Math_min_spec a b :
  Num.isNaN a = false -> Num.isNaN b = false ->
  (Num.Math_min a b = a \/ Num.Math_min a b = b)
  /\ Num.leb (Num.Math_min a b) a = true
  /\ Num.leb (Num.Math_min a b) b = true.
Proof.
  intros Ha Hb.
  pose proof (leb_refl a Ha) as Raa. pose proof (leb_refl b Hb) as Rbb.
  pose proof (proj2 (leb_rank a b Ha Hb)) as Lab'.
  pose proof (proj2 (leb_rank b a Hb Ha)) as Lba.
  unfold Num.Math_min. rewrite (compare_rank a b Ha Hb).
  destruct (rank a) as [[x y] z], (rank b) as [[x' y'] z'].
  rewrite lexCompare_le in Lba.
  destruct (lexCompare (x, y, z) (x', y', z')) eqn:E.
  - apply lexCompare_eq in E.
    assert (Hab : Num.leb a b = true) by (apply Lab'; discriminate).
    assert (Hba : Num.leb b a = true) by (apply Lba; lia).
    destruct a as [[|]| | |]; auto.
  - assert (Hab : Num.leb a b = true) by (apply Lab'; discriminate). auto.
  - assert (Hba : Num.leb b a = true).
    { apply Lba. apply lexCompare_gt in E. lia. }
    auto.
Qed.

Lemma Math_max_spec a b :
  Num.isNaN a = false -> Num.isNaN b = false ->
  (Num.Math_max a b = a \/ Num.Math_max a b = b)
  /\ Num.leb a (Num.Math_max a b) = true
  /\ Num.leb b (Num.Math_max a b) = true.
Proof.
  intros Ha Hb.
  pose proof (leb_refl a Ha) as Raa. pose proof (leb_refl b Hb) as Rbb.
  pose proof (proj2 (leb_rank a b Ha Hb)) as Lab'.
  pose proof (proj2 (leb_rank b a Hb Ha)) as Lba.
  unfold Num.Math_max. rewrite (compare_rank a b Ha Hb).
  destruct (rank a) as [[x y] z], (rank b) as [[x' y'] z'].
  rewrite lexCompare_le in Lba.
  destruct (lexCompare (x, y, z) (x', y', z')) eqn:E.
  - apply lexCompare_eq in E.
    assert (Hab : Num.leb a b = true) by (apply Lab'; discriminate).
    assert (Hba : Num.leb b a = true) by (apply Lba; lia).
    destruct a as [[|]| | |]; auto.
  - assert (Hab : Num.leb a b = true) by (apply Lab'; discriminate). auto.
  - assert (Hba : Num.leb b a = true).
    { apply Lba. apply lexCompare_gt in E. lia. }
    auto.
Qed.

Lemma Math_min_notNaN a b :
  Num.isNaN a = false -> Num.isNaN b = false ->
  Num.isNaN (Num.Math_min a b) = false.
Proof.
  intros Ha Hb. destruct (Math_min_spec a b Ha Hb) as [[-> | ->] _]; assumption.
Qed.

Lemma Math_max_notNaN a b :
  Num.isNaN a = false -> Num.isNaN b = false ->
  Num.isNaN (Num.Math_max a b) = false.
Proof.
  intros Ha Hb. destruct (Math_max_spec a b Ha Hb) as [[-> | ->] _]; assumption.
Qed.

(** The fold of [Math.min] from a first number [a] over [l]. *)
Lemma fold_min_spec l : forall a,
  Num.isNaN a = false -> noNaN l ->
  let r := fold_left Num.Math_min l a in
  Num.isNaN r = false /\ In r (a :: l)
  /\ forall x, In x (a :: l) -> Num.leb r x = true.
Proof.
  induction l as [|y l IH]; intros a Ha Hl; cbn [fold_left].
  - split; [exact Ha|]. split; [left; reflexivity|].
    intros x [<- | []]. apply leb_refl, Ha.
  - inversion Hl as [|? ? Hy Hl']; subst.
    destruct (Math_min_spec a y Ha Hy) as [Hin [Hma Hmy]].
    pose proof (Math_min_notNaN a y Ha Hy) as Hm.
    destruct (IH (Num.Math_min a y) Hm Hl') as [Hr [Hrin Hrle]].
    split; [exact Hr|]. split.
    + destruct Hrin as [E | Hrin]; [|right; right; exact Hrin].
      rewrite <- E. destruct Hin as [-> | ->]; [left|right; left]; reflexivity.
    + assert (Hrm : Num.leb (fold_left Num.Math_min l (Num.Math_min a y))
                      (Num.Math_min a y) = true) by (apply Hrle; left; reflexivity).
      intros x [<- | [<- | Hx]].
      * apply (leb_trans _ _ _ Hr Hm Ha Hrm Hma).
      * apply (leb_trans _ _ _ Hr Hm Hy Hrm Hmy).
      * apply Hrle. right. exact Hx.
Qed.

Lemma fold_max_spec l : forall a,
  Num.isNaN a = false -> noNaN l ->
  let r := fold_left Num.Math_max l a in
  Num.isNaN r = false /\ In r (a :: l)
  /\ forall x, In x (a :: l) -> Num.leb x r = true.
Proof.
  induction l as [|y l IH]; intros a Ha Hl; cbn [fold_left].
  - split; [exact Ha|]. split; [left; reflexivity|].
    intros x [<- | []]. apply leb_refl, Ha.
  - inversion Hl as [|? ? Hy Hl']; subst.
    destruct (Math_max_spec a y Ha Hy) as [Hin [Hma Hmy]].
    pose proof (Math_max_notNaN a y Ha Hy) as Hm.
    destruct (IH (Num.Math_max a y) Hm Hl') as [Hr [Hrin Hrle]].
    split; [exact Hr|]. split.
    + destruct Hrin as [E | Hrin]; [|right; right; exact Hrin].
      rewrite <- E. destruct Hin as [-> | ->]; [left|right; left]; reflexivity.
    + assert (Hrm : Num.leb (Num.Math_max a y)
                      (fold_left Num.Math_max l (Num.Math_max a y)) = true)
        by (apply Hrle; left; reflexivity).
      intros x [<- | [<- | Hx]].
      * apply (leb_trans _ _ _ Ha Hm Hr Hma Hrm).
      * apply (leb_trans _ _ _ Hy Hm Hr Hmy Hrm).
      * apply Hrle. right. exact Hx.
Qed.

(** The starting values of the spread calls give way to the first number. *)
Lemma Math_min_Infinity x :
  Num.isNaN x = false -> Num.Math_min (S754_infinity false) x = x.
Proof. destruct x as [[|]|[|]| |[|] m e]; try discriminate; reflexivity. Qed.

Lemma Math_max_negInfinity x :
  Num.isNaN x = false -> Num.Math_max (S754_infinity true) x = x.
Proof. destruct x as [[|]|[|]| |[|] m e]; try discriminate; reflexivity. Qed.

(** [Math.min(...l)] of a list with at least one number and no NaN is a
    number of the list that is below every number of the list. *)
Lemma Math_min_list_spec l :
  l <> [] -> noNaN l ->
  In (Num.Math_min_list l) l
  /\ forall x, In x l -> Num.leb (Num.Math_min_list l) x = true.
Proof.
  destruct l as [|a l]; [congruence|]. intros _ Hl.
  inversion Hl as [|? ? Ha Hl']; subst.
  unfold Num.Math_min_list. cbn [fold_left]. rewrite (Math_min_Infinity a Ha).
  exact (proj2 (fold_min_spec l a Ha Hl')).
Qed.

Lemma Math_max_list_spec l :
  l <> [] -> noNaN l ->
  In (Num.Math_max_list l) l
  /\ forall x, In x l -> Num.leb x (Num.Math_max_list l) = true.
Proof.
  destruct l as [|a l]; [congruence|]. intros _ Hl.
  inversion Hl as [|? ? Ha Hl']; subst.
  unfold Num.Math_max_list. cbn [fold_left]. rewrite (Math_max_negInfinity a Ha).
  exact (proj2 (fold_max_spec l a Ha Hl')).
Qed.

(** A NaN among the arguments makes both calls return NaN. *)
Lemma Math_min_NaN_r a : Num.Math_min a Num.NaN = Num.NaN.
Proof. destruct a as [[|]|[|]| |[|] m e]; reflexivity. Qed.

Lemma Math_max_NaN_r a : Num.Math_max a Num.NaN = Num.NaN.
Proof. destruct a as [[|]|[|]| |[|] m e]; reflexivity. Qed.

Lemma fold_min_NaN l : fold_left Num.Math_min l Num.NaN = Num.NaN.
Proof. induction l as [|x l IH]; [reflexivity|exact IH]. Qed.

Lemma fold_max_NaN l : fold_left Num.Math_max l Num.NaN = Num.NaN.
Proof. induction l as [|x l IH]; [reflexivity|exact IH]. Qed.

Lemma isNaN_true x : Num.isNaN x = true -> x = Num.NaN.
Proof. destruct x; try discriminate; reflexivity. Qed.

Lemma fold_min_someNaN l : someNaN l -> forall a, fold_left Num.Math_min l a = Num.NaN.
Proof.
  induction 1 as [x l Hx|x l _ IH]; intros a; cbn [fold_left].
  - rewrite (isNaN_true x Hx), Math_min_NaN_r. apply fold_min_NaN.
  - apply IH.
Qed.

Lemma fold_max_someNaN l : someNaN l -> forall a, fold_left Num.Math_max l a = Num.NaN.
Proof.
  induction 1 as [x l Hx|x l _ IH]; intros a; cbn [fold_left].
  - rewrite (isNaN_true x Hx), Math_max_NaN_r. apply fold_max_NaN.
  - apply IH.
Qed.

End NumOrder.

(** ** Axis scaling *)
Module AxisClaims.

Import Chart.

Lemma mul_comm (a b : Num.number) : Num.mul a b = Num.mul b a.
Proof.
  unfold Num.mul.
  destruct a as [sa|sa| |sa ma ea], b as [sb|sb| |sb mb eb]; cbn [SFmul];
    rewrite ?(xorb_comm sa sb); try reflexivity.
  rewrite (Pos.mul_comm ma mb), (Z.add_comm ea eb). reflexivity.
Qed.

(** The guard [if (range < 1) range = 1] is [Math.max(range, 1)]. *)
Lemma range_floor (r : Num.number) :
  (if Num.ltb r (Num.of_Z 1) then Num.of_Z 1 else r) = Num.Math_max r (Num.of_Z 1).
Proof.
  change (Num.of_Z 1) with (S754_finite false 4503599627370496 (-52)).
  unfold Num.ltb, SFltb, Num.Math_max.
  destruct (SFcompare r (S754_finite false 4503599627370496 (-52)))
    as [[| |]|] eqn:E; try reflexivity.
  - destruct r as [[|]| | |]; try reflexivity.
    unfold SFcompare in E. discriminate E.
  - destruct r as [s|s| |s m e]; try reflexivity;
      unfold SFcompare in E; discriminate E.
Qed.

Lemma numbersOf_nil values :
  numbersOf values = [] -> values = repeat None (List.length values).
Proof.
  induction values as [|v values IH]; cbn; [reflexivity|].
  destruct v; [discriminate|]. intros H. rewrite <- IH by exact H. reflexivity.
Qed.

Lemma In_numbersOf x values : In x (numbersOf values) <-> In (Some x) values.
Proof.
  unfold numbersOf. induction values as [|v values IH]; cbn [filterMap In].
  - reflexivity.
  - destruct v as [y|]; cbn [In]; rewrite IH; split.
    + intros [-> | H]; [left; reflexivity|right; exact H].
    + intros [E | H]; [left; congruence|right; exact H].
    + intros H; right; exact H.
    + intros [E | H]; [discriminate E|exact H].
Qed.

(** Claim C7.  [dataMin] and [dataMax] are the minimum and the maximum of the
    values of the window that are numbers, and 0 and 1 when there is none;
    with [range = Math.max(dataMax - dataMin, 1)] the axis has
    [yMax = dataMax + 0.2 * range], [yMin = yMax - 3 * range] and the step
    [Math.max(1, Math.round(range / 2))].  A window without data has seven
    [null] values, range 1 and the axis from -1.8 to 1.2 with step 1.
    Minimum and maximum are meant as follows: the numbers are exactly the
    values of the window that are not [null]; when there is one and none is
    NaN, [dataMin] and [dataMax] are numbers of the window, [dataMin] is [<=]
    every number of the window and every number of the window is [<=]
    [dataMax]; when one of them is NaN, [Math.min] and [Math.max] both return
    NaN. *)
Theorem axis_upper_third (l : list Entry) (endISO : string) :
  let w := getWeekSeries l endISO in
  let nums := numbersOf (values w) in
  let axis := computeAxisUpperThird (dataMin w) (dataMax w) in
  let range := Num.Math_max (Num.sub (dataMax w) (dataMin w)) (Num.of_Z 1) in
  dataMin w = match nums with [] => Num.of_Z 0 | _ => Num.Math_min_list nums end
  /\ dataMax w = match nums with [] => Num.of_Z 1 | _ => Num.Math_max_list nums end
  /\ yMax axis = Num.add (dataMax w) (Num.mul (Num.of_decimal 2 (-1)) range)
  /\ yMin axis = Num.sub (yMax axis) (Num.mul (Num.of_Z 3) range)
  /\ step axis
     = Num.Math_max (Num.of_Z 1) (Num.Math_round (Num.div range (Num.of_Z 2)))
  /\ (l = [] -> nums = [])
  /\ (nums = [] ->
      values w = [None; None; None; None; None; None; None]
      /\ range = Num.of_Z 1
      /\ axis = mkAxis (Num.of_decimal (-18) (-1)) (Num.of_decimal 12 (-1))
                  (Num.of_Z 1))
  /\ (forall x, In x nums <-> In (Some x) (values w))
  /\ (nums <> [] -> noNaN nums ->
      In (dataMin w) nums /\ In (dataMax w) nums
      /\ Num.leb (dataMin w) (dataMax w) = true
      /\ forall x, In x nums ->
           Num.leb (dataMin w) x = true /\ Num.leb x (dataMax w) = true)
  /\ (someNaN nums -> dataMin w = Num.NaN /\ dataMax w = Num.NaN).
Proof.
  intros w nums axis range.
  assert (Hr : (if Num.ltb (Num.sub (dataMax w) (dataMin w)) (Num.of_Z 1)
                then Num.of_Z 1 else Num.sub (dataMax w) (dataMin w)) = range)
    by apply range_floor.
  split; [reflexivity|]. split; [reflexivity|].
  split; [unfold axis, computeAxisUpperThird; cbn [yMax]; rewrite Hr, mul_comm;
          reflexivity|].
  split; [unfold axis, computeAxisUpperThird; cbn [yMax yMin]; rewrite Hr,
          (mul_comm range (Num.of_decimal 2 (-1))), (mul_comm range (Num.of_Z 3));
          reflexivity|].
  split; [unfold axis, computeAxisUpperThird; cbn [step]; rewrite Hr; reflexivity|].
  split.
  { intros ->. reflexivity. }
  assert (Emin : dataMin w
                 = match nums with [] => Num.of_Z 0 | _ => Num.Math_min_list nums end)
    by reflexivity.
  assert (Emax : dataMax w
                 = match nums with [] => Num.of_Z 1 | _ => Num.Math_max_list nums end)
    by reflexivity.
  split; [|split; [|split]].
  2: { intros x. apply In_numbersOf. }
  2: { intros Hne Hnan.
       destruct (NumOrder.Math_min_list_spec nums Hne Hnan) as [Imin Lmin].
       destruct (NumOrder.Math_max_list_spec nums Hne Hnan) as [Imax Lmax].
       rewrite Emin, Emax. clearbody nums. destruct nums as [|n0 nums']; [congruence|].
       split; [exact Imin|]. split; [exact Imax|].
       split; [apply Lmin; exact Imax|].
       intros x Hx. split; [apply Lmin|apply Lmax]; exact Hx. }
  2: { intros Hnan. rewrite Emin, Emax. clearbody nums.
       destruct Hnan as [x r Hx|x r Hl]; unfold Num.Math_min_list, Num.Math_max_list.
       - split; [apply NumOrder.fold_min_someNaN|apply NumOrder.fold_max_someNaN];
           left; exact Hx.
       - split; [apply NumOrder.fold_min_someNaN|apply NumOrder.fold_max_someNaN];
           right; exact Hl. }
  intros Hn.
  assert (Hv : values w = [None; None; None; None; None; None; None]).
  { pose proof (numbersOf_nil (values w) Hn) as Hv.
    unfold w in Hv at 2. rewrite ChartClaims.values_length in Hv. exact Hv. }
  assert (Hmin : dataMin w = Num.of_Z 0).
  { change (dataMin w)
      with (match nums with [] => Num.of_Z 0 | _ => Num.Math_min_list nums end).
    rewrite Hn. reflexivity. }
  assert (Hmax : dataMax w = Num.of_Z 1).
  { change (dataMax w)
      with (match nums with [] => Num.of_Z 1 | _ => Num.Math_max_list nums end).
    rewrite Hn. reflexivity. }
  split; [exact Hv|].
  unfold range, axis. rewrite Hmin, Hmax.
  split; vm_compute; reflexivity.
Qed.

End AxisClaims.

(** ** Day navigation *)
Module NavClaims.

Import DateSpec.

Lemma notFuture_today today : validClock today -> notFuture today (todayISODate today).
Proof.
  intros Hc. unfold notFuture, todayISODate.
  rewrite JsDateFacts.isFutureISODate_spec by exact Hc.
  rewrite JsDateFacts.dateOfISO_formatISO by (apply JsDateFacts.validClock_range, Hc).
  split; [apply Z.ltb_irrefl|]. intros n E. injection E as <-. lia.
Qed.

(** A string the guard lets through is not in the future. *)
Lemma notFuture_guard today iso :
  validClock today -> isFutureISODate today iso = false -> notFuture today iso.
Proof.
  intros Hc Hg. split; [exact Hg|]. intros n E.
  rewrite JsDateFacts.isFutureISODate_spec, E in Hg by exact Hc.
  apply Z.ltb_ge in Hg. exact Hg.
Qed.

(** The clock moving on keeps a day out of the future. *)
Lemma notFuture_later t today iso :
  validClock today -> t <= today -> notFuture t iso -> notFuture today iso.
Proof.
  intros Hc Ht [_ Hn].
  assert (Hle : forall n, JsDate.dateOfISO iso = Some n -> n <= today)
    by (intros n E; specialize (Hn n E); lia).
  split; [|exact Hle].
  rewrite JsDateFacts.isFutureISODate_spec by exact Hc.
  destruct (JsDate.dateOfISO iso) as [n|]; [|reflexivity].
  apply Z.ltb_ge, Hle. reflexivity.
Qed.

Lemma notFuture_navigated today selected delta :
  validClock today -> notFuture today selected ->
  notFuture today (navigated today selected delta).
Proof.
  intros Hc Hs. unfold navigated.
  destruct (isFutureISODate today (shiftISO selected delta)) eqn:E;
    [exact Hs|apply notFuture_guard; assumption].
Qed.

Section WithHost.

Context {collation : Collation} {format : NumberFormat}.

(** *** What each handler does to the selected day *)

Lemma App_shiftSelectedDay_selected today s delta :
  App.selectedISO (App.shiftSelectedDay today s delta)
  = navigated today (App.selectedISO s) delta.
Proof.
  unfold App.shiftSelectedDay, navigated.
  destruct (isFutureISODate today (shiftISO (App.selectedISO s) delta)); reflexivity.
Qed.

Lemma App_dateInputChange_selected today next s :
  App.selectedISO (App.dateInputChange today next s)
  = if String.eqb next "" || isFutureISODate today next
    then App.selectedISO s else next.
Proof.
  unfold App.dateInputChange.
  destruct (String.eqb next "" || isFutureISODate today next); reflexivity.
Qed.

Lemma App_onSave_selected today now s :
  App.selectedISO (App.onSave today now s) = App.selectedISO s.
Proof.
  unfold App.onSave.
  destruct (String.eqb _ ""); [reflexivity|].
  destruct (isFutureISODate today _); [reflexivity|].
  destruct (parseWeightInput _); reflexivity.
Qed.

Lemma Mass_autoSaveIfValid_selected quiet now s :
  Mass.selectedISO (fst (Mass.autoSaveIfValid quiet now s)) = Mass.selectedISO s.
Proof.
  unfold Mass.autoSaveIfValid.
  destruct (parseWeight (Mass.weightInput s)), quiet; cbn [fst negb andb];
    try reflexivity.
  destruct (negb (String.eqb (JsString.trim (Mass.weightInput s)) ""));
    reflexivity.
Qed.

Lemma Mass_shiftDay_selected today s delta :
  Mass.selectedISO (Mass.shiftDay today s delta)
  = navigated today (Mass.selectedISO s) delta.
Proof.
  unfold Mass.shiftDay, navigated.
  destruct (isFutureISODate today (shiftISO (Mass.selectedISO s) delta)); reflexivity.
Qed.

Lemma Mass_commitSwipe_selected today now dir s :
  Mass.selectedISO (Mass.commitSwipe today now dir s)
  = navigated today (Mass.selectedISO s)
      match dir with right => -1 | left => 1 end.
Proof.
  unfold Mass.commitSwipe.
  destruct dir; rewrite Mass_shiftDay_selected, Mass_autoSaveIfValid_selected;
    reflexivity.
Qed.

Lemma App_handle_notFuture today now ev s :
  validClock today -> notFuture today (App.selectedISO s) ->
  notFuture today (App.selectedISO (App.handle today now ev s)).
Proof.
  intros Hc Hs. destruct ev as [text| |next|[|]|]; cbn [App.handle].
  - exact Hs.
  - rewrite App_onSave_selected. exact Hs.
  - rewrite App_dateInputChange_selected.
    destruct (String.eqb next "" || isFutureISODate today next) eqn:E; [exact Hs|].
    apply orb_false_iff in E as [_ E]. apply notFuture_guard; assumption.
  - rewrite App_shiftSelectedDay_selected. apply notFuture_navigated; assumption.
  - rewrite App_shiftSelectedDay_selected. apply notFuture_navigated; assumption.
  - exact Hs.
Qed.

Lemma Mass_handle_notFuture today now ev s :
  validClock today -> notFuture today (Mass.selectedISO s) ->
  notFuture today (Mass.selectedISO (Mass.handle today now ev s)).
Proof.
  intros Hc Hs. destruct ev as [text| |dir]; cbn [Mass.handle].
  - exact Hs.
  - rewrite Mass_autoSaveIfValid_selected. exact Hs.
  - rewrite Mass_commitSwipe_selected. apply notFuture_navigated; assumption.
Qed.

(** Claim C3.  A session starts on today, and in every state it reaches, in
    app.js (swipes and date picker) as in part_001 (swipes), the selected day
    is not after the day the clock shows, then or at any later moment. *)
Theorem selected_day_never_future :
  (forall st today now,
      App.selectedISO (App.init st today now) = todayISODate today
      /\ Mass.selectedISO (Mass.init st today now) = todayISODate today)
  /\ (forall t s, AppSpec.reachable t s ->
      forall today, validClock today -> t <= today ->
      notFuture today (App.selectedISO s))
  /\ (forall t s, MassSpec.reachable t s ->
      forall today, validClock today -> t <= today ->
      notFuture today (Mass.selectedISO s)).
Proof.
  split; [intros st today now; split; reflexivity|]. split.
  - intros t s Hr. 
    assert (Hi : notFuture t (App.selectedISO s)).
    { induction Hr as [st today now Hc|t s today now ev _ IH Hc Ht].
      - apply notFuture_today, Hc.
      - apply App_handle_notFuture; [exact Hc|].
        apply (notFuture_later t); assumption. }
    intros today Hc Ht. apply (notFuture_later t); assumption.
  - intros t s Hr.
    assert (Hi : notFuture t (Mass.selectedISO s)).
    { induction Hr as [st today now Hc|t s today now ev _ IH Hc Ht].
      - apply notFuture_today, Hc.
      - apply Mass_handle_notFuture; [exact Hc|].
        apply (notFuture_later t); assumption. }
    intros today Hc Ht. apply (notFuture_later t); assumption.
Qed.

(** *** Saving on the way out *)

Lemma Mass_autoSaveIfValid_quiet now s :
  fst (Mass.autoSaveIfValid true now s)
  = Mass.setStore s (MassSpec.savedOnLeave now s).
Proof.
  unfold Mass.autoSaveIfValid, MassSpec.savedOnLeave.
  destruct (parseWeight (Mass.weightInput s)); cbn [fst negb andb];
    [reflexivity|]. destruct s; reflexivity.
Qed.

Lemma Mass_shiftDay_store today s delta :
  Mass.store (Mass.shiftDay today s delta) = Mass.store s
  /\ Mass.statusText (Mass.shiftDay today s delta) = Mass.statusText s.
Proof.
  unfold Mass.shiftDay.
  destruct (isFutureISODate today (shiftISO (Mass.selectedISO s) delta));
    split; reflexivity.
Qed.

Lemma findEntry_upsertEntry st d w now :
  findEntry (upsertEntry st d w now) d = Some (mkEntry d w now).
Proof.
  unfold findEntry.
  rewrite StoreFacts.find_filter, StoreFacts.filter_day_upsertEntry. reflexivity.
Qed.


(** *** The next day from today *)

Lemma tomorrow_is_future today :
  validClock today ->
  isFutureISODate today (shiftISO (todayISODate today) 1) = true.
Proof.
  intros Hc. pose proof (JsDateFacts.validClock_range today Hc) as Hr.
  unfold todayISODate.
  rewrite JsDateFacts.shiftISO_formatISO
    by (unfold validClock, JsDate.maxDay in *; lia).
  rewrite JsDateFacts.isFutureISODate_spec by exact Hc.
  rewrite JsDateFacts.dateOfISO_formatISO
    by (unfold validClock, minDay, JsDate.maxDay in *; lia).
  apply Z.ltb_lt. lia.
Qed.

(** Claim C8, as the code has it.  With today selected, a swipe to the next
    day is rejected and nothing tells: in app.js the whole session state,
    status line and Save button included, is the one before the swipe; in
    part_001 [shiftDay] leaves the state as it is, so that a committed swipe
    only does its save.  The date picker of app.js, asked for the same next
    day, does answer with the status "Future dates blocked." and the Save
    button in the error state. *)
Theorem next_from_today_rejected_silently (today : Z) :
  validClock today ->
  (forall s : App.Session,
      App.selectedISO s = todayISODate today ->
      App.shiftSelectedDay today s 1 = s
      /\ App.statusText
           (App.dateInputChange today (shiftISO (todayISODate today) 1) s)
         = "Future dates blocked."%string
      /\ App.saveButton
           (App.dateInputChange today (shiftISO (todayISODate today) 1) s)
         = App.error)
  /\ (forall (s : Mass.Session) now,
      Mass.selectedISO s = todayISODate today ->
      Mass.shiftDay today s 1 = s
      /\ Mass.commitSwipe today now left s
         = Mass.setStore s (MassSpec.savedOnLeave now s)
      /\ Mass.selectedISO (Mass.commitSwipe today now left s) = Mass.selectedISO s
      /\ Mass.statusText (Mass.commitSwipe today now left s) = Mass.statusText s).
Proof.
  intros Hc. pose proof (tomorrow_is_future today Hc) as Hf. split.
  - intros s Hs. unfold App.shiftSelectedDay, App.dateInputChange.
    rewrite Hs, Hf, orb_true_r. repeat split.
  - intros s now Hs.
    assert (Hsd : forall s0, Mass.selectedISO s0 = todayISODate today ->
                             Mass.shiftDay today s0 1 = s0).
    { intros s0 E. unfold Mass.shiftDay. rewrite E, Hf. reflexivity. }
    assert (Hcs : Mass.commitSwipe today now left s
                  = Mass.setStore s (MassSpec.savedOnLeave now s)).
    { unfold Mass.commitSwipe. rewrite Mass_autoSaveIfValid_quiet.
      apply Hsd. exact Hs. }
    split; [apply Hsd, Hs|]. split; [exact Hcs|].
    rewrite Hcs. split; reflexivity.
Qed.

End WithHost.

End NavClaims.

(** ** The swipe recognisers *)
Module GestureClaims.

(** A displacement that reaches the threshold has a sign. *)
Lemma threshold_sign (dx k : Num.number) :
  Num.geb (Num.abs dx) k = true -> Num.gtb k (Num.of_Z 0) = true ->
  Num.gtb dx (Num.of_Z 0) = negb (Num.ltb dx (Num.of_Z 0)).
Proof.
  change (Num.of_Z 0) with (S754_zero false).
  unfold Num.geb, Num.gtb, Num.ltb, Num.abs, SFleb, SFltb.
  destruct dx as [s|s| |s m e]; cbn [SFabs].
  - destruct k as [sk|sk| |sk mk ek]; unfold SFcompare; try discriminate;
      destruct sk; discriminate.
  - intros _ _. destruct s; reflexivity.
  - destruct k; discriminate.
  - intros _ _. destruct s; reflexivity.
Qed.

Lemma massRelease_unfold g :
  massRelease g =
    if massCriteria (gestureTime g) (gestureDx g) (gestureDy g)
    then Commit (if Num.ltb (gestureDx g) (Num.of_Z 0) then left else right)
    else SnapBack.
Proof.
  unfold massRelease, Mass.touchstart, Mass.touchmove.
  destruct (gStart g) as [x0 y0] eqn:Es, (gEnd g) as [x1 y1] eqn:Ee.
  cbn [Mass.locked Mass.startX Mass.startY Mass.startTime Mass.lockDir negb andb].
  unfold massCriteria, gestureTime, gestureDx, gestureDy. rewrite Es, Ee.
  cbn [fst snd].
  destruct (Num.ltb (Num.abs (Num.sub x1 x0)) (Num.of_Z 10)
            && Num.ltb (Num.abs (Num.sub y1 y0)) (Num.of_Z 10)).
  - reflexivity.
  - cbn [Mass.lockDir].
    destruct (Num.gtb (Num.abs (Num.sub x1 x0)) (Num.abs (Num.sub y1 y0)));
      reflexivity.
Qed.

Lemma appRelease_unfold g :
  appRelease g =
    if appCriteria (gestureDx g) (gestureDy g)
    then Commit (if Num.gtb (gestureDx g) (Num.of_Z 0) then right else left)
    else SnapBack.
Proof.
  unfold appRelease, App.touchstart, App.touchend, appCriteria, gestureDx, gestureDy.
  destruct (gStart g) as [x0 y0], (gEnd g) as [x1 y1].
  cbn [App.active App.startX App.startY negb fst snd].
  change App.restraint with (Num.of_Z 60). change App.threshold with (Num.of_Z 40).
  destruct (Num.gtb (Num.abs (Num.sub y1 y0)) (Num.of_Z 60)); [reflexivity|].
  destruct (Num.ltb (Num.abs (Num.sub x1 x0)) (Num.of_Z 40)); [reflexivity|].
  destruct (Num.gtb (Num.sub x1 x0) (Num.of_Z 0)); reflexivity.
Qed.

(** Claim C9, as the code has it.  The recogniser of part_001 commits a
    completed gesture exactly when [t <= 450], [|dx| >= 70] and [|dy| <= 90],
    to the previous day (["right"]) when [dx > 0] and to the next day
    (["left"]) when [dx < 0], and snaps back otherwise, as it does on a
    cancelled touch: [dx = -80], [dy = 5] commits to the next day after 200 ms
    and snaps back after 600 ms.  The recogniser of app.js has other
    thresholds and no duration: it commits exactly when [|dy| > 60] and
    [|dx| < 40] are both false, to the previous day when [dx > 0] and to the
    next day otherwise. *)
Theorem swipe_release_criteria :
  (forall g : Gesture,
      let t := gestureTime g in
      let dx := gestureDx g in
      let dy := gestureDy g in
      (massRelease g = Commit right
       <-> massCriteria t dx dy = true /\ Num.gtb dx (Num.of_Z 0) = true)
      /\ (massRelease g = Commit left
          <-> massCriteria t dx dy = true /\ Num.ltb dx (Num.of_Z 0) = true)
      /\ (massRelease g = SnapBack <-> massCriteria t dx dy = false))
  /\ (forall g, Mass.touchcancel g = SnapBack)
  /\ massRelease SampleGesture.quick = Commit left
  /\ massRelease SampleGesture.slow = SnapBack
  /\ (forall g : Gesture,
      let dx := gestureDx g in
      let dy := gestureDy g in
      (appRelease g = Commit right
       <-> appCriteria dx dy = true /\ Num.gtb dx (Num.of_Z 0) = true)
      /\ (appRelease g = Commit left
          <-> appCriteria dx dy = true /\ Num.gtb dx (Num.of_Z 0) = false)
      /\ (appRelease g = SnapBack <-> appCriteria dx dy = false)).
Proof.
  split; [|split; [reflexivity|split; [vm_compute; reflexivity|
                               split; [vm_compute; reflexivity|]]]].
  - intros g t dx dy. rewrite massRelease_unfold. fold t dx dy.
    destruct (massCriteria t dx dy) eqn:Ec.
    + assert (Hs : Num.gtb dx (Num.of_Z 0) = negb (Num.ltb dx (Num.of_Z 0))).
      { unfold massCriteria in Ec.
        apply andb_true_iff in Ec as [Ec _]. apply andb_true_iff in Ec as [_ Ec].
        apply (threshold_sign dx (Num.of_Z 70) Ec). vm_compute. reflexivity. }
      rewrite Hs. destruct (Num.ltb dx (Num.of_Z 0)); cbn [negb];
        repeat split; intros; try tauto; try discriminate;
        try (destruct H; discriminate).
    + repeat split; intros; try tauto; try discriminate;
        try (destruct H; discriminate).
  - intros g dx dy. rewrite appRelease_unfold. fold dx dy.
    destruct (appCriteria dx dy), (Num.gtb dx (Num.of_Z 0));
      repeat split; intros; try tauto; try discriminate;
      try (destruct H; discriminate).
Qed.

(** Claim C9 as stated fails on app.js: [dx = -80], [dy = 5] lifted after
    600 ms commits to the next day there. *)
Lemma app_commits_slow_swipe :
  gestureDx SampleGesture.slow = Num.of_Z (-80)
  /\ gestureDy SampleGesture.slow = Num.of_Z 5
  /\ gestureTime SampleGesture.slow = Num.of_Z 600
  /\ appRelease SampleGesture.slow = Commit left.
Proof. repeat split; vm_compute; reflexivity. Qed.

End GestureClaims.

(** ** Initialisation *)
Module InitClaims.

Import DateSpec.

Section WithHost.

Context {collation : Collation} {format : NumberFormat}.

Lemma initStore_seeded seed st today now :
  loadEntries st now = [] ->
  initStore seed st today now
  = mkStore (sortByEntryDateAsc (seed today now))
      (saveEntries (sortByEntryDateAsc (seed today now))).
Proof. intros H. unfold initStore. rewrite H. reflexivity. Qed.

Lemma sort_nonempty l : l <> [] -> sortByEntryDateAsc l <> [].
Proof.
  intros Hl E. apply Hl. apply Permutation_nil.
  rewrite <- E. apply StoreFacts.sort_perm.
Qed.

Lemma initStore_loaded seed st today now :
  loadEntries st now <> [] ->
  initStore seed st today now
  = mkStore (sortByEntryDateAsc (loadEntries st now)) st.
Proof.
  intros H. unfold initStore. apply sort_nonempty in H.
  destruct (sortByEntryDateAsc (loadEntries st now)); [congruence|reflexivity].
Qed.

(** Claim C10.  The three variants of [init] share the store part.  A missing,
    unparseable or empty snapshot loads as the empty list, and whenever the
    loaded list is empty the store gets the four entries of the seed (dated 14,
    10, 7 and 3 days before today in app.js and part_000; 6, 4 and 2 days
    before today and today in part_001), sorted, and that list is persisted at
    once; otherwise the store is the sorted loaded list and the storage is
    left alone.  In every case the session starts with a store that is not
    empty.  Persisted means that the storage item now holds the array of the
    four seeded records, and that with a finite instant from [Date.now()] a
    later [loadEntries] of that item returns the seeded entries, so that the
    storage is no longer the one that loaded as empty. *)
Theorem init_seeds_an_empty_store (st : stored) (today : Z) (now : Num.number) :
  App.store (App.init st today now) = initStore App.seed st today now
  /\ Mass.store (Mass.init st today now) = initStore Mass.seed st today now
  /\ Legacy.store (Legacy.init st today now) = initStore App.seed st today now
  /\ loadEntries NoItem now = []
  /\ loadEntries Unparseable now = []
  /\ loadEntries (Parsed (JArray [])) now = []
  /\ (forall seed, seed = App.seed \/ seed = Mass.seed ->
      let s := initStore seed st today now in
      (loadEntries st now = [] ->
       Permutation (entries s) (seed today now)
       /\ List.length (entries s) = 4%nat
       /\ storage s = saveEntries (entries s))
      /\ (loadEntries st now <> [] ->
          entries s = sortByEntryDateAsc (loadEntries st now) /\ storage s = st)
      /\ entries s <> [])
  /\ (validClock today ->
      map entryDate (App.seed today now)
      = map JsDate.formatISO [today - 14; today - 10; today - 7; today - 3]
      /\ map entryDate (Mass.seed today now)
         = map JsDate.formatISO [today - 6; today - 4; today - 2; today])
  /\ (forall seed, seed = App.seed \/ seed = Mass.seed ->
      loadEntries st now = [] ->
      let s := initStore seed st today now in
      storage s = Parsed (JArray (map jsonEntry (entries s)))
      /\ (jsonSafe now = true ->
          forall later,
            loadEntries (storage s) later = entries s
            /\ Permutation (loadEntries (storage s) later) (seed today now)
            /\ loadEntries (storage s) later <> []
            /\ storage s <> st)).
Proof.
  repeat (split; [reflexivity|]). split; [|split].
  - intros seed Hseed s.
    assert (Hlen : List.length (seed today now) = 4%nat)
      by (destruct Hseed; subst seed; reflexivity).
    split; [|split].
    + intros He. unfold s. rewrite (initStore_seeded _ _ _ _ He). cbn [entries storage].
      split; [apply StoreFacts.sort_perm|].
      split; [rewrite StoreFacts.sort_length; exact Hlen|reflexivity].
    + intros Hne. unfold s. rewrite (initStore_loaded _ _ _ _ Hne). split; reflexivity.
    + unfold s. destruct (loadEntries st now) as [|e l] eqn:El.
      * rewrite (initStore_seeded _ _ _ _ El). cbn [entries].
        apply sort_nonempty. intros E. rewrite E in Hlen. discriminate Hlen.
      * rewrite initStore_loaded by (rewrite El; discriminate). cbn [entries].
        rewrite El. apply sort_nonempty. discriminate.
  - intros Hc. unfold App.seed, Mass.seed. cbn [map entryDate].
    rewrite !(StoreClaims.seed_days today) by (assumption || lia).
    replace (today + 0) with today by lia. split; reflexivity.
  - intros seed Hseed He s. unfold s.
    rewrite (initStore_seeded _ _ _ _ He). cbn [entries storage].
    split; [reflexivity|]. intros Hnow later.
    assert (Hload : forall t,
               loadEntries (saveEntries (sortByEntryDateAsc (seed today now))) t
               = sortByEntryDateAsc (seed today now)).
    { intros t. apply StoreFacts.loadEntries_saveEntries.
      apply (Permutation_Forall (Permutation_sym (StoreFacts.sort_perm _))).
      apply StoreFacts.seed_jsonSafe; assumption. }
    assert (Hne : sortByEntryDateAsc (seed today now) <> []).
    { apply sort_nonempty. destruct Hseed; subst seed; discriminate. }
    split; [apply Hload|]. rewrite Hload.
    split; [apply StoreFacts.sort_perm|]. split; [exact Hne|].
    intros E. apply Hne. rewrite <- (Hload now), E. exact He.
Qed.

End WithHost.

End InitClaims.

(** ** Examples *)
Module Examples.

Import DateSpec.

Lemma sample_clock : validClock Sample.today.
Proof. unfold validClock, Sample.today, JsDate.maxDay. lia. Defined.


(** Claim C8 as stated fails: with today selected, the swipe to the next day
    leaves the session of app.js exactly as it was, the status line empty and
    the Save button idle. *)
Lemma app_next_from_today_is_silent :
  App.selectedISO Sample.appStart = todayISODate Sample.today
  /\ App.handle (collation := CodeUnit.codeUnitOrder)
       (format := Sample.blankFormat) Sample.today Sample.now
       (App.SwipeCommit left) Sample.appStart = Sample.appStart
  /\ App.statusText Sample.appStart = EmptyString
  /\ App.saveButton Sample.appStart = App.idle.
Proof. repeat split; vm_compute; reflexivity. Qed.

Lemma next_from_today_rejected_silently_witness :
  validClock Sample.today
  /\ App.shiftSelectedDay Sample.today Sample.appStart 1 = Sample.appStart.
Proof.
  split; [exact sample_clock|].
  apply (NavClaims.next_from_today_rejected_silently
           (collation := CodeUnit.codeUnitOrder) (format := Sample.blankFormat)
           Sample.today sample_clock).
  reflexivity.
Defined.

(** *** Sample runs *)

Open Scope string_scope.

Example today_prints : todayISODate Sample.today = "2026-11-01".
Proof. vm_compute. reflexivity. Qed.

Example leap_day : shiftISO "2024-03-01" (-1) = "2024-02-29".
Proof. vm_compute. reflexivity. Qed.

Example new_year : shiftISO "2024-12-31" 1 = "2025-01-01".
Proof. vm_compute. reflexivity. Qed.

Example short_year_reads_as_19xx : shiftISO "99-12-31" (-1) = "1999-12-30".
Proof. vm_compute. reflexivity. Qed.

Example tomorrow_in_future :
  isFutureISODate Sample.today "2026-11-02" = true
  /\ isFutureISODate Sample.today "2026-11-01" = false.
Proof. split; vm_compute; reflexivity. Qed.

Example label_of_day : isoToMMDDYY "2026-11-01" = "11.01.26".
Proof. vm_compute. reflexivity. Qed.

Example refused_texts :
  map parseWeight [""; "abc"; "-5"; "Infinity"; "1e999"; "1,234,5"; "1 2"]
  = [None; None; None; None; None; None; None].
Proof. vm_compute. reflexivity. Qed.

Example accepted_texts :
  map parseWeight ["1400"; "0x10"; "1e2"; ".5"; "0.04"]
  = [Some (Num.of_Z 1400); Some (Num.of_Z 16); Some (Num.of_Z 100);
     Some (Num.of_decimal 5 (-1)); Some (Num.of_Z 0)].
Proof. vm_compute. reflexivity. Qed.

(** The window of the seeded session of part_001: the seed has entries on the
    1st, 3rd, 5th and 7th day. *)
Example seeded_window :
  Chart.values (fst (Mass.renderChart Sample.massStart))
  = map (fun m => Some (Num.of_decimal m (-1)))
      [1862; 1862; 1853; 1853; 1848; 1848; 1843]
  /\ Chart.labels (fst (Mass.renderChart Sample.massStart))
     = map Some ["26"; "27"; "28"; "29"; "30"; "31"; "1"]
  /\ Chart.step (snd (Mass.renderChart Sample.massStart)) = Num.of_Z 1.
Proof. repeat split; vm_compute; reflexivity. Qed.

(** A swipe to the previous day in part_001 saves the staged text for the day
    being left. *)
Example mass_swipe_saves :
  let typed :=
    Mass.handle (collation := CodeUnit.codeUnitOrder) (format := Sample.blankFormat)
      Sample.today Sample.now (Mass.Edit " 183,44 ") Sample.massStart in
  let swiped :=
    Mass.handle (collation := CodeUnit.codeUnitOrder) (format := Sample.blankFormat)
      Sample.today Sample.now (Mass.SwipeCommit right) typed in
  Mass.selectedISO swiped = "2026-10-31"
  /\ findEntry (Mass.store swiped) "2026-11-01"
     = Some (mkEntry "2026-11-01" (Num.of_decimal 1834 (-1)) Sample.now)
  /\ List.length (entries (Mass.store swiped)) = 4%nat
  /\ MassSpec.reachable (collation := CodeUnit.codeUnitOrder)
       (format := Sample.blankFormat) Sample.today swiped.
Proof.
  intros typed swiped. repeat split; try (vm_compute; reflexivity).
  apply MassSpec.reach_step with (t := Sample.today);
    [|exact sample_clock|lia].
  apply MassSpec.reach_step with (t := Sample.today);
    [|exact sample_clock|lia].
  apply MassSpec.reach_init. exact sample_clock.
Qed.

(** The date picker of app.js refuses tomorrow and says so. *)
Example picker_refuses_tomorrow :
  let s :=
    App.handle (collation := CodeUnit.codeUnitOrder) (format := Sample.blankFormat)
      Sample.today Sample.now (App.PickDate "2026-11-02") Sample.appStart in
  App.selectedISO s = "2026-11-01"
  /\ App.dateInput s = "2026-11-01"
  /\ App.statusText s = "Future dates blocked."
  /\ App.saveButton s = App.error.
Proof. repeat split; vm_compute; reflexivity. Qed.

(** The bounds of the seeded window of part_001 are its least and its
    greatest weight. *)
Example seeded_window_bounds :
  let w := fst (Mass.renderChart Sample.massStart) in
  Chart.dataMin w = Num.of_decimal 1843 (-1)
  /\ Chart.dataMax w = Num.of_decimal 1862 (-1)
  /\ noNaN (Chart.numbersOf (Chart.values w)).
Proof.
  intros w. split; [vm_compute; reflexivity|]. split; [vm_compute; reflexivity|].
  vm_compute. repeat constructor.
Qed.

(** The first start on an empty storage leaves the four seeds in the storage:
    loading it again returns them. *)
Example seeds_are_stored :
  loadEntries (storage (App.store Sample.appStart)) (Num.of_Z 0)
  = App.seed Sample.today Sample.now
  /\ loadEntries (storage (Mass.store Sample.massStart)) (Num.of_Z 0)
     = Mass.seed Sample.today Sample.now.
Proof. split; vm_compute; reflexivity. Qed.

End Examples.

(** ** More on the entry store *)
Module StoreExtras.

Import StoreFacts.

Section WithCollation.

Context {collation : Collation}.

Lemma localeCompare_refl a : localeCompare a a = 0.
Proof.
  pose proof (localeCompare_antisym a a) as H.
  destruct (localeCompare a a); cbn in H; [reflexivity|discriminate..].
Qed.

Lemma entriesOfDay_insertSorted d x l :
  entriesOfDay d (insertSorted x l) = entriesOfDay d (x :: l).
Proof.
  unfold entriesOfDay.
  induction l as [|y r IH]; cbn [insertSorted]; [reflexivity|].
  destruct (Z.leb_spec (byEntryDate x y) 0) as [Hle|Hgt]; [reflexivity|].
  cbn [filter] in *. rewrite IH.
  destruct (String.eqb_spec (entryDate x) d) as [Ex|Ex];
    destruct (String.eqb_spec (entryDate y) d) as [Ey|Ey]; try reflexivity.
  exfalso. unfold byEntryDate in Hgt. rewrite Ex, Ey, localeCompare_refl in Hgt. lia.
Qed.

Lemma entriesOfDay_sort d l :
  entriesOfDay d (sortByEntryDateAsc l) = entriesOfDay d l.
Proof.
  induction l as [|x l IH]; cbn [sortByEntryDateAsc fold_right]; [reflexivity|].
  rewrite entriesOfDay_insertSorted. unfold entriesOfDay in *. cbn [filter].
  fold (sortByEntryDateAsc l). rewrite IH. reflexivity.
Qed.

Lemma sort_of_sorted l : sortedByDay l -> sortByEntryDateAsc l = l.
Proof.
  unfold sortedByDay. induction 1 as [|x l Hl IH Hx];
    cbn [sortByEntryDateAsc fold_right]; [reflexivity|].
  fold (sortByEntryDateAsc l). rewrite IH.
  destruct l as [|y r]; [reflexivity|]. cbn [insertSorted].
  inversion Hx as [|? ? Hxy _]; subst. unfold notAfter in Hxy.
  destruct (Z.leb_spec (byEntryDate x y) 0); [reflexivity|lia].
Qed.

(** Sorting by day keeps every entry, sorts, keeps the entries of one day in
    the order they had (the sort is stable), and does nothing to a list that
    is sorted already. *)
Theorem sort_is_stable_permutation (l : list Entry) :
  Permutation (sortByEntryDateAsc l) l
  /\ sortedByDay (sortByEntryDateAsc l)
  /\ (forall d, entriesOfDay d (sortByEntryDateAsc l) = entriesOfDay d l)
  /\ sortByEntryDateAsc (sortByEntryDateAsc l) = sortByEntryDateAsc l
  /\ (sortedByDay l -> sortByEntryDateAsc l = l).
Proof.
  split; [apply sort_perm|]. split; [apply sort_sorted|].
  split; [intros d; apply entriesOfDay_sort|].
  split; [apply sort_of_sorted, sort_sorted|apply sort_of_sorted].
Qed.

Lemma entriesOfDay_upserted_other l d w now d' :
  d' <> d -> entriesOfDay d' (upserted l d w now) = entriesOfDay d' l.
Proof.
  intros Hne. unfold entriesOfDay, upserted. rewrite filter_app.
  cbn [filter entryDate].
  destruct (String.eqb_spec d d') as [E|_]; [congruence|]. rewrite app_nil_r.
  induction l as [|e l IH]; cbn [filter]; [reflexivity|].
  destruct (String.eqb_spec (entryDate e) d) as [Ed|Ed]; cbn [negb filter].
  - destruct (String.eqb_spec (entryDate e) d') as [Ed'|_]; [congruence|exact IH].
  - destruct (String.eqb (entryDate e) d'); [f_equal|]; exact IH.
Qed.

Lemma entriesOfDay_upsertEntry_other s d w now d' :
  d' <> d ->
  entriesOfDay d' (entries (upsertEntry s d w now)) = entriesOfDay d' (entries s).
Proof.
  intros Hne. rewrite entries_upsertEntry, entriesOfDay_sort.
  apply entriesOfDay_upserted_other, Hne.
Qed.

Lemma findEntry_entriesOfDay s d : findEntry s d = hd_error (entriesOfDay d (entries s)).
Proof. unfold findEntry, entriesOfDay. apply find_filter. Qed.

Lemma findEntry_upsertEntry_other s d w now d' :
  d' <> d -> findEntry (upsertEntry s d w now) d' = findEntry s d'.
Proof.
  intros Hne. rewrite !findEntry_entriesOfDay, entriesOfDay_upsertEntry_other by exact Hne.
  reflexivity.
Qed.

Lemma findEntry_upsertEntry_same s d w now :
  findEntry (upsertEntry s d w now) d = Some (mkEntry d w now).
Proof.
  rewrite findEntry_entriesOfDay. unfold entriesOfDay.
  rewrite filter_day_upsertEntry. reflexivity.
Qed.

(** An upsert touches one day only: the entries of every other day are the
    same, in the same order, and [findEntry] finds for them what it found
    before. *)
Theorem upsert_leaves_other_days (s : Store) (d d' : string) (w now : Num.number) :
  d' <> d ->
  entriesOfDay d' (entries (upsertEntry s d w now)) = entriesOfDay d' (entries s)
  /\ findEntry (upsertEntry s d w now) d' = findEntry s d'
  /\ countDay d' (entries (upsertEntry s d w now)) = countDay d' (entries s).
Proof.
  intros Hne. split; [apply entriesOfDay_upsertEntry_other, Hne|].
  split; [apply findEntry_upsertEntry_other, Hne|].
  unfold countDay. fold (entriesOfDay d' (entries (upsertEntry s d w now))).
  fold (entriesOfDay d' (entries s)).
  rewrite entriesOfDay_upsertEntry_other by exact Hne. reflexivity.
Qed.

(** Upserts of two different days do not disturb each other: both entries
    are found afterwards, each with its own weight and instant. *)
Theorem upserts_of_two_days_both_found (s : Store) (d1 d2 : string)
  (w1 w2 t1 t2 : Num.number) :
  d1 <> d2 ->
  let s2 := upsertEntry (upsertEntry s d1 w1 t1) d2 w2 t2 in
  findEntry s2 d1 = Some (mkEntry d1 w1 t1)
  /\ findEntry s2 d2 = Some (mkEntry d2 w2 t2).
Proof.
  intros Hne s2. split.
  - unfold s2. rewrite findEntry_upsertEntry_other by exact Hne.
    apply findEntry_upsertEntry_same.
  - apply findEntry_upsertEntry_same.
Qed.

Lemma entriesOfDay_In d l e : In e (entriesOfDay d l) <-> In e l /\ entryDate e = d.
Proof.
  unfold entriesOfDay. rewrite filter_In.
  split; intros [H1 H2]; (split; [exact H1|]); apply String.eqb_eq; exact H2.
Qed.

(** [findEntry] returns an entry of the asked day that is in the list, the
    first one; it returns [null] exactly when the day has no entry; and when
    days are unique every entry is found under its own day. *)
Theorem findEntry_finds (s : Store) (d : string) :
  (findEntry s d = None <-> countDay d (entries s) = 0%nat)
  /\ (findEntry s d = None <-> forall e, In e (entries s) -> entryDate e <> d)
  /\ (forall e, findEntry s d = Some e ->
      In e (entries s) /\ entryDate e = d
      /\ exists before after,
           entries s = before ++ e :: after
           /\ forall x, In x before -> entryDate x <> d)
  /\ (uniqueDays (entries s) ->
      forall e, In e (entries s) -> findEntry s (entryDate e) = Some e).
Proof.
  split; [|split; [|split]].
  - rewrite findEntry_entriesOfDay. unfold countDay. fold (entriesOfDay d (entries s)).
    destruct (entriesOfDay d (entries s)); cbn; split; congruence.
  - rewrite findEntry_entriesOfDay. split.
    + intros H e He Ed.
      assert (Hin : In e (entriesOfDay d (entries s))) by (apply entriesOfDay_In; auto).
      destruct (entriesOfDay d (entries s)); [exact Hin|discriminate].
    + intros H. destruct (entriesOfDay d (entries s)) as [|e r] eqn:E; [reflexivity|].
      exfalso. assert (Hin : In e (entriesOfDay d (entries s))) by (rewrite E; left; auto).
      apply entriesOfDay_In in Hin as [Hin Ed]. exact (H e Hin Ed).
  - intros e He. unfold findEntry in He.
    pose proof (find_some _ _ He) as [Hin Hd]. apply String.eqb_eq in Hd.
    split; [exact Hin|]. split; [exact Hd|].
    clear Hin. induction (entries s) as [|x l IH]; cbn [find] in He; [discriminate|].
    destruct (String.eqb_spec (entryDate x) d) as [Ex|Ex].
    + injection He as ->. exists [], l. split; [reflexivity|]. intros y [].
    + destruct (IH He) as (before & after & El & Hb).
      exists (x :: before), after. split; [rewrite El; reflexivity|].
      intros y [<-|Hy]; auto.
  - intros Hu e Hin. unfold findEntry, uniqueDays in *.
    induction (entries s) as [|x l IH]; [destruct Hin|].
    cbn [find]. cbn [map] in Hu. inversion Hu as [|? ? Hn Hl]; subst.
    destruct (String.eqb_spec (entryDate x) (entryDate e)) as [Ex|Ex].
    + destruct Hin as [->|Hin]; [reflexivity|].
      exfalso. apply Hn. rewrite Ex. apply in_map, Hin.
    + destruct Hin as [->|Hin]; [congruence|]. apply IH; assumption.
Qed.

(** *** Saving and loading back *)

(** What was saved is loaded back as it was, provided the weights and instants
    are finite and not [-0]; an entry whose weight is not finite is written
    with a [null] weight and dropped by the next load. *)
Theorem save_then_load (l : list Entry) (now : Num.number) :
  (Forall jsonSafeEntry l -> loadEntries (saveEntries l) now = l)
  /\ (forall e, Num.isFinite (weight e) = false ->
      loadRecord now (jsonEntry e) = None)
  /\ (List.length (loadEntries (saveEntries l) now) <= List.length l)%nat.
Proof.
  split; [apply loadEntries_saveEntries|]. split.
  - intros [d w c] Hw. cbn [weight] in Hw. unfold loadRecord, jsonEntry.
    cbn [entryDate weight createdAt]. cbn.
    destruct w; try discriminate Hw; reflexivity.
  - unfold saveEntries, loadEntries.
    induction l as [|e l IH]; cbn [map filterMap List.length]; [lia|].
    destruct (loadRecord now (jsonEntry e)); cbn [List.length]; lia.
Qed.

(** A session that starts on the storage an upsert left finds the store that
    upsert left: the same entries in the same order, and the storage is not
    rewritten. *)
Theorem restart_after_upsert (s : Store) (d : string) (w t : Num.number)
  (seed : Z -> Num.number -> list Entry) (today : Z) (now : Num.number) :
  let s' := upsertEntry s d w t in
  Forall jsonSafeEntry (entries s') ->
  initStore seed (storage s') today now = s'.
Proof.
  intros s' Hsafe.
  assert (Hst : storage s' = saveEntries (entries s')) by reflexivity.
  unfold initStore. rewrite Hst, (loadEntries_saveEntries _ _ Hsafe).
  assert (Hsorted : sortedByDay (entries s'))
    by (unfold s'; rewrite entries_upsertEntry; apply sort_sorted).
  rewrite (sort_of_sorted _ Hsorted).
  destruct (entries s') as [|e l] eqn:El.
  - exfalso. assert (Hc : countDay d (entries s') = 1%nat).
    { unfold countDay, s'. rewrite filter_day_upsertEntry. reflexivity. }
    rewrite El in Hc. discriminate Hc.
  - rewrite <- Hst, <- El. reflexivity.
Qed.

End WithCollation.

End StoreExtras.

(** ** More on the date helpers *)
Module DateExtras.

Import JsString JsDate DateSpec JsDateFacts.

Lemma dateOfISO_shiftISO iso n delta :
  dateOfISO iso = Some n -> minDay <= n + delta <= maxDay ->
  shiftISO iso delta = formatISO (n + delta)
  /\ dateOfISO (shiftISO iso delta) = Some (n + delta).
Proof.
  intros Hn Hd.
  assert (E : shiftISO iso delta = formatISO (n + delta)).
  { unfold shiftISO. rewrite Hn, setDate_getDate, TimeClip_in_range; [reflexivity|].
    unfold minDay, maxDay in *. change (DayFromYear 100) with (-683003) in Hd. lia. }
  split; [exact E|]. rewrite E. apply dateOfISO_formatISO, Hd.
Qed.

(** [shiftISO] moves the date its argument reads as by exactly [deltaDays]
    days, and two shifts add up. *)
Theorem shiftISO_adds_days (iso : string) (n a b : Z) :
  dateOfISO iso = Some n ->
  minDay <= n + a <= maxDay -> minDay <= n + a + b <= maxDay ->
  dateOfISO (shiftISO iso a) = Some (n + a)
  /\ shiftISO (shiftISO iso a) b = shiftISO iso (a + b).
Proof.
  intros Hn Ha Hb.
  destruct (dateOfISO_shiftISO iso n a Hn Ha) as [Ea Ra].
  split; [exact Ra|].
  destruct (dateOfISO_shiftISO (shiftISO iso a) (n + a) b Ra Hb) as [Eb _].
  destruct (dateOfISO_shiftISO iso n (a + b) Hn) as [Eab _];
    [replace (n + (a + b)) with (n + a + b) by lia; exact Hb|].
  rewrite Eb, Eab. f_equal. lia.
Qed.

(** Shifting a printed day by [delta] and back gives the printed day. *)
Theorem shiftISO_round_trip (n delta : Z) :
  minDay <= n <= maxDay -> minDay <= n + delta <= maxDay ->
  shiftISO (shiftISO (formatISO n) delta) (- delta) = formatISO n.
Proof.
  intros Hn Hd.
  rewrite (shiftISO_formatISO n delta Hn)
    by (unfold minDay, maxDay in *; change (DayFromYear 100) with (-683003) in Hd; lia).
  rewrite (shiftISO_formatISO (n + delta) (- delta) Hd)
    by (unfold minDay, maxDay in *; change (DayFromYear 100) with (-683003) in Hn; lia).
  f_equal. lia.
Qed.

(** [isFutureISODate] compares at day granularity: a string that reads as
    day [n] is in the future exactly when [n] is after the clock's day, so
    today is not and tomorrow is. *)
Theorem isFutureISODate_compares_days (today : Z) (iso : string) (n : Z) :
  validClock today -> dateOfISO iso = Some n ->
  (isFutureISODate today iso = true <-> today < n)
  /\ isFutureISODate today (todayISODate today) = false
  /\ isFutureISODate today (shiftISO (todayISODate today) 1) = true
  /\ isFutureISODate today (shiftISO (todayISODate today) (-1)) = false.
Proof.
  intros Hc Hn. pose proof (validClock_range today Hc) as Hr.
  split; [rewrite isFutureISODate_spec, Hn by exact Hc; apply Z.ltb_lt|].
  unfold todayISODate. unfold validClock, minDay, maxDay in *.
  change (DayFromYear 100) with (-683003) in Hr.
  rewrite !shiftISO_formatISO
    by (unfold minDay, maxDay; change (DayFromYear 100) with (-683003); lia).
  rewrite !isFutureISODate_spec by exact Hc.
  rewrite !dateOfISO_formatISO
    by (unfold minDay, maxDay; change (DayFromYear 100) with (-683003); lia).
  repeat split; [apply Z.ltb_irrefl|apply Z.ltb_lt; lia|apply Z.ltb_ge; lia].
Qed.

(** *** The printed fields are a calendar date *)

Lemma DayWithinYear_next_same n :
  DayWithinYear n + 1 < 365 + InLeapYear (YearFromDay n) ->
  YearFromDay (n + 1) = YearFromDay n
  /\ DayWithinYear (n + 1) = DayWithinYear n + 1.
Proof.
  intros H. pose proof (DayWithinYear_range n) as Hr.
  assert (Hy : YearFromDay (n + 1) = YearFromDay n).
  { apply YearFromDay_unique. rewrite DayFromYear_succ, InLeapYear_DaysInYear.
    unfold DayWithinYear in *. lia. }
  split; [exact Hy|]. unfold DayWithinYear. rewrite Hy. lia.
Qed.

Lemma DayWithinYear_next_year n :
  DayWithinYear n + 1 = 365 + InLeapYear (YearFromDay n) ->
  YearFromDay (n + 1) = YearFromDay n + 1
  /\ DayWithinYear (n + 1) = 0.
Proof.
  intros H.
  assert (Hd : DayFromYear (YearFromDay n + 1) = n + 1).
  { rewrite DayFromYear_succ, InLeapYear_DaysInYear. unfold DayWithinYear in H. lia. }
  assert (Hy : YearFromDay (n + 1) = YearFromDay n + 1).
  { apply YearFromDay_unique. rewrite (DayFromYear_succ (YearFromDay n + 1)), Hd.
    rewrite InLeapYear_DaysInYear.
    pose proof (InLeapYear_range (YearFromDay n + 1)). lia. }
  split; [exact Hy|]. unfold DayWithinYear. rewrite Hy. lia.
Qed.

Lemma calendarFields_next (n : Z) :
  let '(y, m, d) := calendarFields n in
  0 <= m <= 11
  /\ 1 <= d <= daysInMonth m (InLeapYear y)
  /\ calendarFields (n + 1) = nextCalendarDay y m d.
Proof.
  unfold calendarFields.
  pose proof (DayWithinYear_range n) as Hr.
  pose proof (InLeapYear_range (YearFromDay n)) as Hl.
  split; [apply MonthFromDay_range|].
  assert (Hcase : DayWithinYear n + 1 < 365 + InLeapYear (YearFromDay n)
                  \/ DayWithinYear n + 1 = 365 + InLeapYear (YearFromDay n)) by lia.
  destruct Hcase as [Hs|He].
  - destruct (DayWithinYear_next_same n Hs) as [Hy Hd].
    unfold DateFromDay, MonthFromDay. rewrite Hy, Hd.
    set (L := InLeapYear (YearFromDay n)) in *.
    set (w := DayWithinYear n) in *.
    split.
    + month_cases; cbn [monthStart daysInMonth]; lia.
    + month_cases; try lia; unfold nextCalendarDay; fold L;
        cbn [monthStart daysInMonth]; month_cases; try lia;
        repeat match goal with |- (_, _) = (_, _) => apply f_equal2 end; lia.
  - destruct (DayWithinYear_next_year n He) as [Hy Hd].
    unfold DateFromDay, MonthFromDay. rewrite Hy, Hd.
    set (L := InLeapYear (YearFromDay n)) in *.
    set (w := DayWithinYear n) in *.
    pose proof (InLeapYear_range (YearFromDay n + 1)) as Hl'.
    split.
    + month_cases; cbn [monthStart daysInMonth]; lia.
    + month_cases; try lia; unfold nextCalendarDay; fold L;
        cbn [monthStart daysInMonth]; month_cases; try lia;
        repeat match goal with |- (_, _) = (_, _) => apply f_equal2 end; lia.
Qed.


(** [shiftISO(iso, 1)] prints the next date of the calendar: the date goes up
    by one within a month, a month's last day is followed by the first of the
    next month, December 31 by January 1 of the next year, and February has
    29 days in leap years. *)
Theorem shiftISO_next_calendar_date (iso : string) (n : Z) :
  dateOfISO iso = Some n -> minDay <= n < maxDay ->
  let '(y, m, d) := calendarFields n in
  let '(y', m', d') := nextCalendarDay y m d in
  0 <= m <= 11
  /\ 1 <= d <= daysInMonth m (InLeapYear y)
  /\ fields (shiftISO iso 1) = Some (y', m' + 1, d').
Proof.
  intros Hn Hr. pose proof (calendarFields_next n) as Hc.
  destruct (calendarFields n) as [[y m] d].
  destruct Hc as (Hm & Hd & Hnext).
  destruct (nextCalendarDay y m d) as [[y' m'] d'].
  split; [exact Hm|]. split; [exact Hd|].
  destruct (dateOfISO_shiftISO iso n 1 Hn ltac:(lia)) as [E _]. rewrite E.
  unfold calendarFields in Hnext. injection Hnext as Ey Em Ed.
  rewrite fields_formatISO, Ey, Em, Ed; [reflexivity|].
  apply (Z.le_trans _ 100); [lia|].
  apply YearFromDay_lower. fold minDay. lia.
Qed.

(** *** Display strings *)

Lemma strip_zero_of_date d :
  1 <= d <= 31 ->
  match padStart2 (of_int d) with
  | String "0" f => f
  | f => f
  end = of_int d.
Proof.
  intros Hd. revert d Hd.
  assert (H : forall k : nat, (k <= 31)%nat -> 1 <= Z.of_nat k ->
              match padStart2 (of_int (Z.of_nat k)) with
              | String "0" f => f
              | f => f
              end = of_int (Z.of_nat k)).
  { intros k Hk.
    do 32 (destruct k as [|k]; [intros; try lia; vm_compute; reflexivity|]). lia. }
  intros d Hd. rewrite <- (Z2Nat.id d) by lia. apply H; lia.
Qed.

Lemma split_formatISO n :
  0 <= YearFromDay n ->
  split "-" (formatISO n)
  = [of_int (YearFromDay n); padStart2 (of_int (MonthFromDay n + 1));
     padStart2 (of_int (DateFromDay n))].
Proof.
  intros Hy. pose proof (MonthFromDay_range n). pose proof (DateFromDay_range n).
  unfold formatISO. cbn [append].
  rewrite split_append by (apply noHyphen_of_int; exact Hy).
  rewrite split_append by (apply noHyphen_padStart2, noHyphen_of_int; lia).
  rewrite split_noHyphen by (apply noHyphen_padStart2, noHyphen_of_int; lia).
  reflexivity.
Qed.

(** The labels of the chart are the days of the month of the window, without
    a leading zero; the third field is never missing on these days, so the
    call does not throw. *)
Theorem window_labels_are_dates (iso : string) (n : Z) :
  dateOfISO iso = Some n -> inWindowRange n ->
  map Chart.dayLabel (Chart.weekDays iso)
  = map (fun k => Some (of_int (DateFromDay k)))
      [n - 6; n - 5; n - 4; n - 3; n - 2; n - 1; n].
Proof.
  intros Hn Hr.
  assert (Hl : forall k, minDay <= k ->
               Chart.dayLabel (formatISO k) = Some (of_int (DateFromDay k))).
  { intros k Hk. unfold Chart.dayLabel.
    rewrite split_formatISO
      by (apply (Z.le_trans _ 100); [lia|apply YearFromDay_lower; exact Hk]).
    cbn [nth_error].
    pose proof (strip_zero_of_date (DateFromDay k) (DateFromDay_range k)) as Hs.
    destruct (padStart2 (of_int (DateFromDay k))) as [|c f]; [rewrite <- Hs; reflexivity|].
    destruct c as [[|] [|] [|] [|] [|] [|] [|] [|]]; rewrite <- Hs; reflexivity. }
  unfold inWindowRange in Hr.
  rewrite (ChartClaims.weekDays_date iso n Hn Hr). cbn [map].
  rewrite !Hl by lia.
  repeat (f_equal; try (f_equal; f_equal; lia)).
Qed.

Lemma two_digit_year_table :
  forallb (fun y =>
             String.eqb (substring 2 (String.length (of_int y) - 2) (of_int y))
               (padStart2 (of_int (y mod 100))))
    (map Z.of_nat (seq (Z.to_nat 1000) (Z.to_nat 9000))) = true.
Proof. vm_compute. reflexivity. Qed.

Lemma two_digit_year y :
  1000 <= y <= 9999 ->
  substring 2 (String.length (of_int y) - 2) (of_int y)
  = padStart2 (of_int (y mod 100)).
Proof.
  intros Hy. pose proof two_digit_year_table as Ht.
  rewrite forallb_forall in Ht. apply String.eqb_eq, Ht.
  apply in_map_iff. exists (Z.to_nat y). split; [lia|].
  apply in_seq. lia.
Qed.

(** The display string of a day of a four-digit year is [MM.DD.YY] with every
    field on two digits: the month, the date and the year modulo 100. *)
Theorem isoToMMDDYY_of_date (n : Z) :
  1000 <= YearFromDay n <= 9999 ->
  isoToMMDDYY (formatISO n)
  = (padStart2 (of_int (MonthFromDay n + 1)) ++ "." ++
     padStart2 (of_int (DateFromDay n)) ++ "." ++
     padStart2 (of_int (YearFromDay n mod 100)))%string.
Proof.
  intros Hy. unfold isoToMMDDYY. rewrite split_formatISO by lia.
  cbn [nth]. rewrite two_digit_year by exact Hy. reflexivity.
Qed.

End DateExtras.

(** ** More on the chart window *)
Module ChartExtras.

Import Chart ChartClaims.

Lemma mapGet_Some_In l d x :
  mapGet l d = Some x -> exists e, In e l /\ entryDate e = d /\ weight e = x.
Proof.
  induction l as [|a l IH]; cbn [mapGet]; [discriminate|].
  destruct (mapGet l d) as [y|] eqn:E.
  - intros H. injection H as <-. destruct (IH eq_refl) as (e & He & Hd & Hw).
    exists e. split; [right; exact He|]. split; assumption.
  - destruct (String.eqb_spec (entryDate a) d) as [Ed|_]; [|discriminate].
    intros H. injection H as <-. exists a. split; [left; reflexivity|]. split; auto.
Qed.

Lemma mapGet_None_iff l d :
  mapGet l d = None <-> forall e, In e l -> entryDate e <> d.
Proof.
  split.
  - intros H e He Ed. induction l as [|a l IH]; [destruct He|].
    cbn [mapGet] in H. destruct (mapGet l d) eqn:E; [discriminate|].
    destruct (String.eqb_spec (entryDate a) d) as [Ea|Ea]; [discriminate|].
    destruct He as [->|He]; [congruence|]. apply IH; [reflexivity|exact He].
  - apply mapGet_absent.
Qed.

(** A value of the series comes from the window: it is the value of a day at
    or before its own, with no entry in between. *)
Lemma fillForward_source l days i x :
  (i < List.length days)%nat ->
  nth i (fillForward l None days) None = Some x ->
  exists j, (j <= i)%nat
    /\ mapGet l (nth j days EmptyString) = Some x
    /\ forall k, (j < k <= i)%nat -> mapGet l (nth k days EmptyString) = None.
Proof.
  induction i as [|i IH]; intros Hi Hx; rewrite fillForward_nth in Hx by exact Hi.
  - destruct (mapGet l (nth 0 days EmptyString)) eqn:E; [|discriminate].
    exists O. split; [lia|]. split; [congruence|]. intros k Hk. lia.
  - destruct (mapGet l (nth (S i) days EmptyString)) eqn:E.
    + exists (S i). split; [lia|]. split; [congruence|]. intros k Hk. lia.
    + destruct (IH ltac:(lia) Hx) as (j & Hj & Hm & Hgap).
      exists j. split; [lia|]. split; [exact Hm|].
      intros k Hk. destruct (Nat.eq_dec k (S i)) as [->|Hne]; [exact E|].
      apply Hgap. lia.
Qed.

(** The series never invents a value and has no hole after its first value:
    every value is the weight of an entry of the store whose day is a day of
    the window at or before the point, and once a point has a value every
    later point has one. *)
Theorem series_values_come_from_entries (l : list Entry) (endISO : string) :
  let w := getWeekSeries l endISO in
  let day i := nth i (weekDays endISO) EmptyString in
  let value i := nth i (values w) None in
  (forall i x, (i < 7)%nat -> value i = Some x ->
     exists j e, (j <= i)%nat /\ In e l /\ entryDate e = day j /\ weight e = x)
  /\ (forall i j, (i <= j < 7)%nat -> value i <> None -> value j <> None).
Proof.
  intros w day value.
  assert (Hval : values w = fillForward l None (weekDays endISO)) by reflexivity.
  assert (Hlen : List.length (weekDays endISO) = 7%nat) by reflexivity.
  split.
  - intros i x Hi Hx. unfold value in Hx. rewrite Hval in Hx.
    assert (Hi' : (i < List.length (weekDays endISO))%nat) by (rewrite Hlen; lia).
    destruct (fillForward_source l _ i x Hi' Hx) as (j & Hj & Hm & _).
    destruct (mapGet_Some_In l _ x Hm) as (e & He & Hd & Hw).
    exists j, e. auto.
  - intros i j Hij Hv. unfold value in *. rewrite Hval in *.
    destruct (nth i (fillForward l None (weekDays endISO)) None) as [x|] eqn:Ex;
      [|congruence].
    clear Hv. destruct Hij as [Hij Hj].
    induction j as [|j IH].
    + replace i with O in * by lia. congruence.
    + destruct (Nat.eq_dec i (S j)) as [<-|Hne]; [congruence|].
      rewrite fillForward_nth by (rewrite Hlen; lia).
      destruct (mapGet l (nth (S j) (weekDays endISO) EmptyString)); [discriminate|].
      apply IH; lia.
Qed.

Lemma numbersOf_nil_iff vs : numbersOf vs = [] <-> forall v, In v vs -> v = None.
Proof.
  induction vs as [|v vs IH]; cbn [numbersOf filterMap In].
  - split; [intros _ v []|reflexivity].
  - destruct v as [x|].
    + split; [discriminate|]. intros H. specialize (H (Some x) (or_introl eq_refl)).
      discriminate.
    + fold (numbersOf vs). rewrite IH. split.
      * intros H v [<-|Hv]; auto.
      * intros H v Hv. apply H. right. exact Hv.
Qed.

(** The default bounds 0 and 1 are used exactly when no day of the window has
    an entry; as soon as one has, the bounds are the minimum and the maximum
    of the values. *)
Theorem default_bounds_iff_no_entry (l : list Entry) (endISO : string) :
  let w := getWeekSeries l endISO in
  let day i := nth i (weekDays endISO) EmptyString in
  (numbersOf (values w) = []
   <-> forall i e, (i < 7)%nat -> In e l -> entryDate e <> day i)
  /\ (numbersOf (values w) = [] ->
      dataMin w = Num.of_Z 0 /\ dataMax w = Num.of_Z 1)
  /\ (numbersOf (values w) <> [] ->
      dataMin w = Num.Math_min_list (numbersOf (values w))
      /\ dataMax w = Num.Math_max_list (numbersOf (values w))).
Proof.
  intros w day.
  assert (Hval : values w = fillForward l None (weekDays endISO)) by reflexivity.
  assert (Hlen : List.length (weekDays endISO) = 7%nat) by reflexivity.
  assert (Hvlen : List.length (values w) = 7%nat) by apply values_length.
  split; [|split].
  - rewrite numbersOf_nil_iff. split.
    + intros Hnone i e Hi He Ed.
      assert (Hm : mapGet l (day i) <> None).
      { intros Hm. rewrite mapGet_None_iff in Hm. exact (Hm e He Ed). }
      destruct (mapGet l (day i)) as [x|] eqn:Ex; [|congruence].
      assert (Hv : nth i (values w) None = Some x).
      { rewrite Hval. apply (fillForward_carried l _ None i i x);
          [rewrite Hlen; lia|exact Ex|intros k Hk; lia]. }
      assert (Hin : In (nth i (values w) None) (values w)) by (apply nth_In; lia).
      rewrite (Hnone _ Hin) in Hv. discriminate.
    + intros Habs v Hv. apply (In_nth _ _ None) in Hv as (i & Hi & <-).
      rewrite Hval. rewrite Hvlen in Hi.
      apply fillForward_leading_gap; [rewrite Hlen; lia|].
      intros j Hj. apply mapGet_None_iff. intros e He. apply Habs; [lia|exact He].
  - intros Hn.
    change (dataMin w) with (match numbersOf (values w) with
                             | [] => Num.of_Z 0
                             | _ => Num.Math_min_list (numbersOf (values w)) end).
    change (dataMax w) with (match numbersOf (values w) with
                             | [] => Num.of_Z 1
                             | _ => Num.Math_max_list (numbersOf (values w)) end).
    rewrite Hn. split; reflexivity.
  - intros Hn.
    change (dataMin w) with (match numbersOf (values w) with
                             | [] => Num.of_Z 0
                             | _ => Num.Math_min_list (numbersOf (values w)) end).
    change (dataMax w) with (match numbersOf (values w) with
                             | [] => Num.of_Z 1
                             | _ => Num.Math_max_list (numbersOf (values w)) end).
    destruct (numbersOf (values w)); [congruence|split; reflexivity].
Qed.

End ChartExtras.

(** ** More on the sessions *)
Module NavExtras.

Import DateSpec NavClaims.

Lemma trim_blank_refused raw : JsString.trim raw = EmptyString -> parseWeight raw = None.
Proof.
  intros H. unfold parseWeight, normalizeWeightText. rewrite H. reflexivity.
Qed.

Lemma formatISO_nonempty n : JsDate.formatISO n <> EmptyString.
Proof.
  unfold JsDate.formatISO. destruct (JsString.of_int (JsDate.YearFromDay n));
    cbn; discriminate.
Qed.

Lemma shiftISO_nonempty iso delta : shiftISO iso delta <> EmptyString.
Proof.
  unfold shiftISO, JsDate.isoOfDate.
  destruct (JsDate.dateOfISO iso) as [n|]; [|discriminate].
  destruct (JsDate.setDate n (JsDate.DateFromDay n + delta));
    [apply formatISO_nonempty|discriminate].
Qed.

Lemma navigated_nonempty today selected delta :
  selected <> EmptyString -> navigated today selected delta <> EmptyString.
Proof.
  intros H. unfold navigated.
  destruct (isFutureISODate today (shiftISO selected delta));
    [exact H|apply shiftISO_nonempty].
Qed.

Section WithHost.

Context {collation : Collation} {format : NumberFormat}.

(** *** Blur in part_001 *)

(** Leaving the weight field of part_001: a blank field changes nothing; a
    text that is not a valid weight only sets the message "Invalid weight.";
    a valid weight is saved for the selected day and found there afterwards.
    The selected day and the text of the field are never changed. *)
Theorem blur_saves_or_reports (today : Z) (now : Num.number) (s : Mass.Session) :
  let s' := Mass.handle today now Mass.Blur s in
  Mass.selectedISO s' = Mass.selectedISO s
  /\ Mass.weightInput s' = Mass.weightInput s
  /\ (JsString.trim (Mass.weightInput s) = EmptyString -> s' = s)
  /\ (parseWeight (Mass.weightInput s) = None ->
      JsString.trim (Mass.weightInput s) <> EmptyString ->
      s' = Mass.setStatus s "Invalid weight.")
  /\ (forall w, parseWeight (Mass.weightInput s) = Some w ->
      Mass.store s' = upsertEntry (Mass.store s) (Mass.selectedISO s) w now
      /\ findEntry (Mass.store s') (Mass.selectedISO s)
         = Some (mkEntry (Mass.selectedISO s) w now)).
Proof.
  cbn [Mass.handle]. unfold Mass.autoSaveIfValid. cbn [negb andb].
  destruct (parseWeight (Mass.weightInput s)) as [w|] eqn:Ep; cbn [fst].
  - split; [reflexivity|]. split; [reflexivity|]. split; [|split].
    + intros Hb. rewrite (trim_blank_refused _ Hb) in Ep. discriminate.
    + intros H. discriminate H.
    + intros w' E. injection E as <-.
      split; [reflexivity|apply findEntry_upsertEntry].
  - destruct (String.eqb_spec (JsString.trim (Mass.weightInput s)) "") as [Eb|Eb];
      cbn [negb].
    + split; [reflexivity|]. split; [reflexivity|]. split; [|split].
      * intros _. reflexivity.
      * intros _ Hn. congruence.
      * intros w' E. discriminate E.
    + split; [reflexivity|]. split; [reflexivity|]. split; [|split].
      * intros Hb. congruence.
      * intros _ _. reflexivity.
      * intros w' E. discriminate E.
Qed.

(** *** Away and back in part_001 *)

Lemma Mass_commitSwipe_store today now dir s :
  Mass.store (Mass.commitSwipe today now dir s) = MassSpec.savedOnLeave now s.
Proof.
  unfold Mass.commitSwipe. rewrite Mass_autoSaveIfValid_quiet.
  destruct dir; exact (proj1 (Mass_shiftDay_store _ _ _)).
Qed.

Lemma Mass_commitSwipe_weightInput today now dir s :
  let s' := Mass.commitSwipe today now dir s in
  Mass.selectedISO s' <> Mass.selectedISO s ->
  Mass.weightInput s'
  = match findEntry (Mass.store s') (Mass.selectedISO s') with
    | Some entry => numberToString (weight entry)
    | None => EmptyString
    end.
Proof.
  unfold Mass.commitSwipe. rewrite Mass_autoSaveIfValid_quiet.
  set (s1 := Mass.setStore s (MassSpec.savedOnLeave now s)).
  assert (Hs1 : Mass.selectedISO s1 = Mass.selectedISO s) by reflexivity.
  rewrite <- Hs1.
  assert (H : forall delta,
             Mass.selectedISO (Mass.shiftDay today s1 delta) <> Mass.selectedISO s1 ->
             Mass.weightInput (Mass.shiftDay today s1 delta)
             = match findEntry (Mass.store (Mass.shiftDay today s1 delta))
                       (Mass.selectedISO (Mass.shiftDay today s1 delta)) with
               | Some entry => numberToString (weight entry)
               | None => EmptyString
               end).
  { intros delta. unfold Mass.shiftDay.
    destruct (isFutureISODate today (shiftISO (Mass.selectedISO s1) delta));
      [congruence|reflexivity]. }
  destruct dir; apply H.
Qed.

(** Swiping to the previous day and back in part_001, with a valid weight
    staged: the weight is saved for the day on the way out, stays there
    through the way back, and the field shows it again on return. *)
Theorem swipe_away_and_back (today n : Z) (now1 now2 w : Num.number)
  (s : Mass.Session) :
  validClock today -> minDay < n <= today ->
  Mass.selectedISO s = JsDate.formatISO n ->
  parseWeight (Mass.weightInput s) = Some w ->
  let s1 := Mass.commitSwipe today now1 right s in
  let s2 := Mass.commitSwipe today now2 left s1 in
  Mass.selectedISO s1 = JsDate.formatISO (n - 1)
  /\ Mass.selectedISO s2 = JsDate.formatISO n
  /\ findEntry (Mass.store s2) (JsDate.formatISO n)
     = Some (mkEntry (JsDate.formatISO n) w now1)
  /\ Mass.weightInput s2 = numberToString w.
Proof.
  intros Hc Hn Hsel Hw s1 s2.
  pose proof (JsDateFacts.validClock_range today Hc) as Hr.
  assert (Hmax : today <= JsDate.maxDay) by apply Hr.
  assert (Hmin : -683003 = minDay) by reflexivity.
  assert (Hnav : forall k delta, minDay <= k <= JsDate.maxDay ->
                 minDay <= k + delta <= today ->
                 navigated today (JsDate.formatISO k) delta = JsDate.formatISO (k + delta)).
  { intros k delta Hk Hd. unfold navigated.
    rewrite JsDateFacts.shiftISO_formatISO
      by (try exact Hk; unfold JsDate.maxDay in *; lia).
    rewrite JsDateFacts.isFutureISODate_spec by exact Hc.
    rewrite JsDateFacts.dateOfISO_formatISO by lia.
    destruct (Z.ltb_spec today (k + delta)); [lia|reflexivity]. }
  assert (H1 : Mass.selectedISO s1 = JsDate.formatISO (n - 1)).
  { unfold s1. rewrite Mass_commitSwipe_selected, Hsel.
    rewrite Hnav by lia. f_equal; lia. }
  assert (H2 : Mass.selectedISO s2 = JsDate.formatISO n).
  { unfold s2. rewrite Mass_commitSwipe_selected, H1.
    rewrite Hnav by lia. f_equal; lia. }
  assert (Hne : JsDate.formatISO n <> JsDate.formatISO (n - 1)).
  { intros E. apply JsDateFacts.formatISO_inj in E; lia. }
  assert (Hst1 : findEntry (Mass.store s1) (JsDate.formatISO n)
                 = Some (mkEntry (JsDate.formatISO n) w now1)).
  { unfold s1.
    rewrite Mass_commitSwipe_store.
    unfold MassSpec.savedOnLeave. rewrite Hw, Hsel. apply findEntry_upsertEntry. }
  assert (Hst2 : findEntry (Mass.store s2) (JsDate.formatISO n)
                 = Some (mkEntry (JsDate.formatISO n) w now1)).
  { unfold s2.
    rewrite Mass_commitSwipe_store.
    unfold MassSpec.savedOnLeave.
    destruct (parseWeight (Mass.weightInput s1)); [|exact Hst1].
    rewrite StoreExtras.findEntry_upsertEntry_other by (rewrite H1; exact Hne).
    exact Hst1. }
  split; [exact H1|]. split; [exact H2|]. split; [exact Hst2|].
  pose proof (Mass_commitSwipe_weightInput today now2 left s1) as Hwi.
  cbn zeta in Hwi. fold s2 in Hwi.
  rewrite Hwi by (rewrite H1, H2; exact Hne).
  rewrite H2, Hst2. reflexivity.
Qed.

(** *** The Save button *)

(** Save in app.js writes only a valid weight for a selected day that is not
    in the future: a future day or an invalid text leaves the store and the
    selection alone and puts the button in its error state with the matching
    message; otherwise the weight is stored for the selected day, found there
    afterwards, and the button shows "saved". *)
Theorem save_writes_only_valid_past_entries (today : Z) (now : Num.number)
  (s : App.Session) :
  let s' := App.onSave today now s in
  App.selectedISO s' = App.selectedISO s
  /\ App.weightInput s' = App.weightInput s
  /\ (isFutureISODate today (App.selectedISO s) = true ->
      App.selectedISO s <> EmptyString ->
      App.store s' = App.store s
      /\ App.statusText s' = "Future dates blocked."%string
      /\ App.saveButton s' = App.error)
  /\ (parseWeightInput (App.weightInput s) = None ->
      App.store s' = App.store s /\ App.saveButton s' = App.error)
  /\ (forall w,
      App.selectedISO s <> EmptyString ->
      isFutureISODate today (App.selectedISO s) = false ->
      parseWeightInput (App.weightInput s) = Some w ->
      App.store s' = upsertEntry (App.store s) (App.selectedISO s) w now
      /\ findEntry (App.store s') (App.selectedISO s)
         = Some (mkEntry (App.selectedISO s) w now)
      /\ App.saveButton s' = App.saved).
Proof.
  unfold App.onSave.
  cbn [App.selectedISO App.weightInput App.setStatus App.setSaveButtonState].
  destruct (String.eqb_spec (App.selectedISO s) "") as [Ee|Ee].
  { split; [reflexivity|]. split; [reflexivity|]. split; [congruence|].
    split; [intros _; split; reflexivity|]. intros w H. congruence. }
  destruct (isFutureISODate today (App.selectedISO s)) eqn:Ef.
  { split; [reflexivity|]. split; [reflexivity|].
    split; [intros _ _; repeat split|].
    split; [intros _; split; reflexivity|]. intros w _ H. discriminate H. }
  destruct (parseWeightInput (App.weightInput s)) as [w|] eqn:Ep.
  - split; [reflexivity|]. split; [reflexivity|]. split; [discriminate|].
    split; [discriminate|]. intros w' _ _ E. injection E as <-.
    split; [reflexivity|]. split; [apply findEntry_upsertEntry|reflexivity].
  - split; [reflexivity|]. split; [reflexivity|]. split; [discriminate|].
    split; [intros _; split; reflexivity|]. intros w' _ _ E. discriminate E.
Qed.

(** *** Save in a session of app.js *)

Lemma App_handle_selected_nonempty today now ev s :
  App.selectedISO s <> EmptyString ->
  App.selectedISO (App.handle today now ev s) <> EmptyString.
Proof.
  intros Hs. destruct ev as [text| |next|[|]|]; cbn [App.handle].
  - exact Hs.
  - rewrite App_onSave_selected. exact Hs.
  - rewrite App_dateInputChange_selected.
    destruct (String.eqb_spec next "") as [E|E]; cbn [orb]; [exact Hs|].
    destruct (isFutureISODate today next); [exact Hs|exact E].
  - rewrite App_shiftSelectedDay_selected. apply navigated_nonempty, Hs.
  - rewrite App_shiftSelectedDay_selected. apply navigated_nonempty, Hs.
  - exact Hs.
Qed.

(** In a session of app.js the two date errors of Save cannot happen: the
    selected day is never empty and never in the future, so Save either
    stores the weight or reports "Invalid weight.". *)
Theorem save_in_session_never_blocked (t : Z) (s : App.Session) :
  AppSpec.reachable t s ->
  forall today now, validClock today -> t <= today ->
  let s' := App.onSave today now s in
  match parseWeightInput (App.weightInput s) with
  | Some w =>
      App.store s' = upsertEntry (App.store s) (App.selectedISO s) w now
      /\ App.saveButton s' = App.saved
  | None =>
      App.store s' = App.store s
      /\ App.saveButton s' = App.error
      /\ App.statusText s' = "Invalid weight."%string
  end.
Proof.
  intros Hr.
  assert (Hinv : App.selectedISO s <> EmptyString
                 /\ notFuture t (App.selectedISO s)).
  { induction Hr as [st today now Hc|t s today now ev _ [IH1 IH2] Hc Ht].
    - split; [apply formatISO_nonempty|apply notFuture_today, Hc].
    - split; [apply App_handle_selected_nonempty, IH1|].
      apply App_handle_notFuture; [exact Hc|].
      apply (notFuture_later t); assumption. }
  destruct Hinv as [Hne Hnf]. intros today now Hc Ht.
  destruct (notFuture_later t today _ Hc Ht Hnf) as [Hf _].
  unfold App.onSave.
  cbn [App.selectedISO App.weightInput App.setStatus App.setSaveButtonState].
  destruct (String.eqb_spec (App.selectedISO s) "") as [E|_]; [congruence|].
  rewrite Hf.
  destruct (parseWeightInput (App.weightInput s)); repeat split.
Qed.

(** *** The form of part_000 *)

(** In part_000 the picker puts any day in the date input, a future one
    included, and only Save refuses it: the store is left alone and the
    message "Future dates blocked." is shown.  A day that is not in the
    future is saved under the value of the date input. *)
Theorem legacy_save_refuses_future_date (today : Z) (now : Num.number)
  (next : string) (s : LegacyForm.Session) :
  let picked := LegacyForm.dateInputChange next s in
  let s' := LegacyForm.onSave today now picked in
  LegacyForm.dateInput picked = next
  /\ LegacyForm.store picked = LegacyForm.store s
  /\ (isFutureISODate today next = true -> next <> EmptyString ->
      LegacyForm.store s' = LegacyForm.store s
      /\ LegacyForm.statusText s' = "Future dates blocked."%string
      /\ LegacyForm.saveButton s' = App.error)
  /\ (forall w, next <> EmptyString -> isFutureISODate today next = false ->
      parseWeightInput (LegacyForm.weightInput s) = Some w ->
      LegacyForm.store s' = upsertEntry (LegacyForm.store s) next w now
      /\ findEntry (LegacyForm.store s') next = Some (mkEntry next w now)).
Proof.
  unfold LegacyForm.onSave, LegacyForm.dateInputChange.
  cbn [LegacyForm.dateInput LegacyForm.weightInput LegacyForm.store
       LegacyForm.setStatus LegacyForm.setSaveButtonState].
  split; [reflexivity|]. split; [reflexivity|].
  destruct (String.eqb_spec next "") as [Ee|Ee].
  { split; [congruence|]. intros w H. congruence. }
  destruct (isFutureISODate today next) eqn:Ef.
  { split; [intros _ _; repeat split|]. intros w _ H. discriminate H. }
  split; [discriminate|]. intros w _ _ Ew. rewrite Ew.
  split; [reflexivity|apply findEntry_upsertEntry].
Qed.

(** *** The recent list of app.js *)

Lemma skipn_sorted n l : sortedByDay l -> sortedByDay (skipn n l).
Proof.
  unfold sortedByDay. revert l. induction n as [|n IH]; intros l Hl; [exact Hl|].
  destruct l as [|x l]; [exact Hl|]. cbn [skipn]. apply IH.
  inversion Hl; assumption.
Qed.

Lemma rev_sorted l :
  sortedByDay l -> StronglySorted (fun a b => notAfter b a) (rev l).
Proof.
  unfold sortedByDay. induction 1 as [|x l Hl IH Hx]; cbn [rev]; [constructor|].
  induction (rev l) as [|y r IHr] eqn:E.
  - repeat constructor.
  - assert (Hin : forall z, In z (y :: r) -> notAfter x z).
    { intros z Hz. rewrite <- E in Hz. apply in_rev in Hz.
      rewrite Forall_forall in Hx. auto. }
    clear E IHr. revert Hin. induction IH as [|a m Hm IHm Ha]; intros Hin.
    + repeat constructor.
    + cbn [app]. constructor.
      * apply IHm. intros z Hz. apply Hin. right. exact Hz.
      * apply Forall_app. split; [exact Ha|].
        constructor; [|constructor]. apply Hin. left. reflexivity.
Qed.

(** The recent list shows at most seven entries, all of them entries of the
    store and, from the eighth entry on, the last seven; the first line is
    the last entry of the store, and on a sorted store the lines go from the
    most recent day back. *)
Theorem recent_list_is_last_seven_reversed (s : App.Session) :
  let l := entries (App.store s) in
  let r := App.renderRecentList s in
  List.length r = Nat.min 7 (List.length l)
  /\ (forall e, In e r -> In e l)
  /\ (forall i, (i < List.length r)%nat ->
      nth_error r i = nth_error l (List.length l - 1 - i))
  /\ ((List.length l <= 7)%nat -> r = rev l)
  /\ (sortedByDay l -> StronglySorted (fun a b => notAfter b a) r).
Proof.
  intros l r. unfold r, App.renderRecentList. fold l.
  set (k := (List.length l - 7)%nat).
  assert (Hlen : List.length (rev (skipn k l)) = Nat.min 7 (List.length l)).
  { rewrite length_rev, length_skipn. unfold k. lia. }
  split; [exact Hlen|]. split; [|split; [|split]].
  - intros e He. apply in_rev in He.
    rewrite <- (firstn_skipn k l). apply in_or_app. right. exact He.
  - intros i Hi. rewrite Hlen in Hi.
    rewrite nth_error_rev, length_skipn.
    destruct (Nat.ltb_spec i (List.length l - k)) as [_|Hge]; [|unfold k in Hge; lia].
    rewrite nth_error_skipn. f_equal. unfold k. lia.
  - intros H7. replace k with O by (unfold k; lia). reflexivity.
  - intros Hs. apply rev_sorted, skipn_sorted, Hs.
Qed.

End WithHost.

End NavExtras.

(** ** More on the weight text and the gestures *)
Module InputExtras.

Import JsString.

Lemma trimStart_white a s : allWhite a = true -> trimStart (a ++ s) = trimStart s.
Proof.
  induction a as [|c a IH]; cbn [allWhite append trimStart]; [reflexivity|].
  intros H. apply andb_true_iff in H as [Hc Ha]. rewrite Hc. apply IH, Ha.
Qed.

Lemma trimEnd_white b : allWhite b = true -> trimEnd b = EmptyString.
Proof.
  induction b as [|c b IH]; cbn [allWhite trimEnd]; [reflexivity|].
  intros H. apply andb_true_iff in H as [Hc Hb]. rewrite (IH Hb), Hc. reflexivity.
Qed.

Lemma trimEnd_app_white s b : allWhite b = true -> trimEnd (s ++ b) = trimEnd s.
Proof.
  intros Hb. induction s as [|c s IH]; cbn [append trimEnd].
  - apply trimEnd_white, Hb.
  - rewrite IH. reflexivity.
Qed.

Lemma trim_app_white s b : allWhite b = true -> trim (s ++ b) = trim s.
Proof.
  intros Hb. unfold trim. induction s as [|c s IH]; cbn [append trimStart].
  - replace (trimStart b) with EmptyString; [reflexivity|].
    clear - Hb. induction b as [|c b IH]; cbn [allWhite trimStart] in *;
      [reflexivity|].
    apply andb_true_iff in Hb as [Hc Hb]. rewrite Hc. apply IH, Hb.
  - destruct (isWhiteSpace c); [exact IH|].
    apply (trimEnd_app_white (String c s) b Hb).
Qed.

Lemma trimEnd_idem s : trimEnd (trimEnd s) = trimEnd s.
Proof.
  induction s as [|c s IH]; cbn [trimEnd]; [reflexivity|].
  destruct (trimEnd s) as [|d r] eqn:E.
  - destruct (isWhiteSpace c) eqn:Ec; cbn [trimEnd]; [reflexivity|].
    rewrite Ec. reflexivity.
  - cbn [trimEnd] in *. rewrite IH. reflexivity.
Qed.

Lemma trimStart_trimEnd_trimStart s :
  trimStart (trimEnd (trimStart s)) = trimEnd (trimStart s).
Proof.
  induction s as [|c s IH]; cbn [trimStart]; [reflexivity|].
  destruct (isWhiteSpace c) eqn:Ec; [exact IH|].
  cbn [trimEnd]. destruct (trimEnd s); rewrite ?Ec; cbn [trimStart];
    rewrite Ec; reflexivity.
Qed.

Lemma trim_idem s : trim (trim s) = trim s.
Proof.
  unfold trim. rewrite trimStart_trimEnd_trimStart. apply trimEnd_idem.
Qed.

(** White space around a weight text does not matter: the parser gives the
    same result on the trimmed text and on the text with any white space put
    before and after it. *)
Theorem parse_ignores_outer_space (raw a b : string) :
  parseWeight (trim raw) = parseWeight raw
  /\ parseWeightInput (trim raw) = parseWeightInput raw
  /\ (allWhite a = true -> allWhite b = true ->
      parseWeight (a ++ raw ++ b) = parseWeight raw
      /\ parseWeightInput (a ++ raw ++ b) = parseWeightInput raw).
Proof.
  split; [|split].
  - unfold parseWeight, normalizeWeightText. rewrite trim_idem. reflexivity.
  - unfold parseWeightInput, normalizeWeightText. rewrite trim_idem. reflexivity.
  - intros Ha Hb.
    assert (E : trim (a ++ raw ++ b) = trim raw).
    { unfold trim at 1. rewrite trimStart_white by exact Ha.
      apply (trim_app_white raw b Hb). }
    unfold parseWeight, parseWeightInput, normalizeWeightText. rewrite E.
    split; reflexivity.
Qed.

(** *** The recogniser of part_001 *)

Lemma touchmove_locked t g :
  Mass.locked g = true ->
  Mass.locked (fst (Mass.touchmove [t] g)) = true
  /\ Mass.lockDir (fst (Mass.touchmove [t] g)) = Mass.lockDir g
  /\ Mass.startX (fst (Mass.touchmove [t] g)) = Mass.startX g
  /\ Mass.startY (fst (Mass.touchmove [t] g)) = Mass.startY g
  /\ Mass.startTime (fst (Mass.touchmove [t] g)) = Mass.startTime g.
Proof.
  intros Hl. destruct t as [x y]. unfold Mass.touchmove.
  cbn [Mass.locked Mass.lockDir Mass.startX Mass.startY Mass.startTime].
  rewrite Hl. cbn [negb andb].
  destruct (Mass.lockDir g) as [[|]|]; cbn [fst]; repeat split; assumption.
Qed.

(** Once the recogniser of part_001 is locked on an axis, no later move of the
    gesture changes the lock, the start point or the start time. *)
Theorem axis_lock_is_permanent (touches : list (Num.number * Num.number))
  (g : Mass.Swipe) :
  Mass.locked g = true ->
  Mass.locked (massMoves touches g) = true
  /\ Mass.lockDir (massMoves touches g) = Mass.lockDir g
  /\ Mass.startX (massMoves touches g) = Mass.startX g
  /\ Mass.startY (massMoves touches g) = Mass.startY g
  /\ Mass.startTime (massMoves touches g) = Mass.startTime g.
Proof.
  revert g. induction touches as [|t touches IH]; intros g Hl;
    cbn [massMoves fold_left]; [repeat split; assumption|].
  destruct (touchmove_locked t g Hl) as (H1 & H2 & H3 & H4 & H5).
  destruct (IH _ H1) as (I1 & I2 & I3 & I4 & I5). unfold massMoves in *.
  repeat split; congruence.
Qed.

(** A move is followed on screen exactly when the lock is horizontal, and then
    by the horizontal distance from the start; inside the dead zone of 10
    an unlocked recogniser stays unlocked; a move of no or several fingers is
    ignored; and the lock direction is set only together with the lock. *)
Theorem touchmove_follows_horizontal_lock (x y : Num.number) (g : Mass.Swipe) :
  lockConsistent g ->
  let g' := fst (Mass.touchmove [(x, y)] g) in
  let offset := snd (Mass.touchmove [(x, y)] g) in
  lockConsistent g'
  /\ lockConsistent (Mass.touchstart [(x, y)] (Num.of_Z 0) g)
  /\ (offset <> None <-> Mass.lockDir g' = Some Mass.h)
  /\ (forall dx, offset = Some dx -> dx = Num.sub x (Mass.startX g))
  /\ (Mass.locked g = false ->
      Num.ltb (Num.abs (Num.sub x (Mass.startX g))) (Num.of_Z 10) = true ->
      Num.ltb (Num.abs (Num.sub y (Mass.startY g))) (Num.of_Z 10) = true ->
      Mass.locked g' = false /\ offset = None)
  /\ Mass.touchmove [] g = (g, None)
  /\ (forall t1 t2 rest, Mass.touchmove (t1 :: t2 :: rest) g = (g, None)).
Proof.
  intros Hc g' offset. unfold lockConsistent in *.
  unfold g', offset, Mass.touchmove, Mass.touchstart.
  cbn [Mass.locked Mass.lockDir Mass.startX Mass.startY Mass.startTime].
  destruct (Mass.locked g) eqn:El; cbn [negb andb].
  - destruct (Mass.lockDir g) as [[|]|] eqn:Ed; cbn [fst snd Mass.locked Mass.lockDir];
      repeat split; try discriminate; try congruence; try reflexivity;
      try (intros; congruence);
      try (intros [? ?] ? ?; reflexivity).
  - rewrite (Hc eq_refl).
    destruct (Num.ltb (Num.abs (Num.sub x (Mass.startX g))) (Num.of_Z 10)
              && Num.ltb (Num.abs (Num.sub y (Mass.startY g))) (Num.of_Z 10))
      eqn:Ez; cbn [fst snd Mass.locked Mass.lockDir].
    + repeat split; try discriminate; try congruence; try reflexivity;
        try (intros; congruence);
      try (intros [? ?] ? ?; reflexivity).
    + destruct (Num.gtb (Num.abs (Num.sub x (Mass.startX g)))
                  (Num.abs (Num.sub y (Mass.startY g))));
        cbn [fst snd Mass.locked Mass.lockDir];
        repeat split; try discriminate; try congruence; try reflexivity;
        try (intros; congruence);
        try (intros [? ?] ? ?; reflexivity);
        try (apply andb_false_iff in Ez; destruct Ez; congruence).
Qed.

(** *** The recogniser of app.js *)

Lemma sub_self (x : Num.number) :
  Num.isFinite x = true -> Num.sub x x = S754_zero false.
Proof.
  destruct x as [s|s| |s m e]; try discriminate; intros _.
  - destruct s; reflexivity.
  - unfold Num.sub, SFsub. rewrite Z.sub_diag. reflexivity.
Qed.

(** A [touchend] always leaves the recogniser of app.js inactive, so that a
    second [touchend] without a new [touchstart] never navigates; and a
    [touchend] that carries no changed touch never navigates either, its end
    point being the start point. *)
Theorem touchend_needs_a_touchstart
  (c1 c2 : list (Num.number * Num.number)) (g : App.Swipe) :
  App.active (fst (App.touchend c1 g)) = false
  /\ snd (App.touchend c2 (fst (App.touchend c1 g))) = SnapBack
  /\ (App.active g = false -> App.touchend c1 g = (g, SnapBack))
  /\ (Num.isFinite (App.startX g) = true -> Num.isFinite (App.startY g) = true ->
      snd (App.touchend [] g) = SnapBack).
Proof.
  assert (H1 : App.active (fst (App.touchend c1 g)) = false).
  { unfold App.touchend. destruct (App.active g) eqn:Ea; cbn [negb]; [|exact Ea].
    destruct c1 as [|[x y] r];
      destruct (Num.gtb _ App.restraint); try reflexivity;
      destruct (Num.ltb _ App.threshold); try reflexivity;
      destruct (Num.gtb _ (Num.of_Z 0)); reflexivity. }
  split; [exact H1|]. split; [|split].
  - unfold App.touchend at 1. rewrite H1. reflexivity.
  - intros Ha. unfold App.touchend. rewrite Ha. reflexivity.
  - intros Hx Hy. unfold App.touchend.
    destruct (App.active g); cbn [negb]; [|reflexivity].
    rewrite (sub_self _ Hx), (sub_self _ Hy). reflexivity.
Qed.

End InputExtras.

(** ** Instances of the properties above *)
Module ExtraExamples.

Import DateSpec.

Open Scope string_scope.

Ltac in_range :=
  unfold inWindowRange, validClock; unfold minDay, JsDate.maxDay, Sample.today;
  change (JsDate.DayFromYear 100) with (-683003); lia.

Lemma sample_day : JsDate.dateOfISO "2026-11-01" = Some Sample.today.
Proof. vm_compute. reflexivity. Defined.

Lemma sample_valid_clock : validClock Sample.today.
Proof. in_range. Defined.

Lemma upsert_leaves_other_days_witness :
  "2026-10-29" <> "2026-11-01"
  /\ findEntry (upsertEntry (collation := CodeUnit.codeUnitOrder)
                  SampleMore.appStore "2026-11-01" (Num.of_Z 180) Sample.now)
       "2026-10-29"
     = findEntry SampleMore.appStore "2026-10-29".
Proof.
  assert (H : "2026-10-29" <> "2026-11-01") by discriminate.
  split; [exact H|].
  exact (proj1 (proj2 (StoreExtras.upsert_leaves_other_days
                         (collation := CodeUnit.codeUnitOrder)
                         SampleMore.appStore "2026-11-01" "2026-10-29"
                         (Num.of_Z 180) Sample.now H))).
Defined.

Lemma upserts_of_two_days_both_found_witness :
  "2026-10-31" <> "2026-11-01"
  /\ findEntry
       (upsertEntry (collation := CodeUnit.codeUnitOrder)
          (upsertEntry (collation := CodeUnit.codeUnitOrder)
             SampleMore.appStore "2026-10-31" (Num.of_Z 181) Sample.now)
          "2026-11-01" (Num.of_Z 180) Sample.now) "2026-10-31"
     = Some (mkEntry "2026-10-31" (Num.of_Z 181) Sample.now).
Proof.
  assert (H : "2026-10-31" <> "2026-11-01") by discriminate.
  split; [exact H|].
  exact (proj1 (StoreExtras.upserts_of_two_days_both_found
                  (collation := CodeUnit.codeUnitOrder)
                  SampleMore.appStore "2026-10-31" "2026-11-01"
                  (Num.of_Z 181) (Num.of_Z 180) Sample.now Sample.now H)).
Defined.

Lemma sample_store_safe :
  Forall jsonSafeEntry
    (entries (upsertEntry (collation := CodeUnit.codeUnitOrder)
                SampleMore.appStore "2026-11-01" (Num.of_Z 180) Sample.now)).
Proof. vm_compute. repeat (constructor; [split; reflexivity|]). constructor. Defined.

Lemma restart_after_upsert_witness :
  let s' :=
    upsertEntry (collation := CodeUnit.codeUnitOrder)
      SampleMore.appStore "2026-11-01" (Num.of_Z 180) Sample.now in
  Forall jsonSafeEntry (entries s')
  /\ initStore (collation := CodeUnit.codeUnitOrder) Mass.seed (storage s')
       Sample.today Sample.now = s'.
Proof.
  split; [exact sample_store_safe|].
  apply (StoreExtras.restart_after_upsert (collation := CodeUnit.codeUnitOrder)).
  exact sample_store_safe.
Defined.

Lemma shiftISO_adds_days_witness :
  JsDate.dateOfISO "2026-11-01" = Some Sample.today
  /\ shiftISO (shiftISO "2026-11-01" 60) (-30) = shiftISO "2026-11-01" (60 + -30).
Proof.
  split; [exact sample_day|].
  apply (DateExtras.shiftISO_adds_days "2026-11-01" Sample.today 60 (-30) sample_day);
    in_range.
Defined.

Lemma shiftISO_round_trip_witness :
  minDay <= Sample.today <= JsDate.maxDay
  /\ shiftISO (shiftISO (JsDate.formatISO Sample.today) 400) (- 400)
     = JsDate.formatISO Sample.today.
Proof.
  split; [in_range|].
  apply DateExtras.shiftISO_round_trip; in_range.
Defined.

Lemma isFutureISODate_compares_days_witness :
  validClock Sample.today
  /\ (isFutureISODate Sample.today "2026-11-01" = true <-> Sample.today < Sample.today).
Proof.
  split; [exact sample_valid_clock|].
  apply (DateExtras.isFutureISODate_compares_days Sample.today "2026-11-01"
           Sample.today sample_valid_clock sample_day).
Defined.

Lemma shiftISO_next_calendar_date_witness :
  JsDate.dateOfISO "2026-11-01" = Some Sample.today
  /\ let '(y, m, d) := calendarFields Sample.today in
     let '(y', m', d') := nextCalendarDay y m d in
     0 <= m <= 11
     /\ 1 <= d <= daysInMonth m (JsDate.InLeapYear y)
     /\ JsDate.fields (shiftISO "2026-11-01" 1) = Some (y', m' + 1, d').
Proof.
  split; [exact sample_day|].
  apply (DateExtras.shiftISO_next_calendar_date "2026-11-01" Sample.today sample_day).
  in_range.
Defined.

Lemma window_labels_are_dates_witness :
  JsDate.dateOfISO "2026-11-01" = Some Sample.today
  /\ map Chart.dayLabel (Chart.weekDays "2026-11-01")
     = map (fun k => Some (JsString.of_int (JsDate.DateFromDay k)))
         [Sample.today - 6; Sample.today - 5; Sample.today - 4; Sample.today - 3;
          Sample.today - 2; Sample.today - 1; Sample.today].
Proof.
  split; [exact sample_day|].
  apply (DateExtras.window_labels_are_dates "2026-11-01" Sample.today sample_day).
  in_range.
Defined.

Lemma sample_year : 1000 <= JsDate.YearFromDay Sample.today <= 9999.
Proof. vm_compute. split; discriminate. Defined.

Lemma isoToMMDDYY_of_date_witness :
  1000 <= JsDate.YearFromDay Sample.today <= 9999
  /\ isoToMMDDYY (JsDate.formatISO Sample.today)
     = JsString.padStart2 (JsString.of_int (JsDate.MonthFromDay Sample.today + 1))
       ++ "." ++ JsString.padStart2 (JsString.of_int (JsDate.DateFromDay Sample.today))
       ++ "." ++ JsString.padStart2
                   (JsString.of_int (JsDate.YearFromDay Sample.today mod 100)).
Proof.
  split; [exact sample_year|].
  apply DateExtras.isoToMMDDYY_of_date. exact sample_year.
Defined.

Lemma sample_typed_selected :
  Mass.selectedISO SampleMore.massTyped = JsDate.formatISO Sample.today.
Proof. vm_compute. reflexivity. Defined.

Lemma sample_typed_weight :
  parseWeight (Mass.weightInput SampleMore.massTyped) = Some (Num.of_decimal 1834 (-1)).
Proof. vm_compute. reflexivity. Defined.

Lemma swipe_away_and_back_witness :
  validClock Sample.today
  /\ Mass.selectedISO SampleMore.massTyped = JsDate.formatISO Sample.today
  /\ parseWeight (Mass.weightInput SampleMore.massTyped)
     = Some (Num.of_decimal 1834 (-1))
  /\ Mass.selectedISO
       (Mass.commitSwipe (collation := CodeUnit.codeUnitOrder)
          (format := Sample.blankFormat) Sample.today Sample.now left
          (Mass.commitSwipe (collation := CodeUnit.codeUnitOrder)
             (format := Sample.blankFormat) Sample.today Sample.now right
             SampleMore.massTyped))
     = JsDate.formatISO Sample.today.
Proof.
  split; [exact sample_valid_clock|]. split; [exact sample_typed_selected|].
  split; [exact sample_typed_weight|].
  refine (proj1 (proj2 (NavExtras.swipe_away_and_back
                          (collation := CodeUnit.codeUnitOrder)
                          (format := Sample.blankFormat)
                          Sample.today Sample.today Sample.now Sample.now
                          (Num.of_decimal 1834 (-1)) SampleMore.massTyped
                          sample_valid_clock _ sample_typed_selected
                          sample_typed_weight))).
  in_range.
Defined.

Lemma sample_app_reachable :
  AppSpec.reachable (collation := CodeUnit.codeUnitOrder)
    (format := Sample.blankFormat) Sample.today Sample.appTyped.
Proof.
  apply AppSpec.reach_step with (t := Sample.today);
    [|exact sample_valid_clock|lia].
  apply AppSpec.reach_init. exact sample_valid_clock.
Defined.

Lemma save_in_session_never_blocked_witness :
  AppSpec.reachable (collation := CodeUnit.codeUnitOrder)
    (format := Sample.blankFormat) Sample.today Sample.appTyped
  /\ validClock Sample.today
  /\ App.saveButton
       (App.onSave (collation := CodeUnit.codeUnitOrder)
          (format := Sample.blankFormat) Sample.today Sample.now Sample.appTyped)
     = App.saved.
Proof.
  split; [exact sample_app_reachable|]. split; [exact sample_valid_clock|].
  exact (proj2 (NavExtras.save_in_session_never_blocked
                  (collation := CodeUnit.codeUnitOrder)
                  (format := Sample.blankFormat)
                  Sample.today Sample.appTyped sample_app_reachable
                  Sample.today Sample.now sample_valid_clock (Z.le_refl _))).
Defined.

Lemma sample_locked : Mass.locked SampleMore.lockedSwipe = true.
Proof. vm_compute. reflexivity. Defined.

Lemma axis_lock_is_permanent_witness :
  Mass.locked SampleMore.lockedSwipe = true
  /\ Mass.lockDir
       (massMoves [(Num.of_Z 150, Num.of_Z 400); (Num.of_Z 100, Num.of_Z 500)]
          SampleMore.lockedSwipe)
     = Mass.lockDir SampleMore.lockedSwipe.
Proof.
  split; [exact sample_locked|].
  exact (proj1 (proj2 (InputExtras.axis_lock_is_permanent
                         [(Num.of_Z 150, Num.of_Z 400); (Num.of_Z 100, Num.of_Z 500)]
                         SampleMore.lockedSwipe sample_locked))).
Defined.

Lemma sample_lock_consistent : lockConsistent Mass.swipe0.
Proof. intros _. reflexivity. Defined.

Lemma touchmove_follows_horizontal_lock_witness :
  lockConsistent Mass.swipe0
  /\ lockConsistent
       (fst (Mass.touchmove [(Num.of_Z 50, Num.of_Z 2)] Mass.swipe0)).
Proof.
  split; [exact sample_lock_consistent|].
  exact (proj1 (InputExtras.touchmove_follows_horizontal_lock
                  (Num.of_Z 50) (Num.of_Z 2) Mass.swipe0 sample_lock_consistent)).
Defined.

End ExtraExamples.
